(** * Metro product scraper and importer: a shallow embedding

    This development embeds the pure logic of [metro_scraper.py] and the
    database effects of [csv_import_script.py] and proves the properties that
    the specification of the repository states about them.

    - Python strings are lists of Unicode code points ([pystr]).
    - Python floats are IEEE 754 binary64 numbers ([float] of [PrimFloat]).
    - Decoded JSON payloads are values of the tree type [json]; an object keeps
      its members in insertion order, as a Python [dict] does.
    - A Python exception is the [Raise] outcome of the result type [res].
    - Python sets are [gset]s of their members up to Python's equality
      ([key]), the destination table is a [gmap] keyed by barcode. *)

From Stdlib Require Import ZArith NArith List Bool String Ascii Lia.
From Stdlib Require Import PrimFloat SpecFloat FloatOps.
From stdpp Require Import gmap list.

Local Open Scope Z_scope.

(** ** Exceptions *)

Module Py.

Inductive exn : Type :=
| AttributeError
| KeyError
| IndexError
| TypeError
| ValueError
| OverflowError.

Inductive res (A : Type) : Type :=
| Ok (a : A)
| Raise (e : exn).

Arguments Ok {A} a.
Arguments Raise {A} e.

Definition bind {A B : Type} (c : res A) (k : A -> res B) : res B :=
  match c with
  | Ok a => k a
  | Raise e => Raise e
  end.

End Py.

Export Py.

Notation "'do' x <- c ; k" := (bind c (fun x => k))
  (at level 10, x name, c at level 100, k at level 200).

(** ** Strings *)

(** A Python [str] is a sequence of code points. *)
Abbreviation pystr := (list N).

(** String literals of the source are written as UTF-8 text and decoded. *)
Fixpoint utf8_decode (s : string) : pystr :=
  let cont c := (N_of_ascii c - 128)%N in
  match s with
  | EmptyString => []
  | String c s1 =>
      let b := N_of_ascii c in
      if (b <? 128)%N then b :: utf8_decode s1
      else if (b <? 224)%N then
        match s1 with
        | String c2 s2 => ((b - 192) * 64 + cont c2)%N :: utf8_decode s2
        | _ => [b]
        end
      else if (b <? 240)%N then
        match s1 with
        | String c2 (String c3 s3) =>
            ((b - 224) * 4096 + cont c2 * 64 + cont c3)%N :: utf8_decode s3
        | _ => [b]
        end
      else
        match s1 with
        | String c2 (String c3 (String c4 s4)) =>
            ((b - 240) * 262144 + cont c2 * 4096 + cont c3 * 64 + cont c4)%N
              :: utf8_decode s4
        | _ => [b]
        end
  end.

Arguments utf8_decode : simpl never.

Notation "'u' s" := (utf8_decode s%string) (at level 1, s at level 0, only parsing).

(** *** Character tables

    The tables below are those of the Unicode database that CPython 3.11
    ships (version 14.0.0). *)

(** [str.lower] on one code point: each entry [(lo, hi, step, delta)] maps
    the code points [lo, lo + step, ..., hi] to themselves plus [delta].
    U+0130 is the only code point whose lower case has two code points, and
    U+03A3 the only one whose lower case depends on its context. *)
Definition lower_table : list (Z * Z * Z * Z) :=
  [
    (65, 90, 1, 32); (192, 214, 1, 32); (216, 222, 1, 32); (256, 302, 2, 1);
    (306, 310, 2, 1); (313, 327, 2, 1); (330, 374, 2, 1); (376, 376, 1, (-121));
    (377, 381, 2, 1); (385, 385, 1, 210); (386, 388, 2, 1); (390, 390, 1, 206);
    (391, 391, 1, 1); (393, 394, 1, 205); (395, 395, 1, 1); (398, 398, 1, 79);
    (399, 399, 1, 202); (400, 400, 1, 203); (401, 401, 1, 1); (403, 403, 1, 205);
    (404, 404, 1, 207); (406, 406, 1, 211); (407, 407, 1, 209); (408, 408, 1, 1);
    (412, 412, 1, 211); (413, 413, 1, 213); (415, 415, 1, 214); (416, 420, 2, 1);
    (422, 422, 1, 218); (423, 423, 1, 1); (425, 425, 1, 218); (428, 428, 1, 1);
    (430, 430, 1, 218); (431, 431, 1, 1); (433, 434, 1, 217); (435, 437, 2, 1);
    (439, 439, 1, 219); (440, 440, 1, 1); (444, 444, 1, 1); (452, 452, 1, 2);
    (453, 453, 1, 1); (455, 455, 1, 2); (456, 456, 1, 1); (458, 458, 1, 2);
    (459, 475, 2, 1); (478, 494, 2, 1); (497, 497, 1, 2); (498, 500, 2, 1);
    (502, 502, 1, (-97)); (503, 503, 1, (-56)); (504, 542, 2, 1); (544, 544, 1, (-130));
    (546, 562, 2, 1); (570, 570, 1, 10795); (571, 571, 1, 1); (573, 573, 1, (-163));
    (574, 574, 1, 10792); (577, 577, 1, 1); (579, 579, 1, (-195)); (580, 580, 1, 69);
    (581, 581, 1, 71); (582, 590, 2, 1); (880, 882, 2, 1); (886, 886, 1, 1);
    (895, 895, 1, 116); (902, 902, 1, 38); (904, 906, 1, 37); (908, 908, 1, 64);
    (910, 911, 1, 63); (913, 929, 1, 32); (931, 939, 1, 32); (975, 975, 1, 8);
    (984, 1006, 2, 1); (1012, 1012, 1, (-60)); (1015, 1015, 1, 1); (1017, 1017, 1, (-7));
    (1018, 1018, 1, 1); (1021, 1023, 1, (-130)); (1024, 1039, 1, 80); (1040, 1071, 1, 32);
    (1120, 1152, 2, 1); (1162, 1214, 2, 1); (1216, 1216, 1, 15); (1217, 1229, 2, 1);
    (1232, 1326, 2, 1); (1329, 1366, 1, 48); (4256, 4293, 1, 7264); (4295, 4295, 1, 7264);
    (4301, 4301, 1, 7264); (5024, 5103, 1, 38864); (5104, 5109, 1, 8); (7312, 7354, 1, (-3008));
    (7357, 7359, 1, (-3008)); (7680, 7828, 2, 1); (7838, 7838, 1, (-7615)); (7840, 7934, 2, 1);
    (7944, 7951, 1, (-8)); (7960, 7965, 1, (-8)); (7976, 7983, 1, (-8)); (7992, 7999, 1, (-8));
    (8008, 8013, 1, (-8)); (8025, 8031, 2, (-8)); (8040, 8047, 1, (-8)); (8072, 8079, 1, (-8));
    (8088, 8095, 1, (-8)); (8104, 8111, 1, (-8)); (8120, 8121, 1, (-8)); (8122, 8123, 1, (-74));
    (8124, 8124, 1, (-9)); (8136, 8139, 1, (-86)); (8140, 8140, 1, (-9)); (8152, 8153, 1, (-8));
    (8154, 8155, 1, (-100)); (8168, 8169, 1, (-8)); (8170, 8171, 1, (-112)); (8172, 8172, 1, (-7));
    (8184, 8185, 1, (-128)); (8186, 8187, 1, (-126)); (8188, 8188, 1, (-9)); (8486, 8486, 1, (-7517));
    (8490, 8490, 1, (-8383)); (8491, 8491, 1, (-8262)); (8498, 8498, 1, 28); (8544, 8559, 1, 16);
    (8579, 8579, 1, 1); (9398, 9423, 1, 26); (11264, 11311, 1, 48); (11360, 11360, 1, 1);
    (11362, 11362, 1, (-10743)); (11363, 11363, 1, (-3814)); (11364, 11364, 1, (-10727)); (11367, 11371, 2, 1);
    (11373, 11373, 1, (-10780)); (11374, 11374, 1, (-10749)); (11375, 11375, 1, (-10783)); (11376, 11376, 1, (-10782));
    (11378, 11378, 1, 1); (11381, 11381, 1, 1); (11390, 11391, 1, (-10815)); (11392, 11490, 2, 1);
    (11499, 11501, 2, 1); (11506, 11506, 1, 1); (42560, 42604, 2, 1); (42624, 42650, 2, 1);
    (42786, 42798, 2, 1); (42802, 42862, 2, 1); (42873, 42875, 2, 1); (42877, 42877, 1, (-35332));
    (42878, 42886, 2, 1); (42891, 42891, 1, 1); (42893, 42893, 1, (-42280)); (42896, 42898, 2, 1);
    (42902, 42920, 2, 1); (42922, 42922, 1, (-42308)); (42923, 42923, 1, (-42319)); (42924, 42924, 1, (-42315));
    (42925, 42925, 1, (-42305)); (42926, 42926, 1, (-42308)); (42928, 42928, 1, (-42258)); (42929, 42929, 1, (-42282));
    (42930, 42930, 1, (-42261)); (42931, 42931, 1, 928); (42932, 42946, 2, 1); (42948, 42948, 1, (-48));
    (42949, 42949, 1, (-42307)); (42950, 42950, 1, (-35384)); (42951, 42953, 2, 1); (42960, 42960, 1, 1);
    (42966, 42968, 2, 1); (42997, 42997, 1, 1); (65313, 65338, 1, 32); (66560, 66599, 1, 40);
    (66736, 66771, 1, 40); (66928, 66938, 1, 39); (66940, 66954, 1, 39); (66956, 66962, 1, 39);
    (66964, 66965, 1, 39); (68736, 68786, 1, 64); (71840, 71871, 1, 32); (93760, 93791, 1, 32);
    (125184, 125217, 1, 34) ].

Fixpoint lower_lookup (t : list (Z * Z * Z * Z)) (c : Z) : Z :=
  match t with
  | [] => c
  | (lo, hi, step, delta) :: t' =>
      if (lo <=? c) && (c <=? hi) && ((c - lo) mod step =? 0)
      then c + delta
      else lower_lookup t' c
  end.

Definition lower_cp (c : N) : pystr :=
  if (c =? 304)%N then [105; 775]%N else [Z.to_N (lower_lookup lower_table (Z.of_N c))].

Definition in_ranges (t : list (N * N)) (c : N) : bool :=
  existsb (fun r => (fst r <=? c) && (c <=? snd r))%N t.

(** The code points with the property Cased, and those with the property
    Case_Ignorable, as inclusive ranges. *)
Definition cased_table : list (N * N) :=
  [ (65, 90); (97, 122); (170, 170); (181, 181); (186, 186); (192, 214);
    (216, 246); (248, 442); (444, 447); (452, 659); (661, 696); (704, 705);
    (736, 740); (837, 837); (880, 883); (886, 887); (890, 893); (895, 895);
    (902, 902); (904, 906); (908, 908); (910, 929); (931, 1013); (1015, 1153);
    (1162, 1327); (1329, 1366); (1376, 1416); (4256, 4293); (4295, 4295); (4301, 4301);
    (4304, 4346); (4349, 4351); (5024, 5109); (5112, 5117); (7296, 7304); (7312, 7354);
    (7357, 7359); (7424, 7615); (7680, 7957); (7960, 7965); (7968, 8005); (8008, 8013);
    (8016, 8023); (8025, 8025); (8027, 8027); (8029, 8029); (8031, 8061); (8064, 8116);
    (8118, 8124); (8126, 8126); (8130, 8132); (8134, 8140); (8144, 8147); (8150, 8155);
    (8160, 8172); (8178, 8180); (8182, 8188); (8305, 8305); (8319, 8319); (8336, 8348);
    (8450, 8450); (8455, 8455); (8458, 8467); (8469, 8469); (8473, 8477); (8484, 8484);
    (8486, 8486); (8488, 8488); (8490, 8493); (8495, 8500); (8505, 8505); (8508, 8511);
    (8517, 8521); (8526, 8526); (8544, 8575); (8579, 8580); (9398, 9449); (11264, 11492);
    (11499, 11502); (11506, 11507); (11520, 11557); (11559, 11559); (11565, 11565); (42560, 42605);
    (42624, 42653); (42786, 42887); (42891, 42894); (42896, 42954); (42960, 42961); (42963, 42963);
    (42965, 42969); (42997, 42998); (43000, 43002); (43824, 43866); (43868, 43880); (43888, 43967);
    (64256, 64262); (64275, 64279); (65313, 65338); (65345, 65370); (66560, 66639); (66736, 66771);
    (66776, 66811); (66928, 66938); (66940, 66954); (66956, 66962); (66964, 66965); (66967, 66977);
    (66979, 66993); (66995, 67001); (67003, 67004); (67456, 67456); (67459, 67461); (67463, 67504);
    (67506, 67514); (68736, 68786); (68800, 68850); (71840, 71903); (93760, 93823); (119808, 119892);
    (119894, 119964); (119966, 119967); (119970, 119970); (119973, 119974); (119977, 119980); (119982, 119993);
    (119995, 119995); (119997, 120003); (120005, 120069); (120071, 120074); (120077, 120084); (120086, 120092);
    (120094, 120121); (120123, 120126); (120128, 120132); (120134, 120134); (120138, 120144); (120146, 120485);
    (120488, 120512); (120514, 120538); (120540, 120570); (120572, 120596); (120598, 120628); (120630, 120654);
    (120656, 120686); (120688, 120712); (120714, 120744); (120746, 120770); (120772, 120779); (122624, 122633);
    (122635, 122654); (125184, 125251); (127280, 127305); (127312, 127337); (127344, 127369) ]%N.

Definition case_ignorable_table : list (N * N) :=
  [ (39, 39); (46, 46); (58, 58); (94, 94); (96, 96); (168, 168);
    (173, 173); (175, 175); (180, 180); (183, 184); (688, 879); (884, 885);
    (890, 890); (900, 901); (903, 903); (1155, 1161); (1369, 1369); (1375, 1375);
    (1425, 1469); (1471, 1471); (1473, 1474); (1476, 1477); (1479, 1479); (1524, 1524);
    (1536, 1541); (1552, 1562); (1564, 1564); (1600, 1600); (1611, 1631); (1648, 1648);
    (1750, 1757); (1759, 1768); (1770, 1773); (1807, 1807); (1809, 1809); (1840, 1866);
    (1958, 1968); (2027, 2037); (2042, 2042); (2045, 2045); (2070, 2093); (2137, 2139);
    (2184, 2184); (2192, 2193); (2200, 2207); (2249, 2306); (2362, 2362); (2364, 2364);
    (2369, 2376); (2381, 2381); (2385, 2391); (2402, 2403); (2417, 2417); (2433, 2433);
    (2492, 2492); (2497, 2500); (2509, 2509); (2530, 2531); (2558, 2558); (2561, 2562);
    (2620, 2620); (2625, 2626); (2631, 2632); (2635, 2637); (2641, 2641); (2672, 2673);
    (2677, 2677); (2689, 2690); (2748, 2748); (2753, 2757); (2759, 2760); (2765, 2765);
    (2786, 2787); (2810, 2815); (2817, 2817); (2876, 2876); (2879, 2879); (2881, 2884);
    (2893, 2893); (2901, 2902); (2914, 2915); (2946, 2946); (3008, 3008); (3021, 3021);
    (3072, 3072); (3076, 3076); (3132, 3132); (3134, 3136); (3142, 3144); (3146, 3149);
    (3157, 3158); (3170, 3171); (3201, 3201); (3260, 3260); (3263, 3263); (3270, 3270);
    (3276, 3277); (3298, 3299); (3328, 3329); (3387, 3388); (3393, 3396); (3405, 3405);
    (3426, 3427); (3457, 3457); (3530, 3530); (3538, 3540); (3542, 3542); (3633, 3633);
    (3636, 3642); (3654, 3662); (3761, 3761); (3764, 3772); (3782, 3782); (3784, 3789);
    (3864, 3865); (3893, 3893); (3895, 3895); (3897, 3897); (3953, 3966); (3968, 3972);
    (3974, 3975); (3981, 3991); (3993, 4028); (4038, 4038); (4141, 4144); (4146, 4151);
    (4153, 4154); (4157, 4158); (4184, 4185); (4190, 4192); (4209, 4212); (4226, 4226);
    (4229, 4230); (4237, 4237); (4253, 4253); (4348, 4348); (4957, 4959); (5906, 5908);
    (5938, 5939); (5970, 5971); (6002, 6003); (6068, 6069); (6071, 6077); (6086, 6086);
    (6089, 6099); (6103, 6103); (6109, 6109); (6155, 6159); (6211, 6211); (6277, 6278);
    (6313, 6313); (6432, 6434); (6439, 6440); (6450, 6450); (6457, 6459); (6679, 6680);
    (6683, 6683); (6742, 6742); (6744, 6750); (6752, 6752); (6754, 6754); (6757, 6764);
    (6771, 6780); (6783, 6783); (6823, 6823); (6832, 6862); (6912, 6915); (6964, 6964);
    (6966, 6970); (6972, 6972); (6978, 6978); (7019, 7027); (7040, 7041); (7074, 7077);
    (7080, 7081); (7083, 7085); (7142, 7142); (7144, 7145); (7149, 7149); (7151, 7153);
    (7212, 7219); (7222, 7223); (7288, 7293); (7376, 7378); (7380, 7392); (7394, 7400);
    (7405, 7405); (7412, 7412); (7416, 7417); (7468, 7530); (7544, 7544); (7579, 7679);
    (8125, 8125); (8127, 8129); (8141, 8143); (8157, 8159); (8173, 8175); (8189, 8190);
    (8203, 8207); (8216, 8217); (8228, 8228); (8231, 8231); (8234, 8238); (8288, 8292);
    (8294, 8303); (8305, 8305); (8319, 8319); (8336, 8348); (8400, 8432); (11388, 11389);
    (11503, 11505); (11631, 11631); (11647, 11647); (11744, 11775); (11823, 11823); (12293, 12293);
    (12330, 12333); (12337, 12341); (12347, 12347); (12441, 12446); (12540, 12542); (40981, 40981);
    (42232, 42237); (42508, 42508); (42607, 42610); (42612, 42621); (42623, 42623); (42652, 42655);
    (42736, 42737); (42752, 42785); (42864, 42864); (42888, 42890); (42994, 42996); (43000, 43001);
    (43010, 43010); (43014, 43014); (43019, 43019); (43045, 43046); (43052, 43052); (43204, 43205);
    (43232, 43249); (43263, 43263); (43302, 43309); (43335, 43345); (43392, 43394); (43443, 43443);
    (43446, 43449); (43452, 43453); (43471, 43471); (43493, 43494); (43561, 43566); (43569, 43570);
    (43573, 43574); (43587, 43587); (43596, 43596); (43632, 43632); (43644, 43644); (43696, 43696);
    (43698, 43700); (43703, 43704); (43710, 43711); (43713, 43713); (43741, 43741); (43756, 43757);
    (43763, 43764); (43766, 43766); (43867, 43871); (43881, 43883); (44005, 44005); (44008, 44008);
    (44013, 44013); (64286, 64286); (64434, 64450); (65024, 65039); (65043, 65043); (65056, 65071);
    (65106, 65106); (65109, 65109); (65279, 65279); (65287, 65287); (65294, 65294); (65306, 65306);
    (65342, 65342); (65344, 65344); (65392, 65392); (65438, 65439); (65507, 65507); (65529, 65531);
    (66045, 66045); (66272, 66272); (66422, 66426); (67456, 67461); (67463, 67504); (67506, 67514);
    (68097, 68099); (68101, 68102); (68108, 68111); (68152, 68154); (68159, 68159); (68325, 68326);
    (68900, 68903); (69291, 69292); (69446, 69456); (69506, 69509); (69633, 69633); (69688, 69702);
    (69744, 69744); (69747, 69748); (69759, 69761); (69811, 69814); (69817, 69818); (69821, 69821);
    (69826, 69826); (69837, 69837); (69888, 69890); (69927, 69931); (69933, 69940); (70003, 70003);
    (70016, 70017); (70070, 70078); (70089, 70092); (70095, 70095); (70191, 70193); (70196, 70196);
    (70198, 70199); (70206, 70206); (70367, 70367); (70371, 70378); (70400, 70401); (70459, 70460);
    (70464, 70464); (70502, 70508); (70512, 70516); (70712, 70719); (70722, 70724); (70726, 70726);
    (70750, 70750); (70835, 70840); (70842, 70842); (70847, 70848); (70850, 70851); (71090, 71093);
    (71100, 71101); (71103, 71104); (71132, 71133); (71219, 71226); (71229, 71229); (71231, 71232);
    (71339, 71339); (71341, 71341); (71344, 71349); (71351, 71351); (71453, 71455); (71458, 71461);
    (71463, 71467); (71727, 71735); (71737, 71738); (71995, 71996); (71998, 71998); (72003, 72003);
    (72148, 72151); (72154, 72155); (72160, 72160); (72193, 72202); (72243, 72248); (72251, 72254);
    (72263, 72263); (72273, 72278); (72281, 72283); (72330, 72342); (72344, 72345); (72752, 72758);
    (72760, 72765); (72767, 72767); (72850, 72871); (72874, 72880); (72882, 72883); (72885, 72886);
    (73009, 73014); (73018, 73018); (73020, 73021); (73023, 73029); (73031, 73031); (73104, 73105);
    (73109, 73109); (73111, 73111); (73459, 73460); (78896, 78904); (92912, 92916); (92976, 92982);
    (92992, 92995); (94031, 94031); (94095, 94111); (94176, 94177); (94179, 94180); (110576, 110579);
    (110581, 110587); (110589, 110590); (113821, 113822); (113824, 113827); (118528, 118573); (118576, 118598);
    (119143, 119145); (119155, 119170); (119173, 119179); (119210, 119213); (119362, 119364); (121344, 121398);
    (121403, 121452); (121461, 121461); (121476, 121476); (121499, 121503); (121505, 121519); (122880, 122886);
    (122888, 122904); (122907, 122913); (122915, 122916); (122918, 122922); (123184, 123197); (123566, 123566);
    (123628, 123631); (125136, 125142); (125252, 125259); (127995, 127999); (917505, 917505); (917536, 917631);
    (917760, 917999) ]%N.

Definition cased (c : N) : bool := in_ranges cased_table c.

Definition case_ignorable (c : N) : bool := in_ranges case_ignorable_table c.

(** The first code point of [s] that is not case-ignorable is cased. *)
Fixpoint cased_next (s : pystr) : bool :=
  match s with
  | [] => false
  | c :: s' => if case_ignorable c then cased_next s' else cased c
  end.

(** A capital sigma is final when a cased code point precedes it and none
    follows it, case-ignorable code points being skipped on both sides;
    [before] is what precedes it, the nearest code point first. *)
Definition final_sigma (before after : pystr) : bool :=
  cased_next before && negb (cased_next after).

Fixpoint lower_from (before s : pystr) : pystr :=
  match s with
  | [] => []
  | c :: s' =>
      (if (c =? 931)%N
       then [if final_sigma before s' then 962%N else 963%N]
       else lower_cp c)
      ++ lower_from (c :: before) s'
  end.

(** [s.lower()] *)
Definition lower (s : pystr) : pystr := lower_from [] s.

(** [str.isdigit] on one code point (Numeric_Type Digit or Decimal). *)
Definition digit_table : list (N * N) :=
  [
    (48, 57); (178, 179); (185, 185); (1632, 1641); (1776, 1785); (1984, 1993);
    (2406, 2415); (2534, 2543); (2662, 2671); (2790, 2799); (2918, 2927); (3046, 3055);
    (3174, 3183); (3302, 3311); (3430, 3439); (3558, 3567); (3664, 3673); (3792, 3801);
    (3872, 3881); (4160, 4169); (4240, 4249); (4969, 4977); (6112, 6121); (6160, 6169);
    (6470, 6479); (6608, 6618); (6784, 6793); (6800, 6809); (6992, 7001); (7088, 7097);
    (7232, 7241); (7248, 7257); (8304, 8304); (8308, 8313); (8320, 8329); (9312, 9320);
    (9332, 9340); (9352, 9360); (9450, 9450); (9461, 9469); (9471, 9471); (10102, 10110);
    (10112, 10120); (10122, 10130); (42528, 42537); (43216, 43225); (43264, 43273); (43472, 43481);
    (43504, 43513); (43600, 43609); (44016, 44025); (65296, 65305); (66720, 66729); (68160, 68163);
    (68912, 68921); (69216, 69224); (69714, 69722); (69734, 69743); (69872, 69881); (69942, 69951);
    (70096, 70105); (70384, 70393); (70736, 70745); (70864, 70873); (71248, 71257); (71360, 71369);
    (71472, 71481); (71904, 71913); (72016, 72025); (72784, 72793); (73040, 73049); (73120, 73129);
    (92768, 92777); (92864, 92873); (93008, 93017); (120782, 120831); (123200, 123209); (123632, 123641);
    (125264, 125273); (127232, 127242); (130032, 130041) ]%N.

(** Code points with Numeric_Type Decimal; in each range the digit value of
    [c] is [(c - lo) mod 10]. *)
Definition decimal_table : list (N * N) :=
  [
    (48, 57); (1632, 1641); (1776, 1785); (1984, 1993); (2406, 2415); (2534, 2543);
    (2662, 2671); (2790, 2799); (2918, 2927); (3046, 3055); (3174, 3183); (3302, 3311);
    (3430, 3439); (3558, 3567); (3664, 3673); (3792, 3801); (3872, 3881); (4160, 4169);
    (4240, 4249); (6112, 6121); (6160, 6169); (6470, 6479); (6608, 6617); (6784, 6793);
    (6800, 6809); (6992, 7001); (7088, 7097); (7232, 7241); (7248, 7257); (42528, 42537);
    (43216, 43225); (43264, 43273); (43472, 43481); (43504, 43513); (43600, 43609); (44016, 44025);
    (65296, 65305); (66720, 66729); (68912, 68921); (69734, 69743); (69872, 69881); (69942, 69951);
    (70096, 70105); (70384, 70393); (70736, 70745); (70864, 70873); (71248, 71257); (71360, 71369);
    (71472, 71481); (71904, 71913); (72016, 72025); (72784, 72793); (73040, 73049); (73120, 73129);
    (92768, 92777); (92864, 92873); (93008, 93017); (120782, 120831); (123200, 123209); (123632, 123641);
    (125264, 125273); (130032, 130041) ]%N.

Definition isdigit_cp (c : N) : bool := in_ranges digit_table c.

(** [s.isdigit()]: every character is a digit and there is at least one. *)
Definition isdigit (s : pystr) : bool :=
  negb (Nat.eqb (length s) 0) && forallb isdigit_cp s.

(** [str.isspace] on one code point. *)
Definition isspace_cp (c : N) : bool :=
  in_ranges [(9, 13); (28, 32); (133, 133); (160, 160); (5760, 5760);
             (8192, 8202); (8232, 8233); (8239, 8239); (8287, 8287);
             (12288, 12288)]%N c.

Fixpoint lstrip (s : pystr) : pystr :=
  match s with
  | c :: s' => if isspace_cp c then lstrip s' else s
  | [] => []
  end.

(** [s.strip()] *)
Definition strip (s : pystr) : pystr := rev (lstrip (rev (lstrip s))).

Definition pystr_eqb (a b : pystr) : bool := bool_decide (a = b).

Fixpoint startswith (s p : pystr) {struct p} : bool :=
  match p, s with
  | [], _ => true
  | c :: p', d :: s' => (c =? d)%N && startswith s' p'
  | _ :: _, [] => false
  end.

(** [k in s] for two strings: [k] occurs in [s] as a contiguous block. *)
Fixpoint contains (s k : pystr) : bool :=
  startswith s k ||
  match s with
  | [] => false
  | _ :: s' => contains s' k
  end.

(** [sep.join(parts)] *)
Fixpoint join (sep : pystr) (parts : list pystr) : pystr :=
  match parts with
  | [] => []
  | [p] => p
  | p :: ps => p ++ sep ++ join sep ps
  end.

(** Slices with a negative bound: [s[-n:]] and [s[:-n]] for [n > 0].  A
    bound that reaches past the start of the string is clipped to it. *)
Definition slice_last (n : nat) (s : pystr) : pystr := drop (length s - n)%nat s.
Definition slice_but_last (n : nat) (s : pystr) : pystr := take (length s - n)%nat s.

(** ** Floats *)

(** The binary64 number nearest to [m * 10 ^ e] for [m >= 0] (ties to even),
    negated when [neg] is set.  A negative exponent is a division of two
    integers, rounded once. *)
Definition float_of_decimal (neg : bool) (m e : Z) : float :=
  SF2Prim
    (match m with
     | Z0 => S754_zero neg
     | Zpos p =>
         if 0 <=? e then binary_round prec emax neg (p * Z.to_pos (10 ^ e))%positive 0
         else
           let '(q, eq, loc) := SFdiv_core_binary prec emax m 0 (10 ^ (- e)) 0 in
           binary_round_aux prec emax neg q eq loc
     | Zneg _ => S754_nan
     end).

(** [float(n)] for a Python [int]: nearest binary64 number, or
    [OverflowError] when that is out of range. *)
Definition float_of_int (n : Z) : res float :=
  let f := SF2Prim (binary_normalize prec emax n 0 false) in
  if is_infinity f then Raise OverflowError else Ok f.

(** *** [float(s)] for a string

    Decimal digits of any script read as ASCII digits and white space
    outside ASCII as a blank; the text is then stripped of ASCII white space
    and must be, as a whole, a signed decimal numeral (with single
    underscores allowed between digits), or one of [inf], [infinity] and
    [nan] in any letter case. *)

Definition ascii_isspace (c : N) : bool := ((9 <=? c) && (c <=? 13) || (c =? 32))%N.
Definition ascii_isdigit (c : N) : bool := ((48 <=? c) && (c <=? 57))%N.

Fixpoint decimal_value (t : list (N * N)) (c : N) : option N :=
  match t with
  | [] => None
  | (lo, hi) :: t' =>
      if ((lo <=? c) && (c <=? hi))%N then Some ((c - lo) mod 10)%N
      else decimal_value t' c
  end.

(** One character of the text handed to the numeral parser; [None] marks a
    character that no numeral contains. *)
Definition to_ascii_cp (c : N) : option N :=
  if (c <? 127)%N then Some c
  else if isspace_cp c then Some 32%N
  else match decimal_value decimal_table c with
       | Some d => Some (48 + d)%N
       | None => None
       end.

Fixpoint to_ascii (s : pystr) : option pystr :=
  match s with
  | [] => Some []
  | c :: s' =>
      match to_ascii_cp c, to_ascii s' with
      | Some a, Some r => Some (a :: r)
      | _, _ => None
      end
  end.

Fixpoint ascii_lstrip (s : pystr) : pystr :=
  match s with
  | c :: s' => if ascii_isspace c then ascii_lstrip s' else s
  | [] => []
  end.

Definition ascii_strip (s : pystr) : pystr :=
  rev (ascii_lstrip (rev (ascii_lstrip s))).

(** Underscores are dropped when each stands between two digits. *)
Fixpoint drop_underscores (prev : N) (s : pystr) : option pystr :=
  match s with
  | [] => if (prev =? 95)%N then None else Some []
  | c :: s' =>
      if (c =? 95)%N then
        if ascii_isdigit prev then drop_underscores c s' else None
      else if (prev =? 95)%N && negb (ascii_isdigit c) then None
      else option_map (cons c) (drop_underscores c s')
  end.

(** Reads a run of digits: the number read so far, how many digits were
    read, and the rest of the text. *)
Fixpoint read_digits (s : pystr) (acc : Z) (n : nat) : Z * nat * pystr :=
  match s with
  | c :: s' =>
      if ascii_isdigit c then read_digits s' (10 * acc + Z.of_N (c - 48)) (S n)
      else (acc, n, s)
  | [] => (acc, n, [])
  end.

Definition read_sign (s : pystr) : bool * pystr :=
  match s with
  | 45%N :: s' => (true, s')
  | 43%N :: s' => (false, s')
  | _ => (false, s)
  end.

Definition ascii_lower (s : pystr) : pystr :=
  map (fun c => if ((65 <=? c) && (c <=? 90))%N then (c + 32)%N else c) s.

(** The mantissa and decimal exponent of an unsigned decimal numeral. *)
Definition parse_decimal (s : pystr) : option (Z * Z) :=
  let '(ip, ni, r1) := read_digits s 0 0 in
  let '(m, nf, r2) :=
    match r1 with
    | 46%N :: r => read_digits r ip 0
    | _ => (ip, 0%nat, r1)
    end in
  if Nat.eqb (ni + nf) 0 then None
  else
    match r2 with
    | [] => Some (m, - Z.of_nat nf)
    | c :: r3 =>
        if ((c =? 101) || (c =? 69))%N then
          let '(eneg, r4) := read_sign r3 in
          let '(ev, ne, r5) := read_digits r4 0 0 in
          match ne, r5 with
          | S _, [] => Some (m, (if eneg then - ev else ev) - Z.of_nat nf)
          | _, _ => None
          end
        else None
    end.

Definition parse_float (s : pystr) : option float :=
  match to_ascii s with
  | None => None
  | Some a =>
      match drop_underscores 0%N (ascii_strip a) with
      | None => None
      | Some t =>
          let '(neg, body) := read_sign t in
          let word := ascii_lower body in
          if pystr_eqb word (u"inf") || pystr_eqb word (u"infinity")
          then Some (if neg then neg_infinity else infinity)
          else if pystr_eqb word (u"nan") then Some nan
          else option_map (fun me => float_of_decimal neg (fst me) (snd me))
                          (parse_decimal body)
      end
  end.

(** [round(x, 1)]: the exact value of [x] is rounded to one decimal place,
    ties to the even digit, and the decimal result is read back as a float.
    Zeros, infinities and NaN are returned as they are. *)
Definition round_half_even (num den : Z) : Z :=
  let q := num / den in
  let r := num mod den in
  match 2 * r ?= den with
  | Lt => q
  | Gt => q + 1
  | Eq => if Z.even q then q else q + 1
  end.

Definition round1 (x : float) : float :=
  match Prim2SF x with
  | S754_finite s m e =>
      let tenths :=
        if 0 <=? e then 10 * Zpos m * 2 ^ e
        else round_half_even (10 * Zpos m) (2 ^ (- e)) in
      float_of_decimal s tenths (-1)
  | _ => x
  end.

(** The literal [4.184] of the source. *)
Definition kj_per_kcal : float := Eval vm_compute in float_of_decimal false 4184 (-3).

(** [bool(x)] for a float. *)
Definition float_truthy (x : float) : bool := negb (PrimFloat.eqb x 0%float).

(** ** Decoded JSON values

    What [response.json()] returns.  The members of an object are kept in
    the order in which they were inserted, and their keys are distinct. *)

#[local] Set Warnings "-register-all".

Inductive json : Type :=
| JNull
| JBool (b : bool)
| JInt (n : Z)
| JFloat (x : float)
| JStr (s : pystr)
| JList (items : list json)
| JDict (members : list (pystr * json)).

(** [bool(v)] *)
Definition truthy (v : json) : bool :=
  match v with
  | JNull => false
  | JBool b => b
  | JInt n => negb (n =? 0)
  | JFloat x => float_truthy x
  | JStr s => negb (Nat.eqb (length s) 0)
  | JList l => negb (Nat.eqb (length l) 0)
  | JDict d => negb (Nat.eqb (length d) 0)
  end.

Fixpoint assoc (k : pystr) (d : list (pystr * json)) : option json :=
  match d with
  | [] => None
  | (k', v) :: d' => if pystr_eqb k k' then Some v else assoc k d'
  end.

(** [v.get(k, default)] *)
Definition get (v : json) (k : pystr) (default : json) : res json :=
  match v with
  | JDict d => Ok (match assoc k d with Some x => x | None => default end)
  | _ => Raise AttributeError
  end.

(** [v == s] for a string [s] *)
Definition eq_str (v : json) (s : pystr) : bool :=
  match v with
  | JStr t => pystr_eqb t s
  | _ => false
  end.

(** [k in v] for a string [k] *)
Definition has (v : json) (k : pystr) : res bool :=
  match v with
  | JDict d => Ok (match assoc k d with Some _ => true | None => false end)
  | JList l => Ok (existsb (fun x => eq_str x k) l)
  | JStr s => Ok (contains s k)
  | _ => Raise TypeError
  end.

(** [v[k]] for a string [k] *)
Definition item (v : json) (k : pystr) : res json :=
  match v with
  | JDict d => match assoc k d with Some x => Ok x | None => Raise KeyError end
  | _ => Raise TypeError
  end.

(** [v[0]] *)
Definition item0 (v : json) : res json :=
  match v with
  | JList (x :: _) => Ok x
  | JStr (c :: _) => Ok (JStr [c])
  | JList [] | JStr [] => Raise IndexError
  | JDict _ => Raise KeyError
  | _ => Raise TypeError
  end.

(** [len(v)] *)
Definition len (v : json) : res nat :=
  match v with
  | JStr s => Ok (length s)
  | JList l => Ok (length l)
  | JDict d => Ok (length d)
  | _ => Raise TypeError
  end.

(** The elements that [for x in v] visits. *)
Definition iter (v : json) : res (list json) :=
  match v with
  | JList l => Ok l
  | JStr s => Ok (map (fun c => JStr [c]) s)
  | JDict d => Ok (map (fun kv => JStr (fst kv)) d)
  | _ => Raise TypeError
  end.

(** [list(v.values())] and [list(v.items())] *)
Definition values (v : json) : res (list json) :=
  match v with
  | JDict d => Ok (map snd d)
  | _ => Raise AttributeError
  end.

Definition items (v : json) : res (list (pystr * json)) :=
  match v with
  | JDict d => Ok d
  | _ => Raise AttributeError
  end.

(** [v.lower()], [v.strip()] and [v.startswith(p)] exist on strings only. *)
Definition str_lower (v : json) : res pystr :=
  match v with
  | JStr s => Ok (lower s)
  | _ => Raise AttributeError
  end.

Definition str_strip (v : json) : res pystr :=
  match v with
  | JStr s => Ok (strip s)
  | _ => Raise AttributeError
  end.

Definition str_startswith (v : json) (p : pystr) : res bool :=
  match v with
  | JStr s => Ok (startswith s p)
  | _ => Raise AttributeError
  end.

(** [float(v)] *)
Definition py_float (v : json) : res float :=
  match v with
  | JStr s => match parse_float s with Some x => Ok x | None => Raise ValueError end
  | JInt n => float_of_int n
  | JFloat x => Ok x
  | JBool b => Ok (if b then 1%float else 0%float)
  | JNull | JList _ | JDict _ => Raise TypeError
  end.

(** [sep.join(parts)] needs every part to be a string. *)
Fixpoint as_strs (parts : list json) : res (list pystr) :=
  match parts with
  | [] => Ok []
  | JStr s :: ps => do r <- as_strs ps; Ok (s :: r)
  | _ :: _ => Raise TypeError
  end.

(** A Python value that is either [None] or a float. *)
Definition opt_truthy (o : option float) : bool :=
  match o with
  | Some x => float_truthy x
  | None => false
  end.

(** * The scraper ([metro_scraper.py]) *)

(** ** [convert_variant_to_article_id] *)

Definition convert_variant_to_article_id (variant_id : pystr) : pystr :=
  if (4 <? Z.of_nat (length variant_id)) && isdigit (slice_last 4 variant_id)
  then slice_but_last 4 variant_id
  else variant_id.

(** ** [extract_nutritional_value] *)

(** The body of the [try] block, for the first cell of a matching row. *)
Definition cell_number (unit : option pystr) (cell : json) : res float :=
  do raw <- get cell (u"value") (JStr []);
  do value <- py_float raw;
  do cu <- get cell (u"unitOfMeasure") (JStr []);
  do cell_unit <- str_lower cu;
  match unit with
  | Some un =>
      if truthy (JStr un) && negb (pystr_eqb (lower un) cell_unit) then
        if pystr_eqb (lower un) (u"mg") && pystr_eqb cell_unit (u"g")
        then Ok (value * 1000)%float
        else Ok value
      else Ok value
  | None => Ok value
  end.

(** One turn of the loop over the rows: [Some x] when the function returns
    [x] at this row, [None] when the loop goes on to the next row.  Only
    [ValueError] and [TypeError] from the [try] block are handled. *)
Definition scan_row (label_keywords : list pystr) (unit : option pystr)
    (row : json) : res (option float) :=
  do lbl <- get row (u"rowLabel") (JStr []);
  do row_label <- str_lower lbl;
  do cells <- get row (u"cells") (JList []);
  if existsb (fun keyword => contains row_label keyword) label_keywords then
    do n <- len cells;
    if (1 <=? n)%nat then
      do c0 <- item0 cells;
      do v <- get c0 (u"value") JNull;
      if truthy v then
        match cell_number unit c0 with
        | Ok x => Ok (Some x)
        | Raise ValueError | Raise TypeError => Ok None
        | Raise e => Raise e
        end
      else Ok None
    else Ok None
  else Ok None.

Fixpoint scan_rows (label_keywords : list pystr) (unit : option pystr)
    (rows : list json) : res (option float) :=
  match rows with
  | [] => Ok None
  | row :: rows' =>
      do r <- scan_row label_keywords unit row;
      match r with
      | Some x => Ok (Some x)
      | None => scan_rows label_keywords unit rows'
      end
  end.

Definition extract_nutritional_value (nutrition_table : json)
    (label_keywords : list pystr) (unit : option pystr) : res (option float) :=
  if negb (truthy nutrition_table) then Ok None
  else
    do has_rows <- has nutrition_table (u"rows");
    if negb has_rows then Ok None
    else
      do rows <- item nutrition_table (u"rows");
      do l <- iter rows;
      scan_rows label_keywords unit l.

(** ** [extract_ingredients] *)

(** The inner loop over the leafs of an ingredient statement, with the
    list [ingredient_parts] that it appends to. *)
Fixpoint ingredient_loop (leafs : list json) (ingredient_parts : list pystr)
    : res (list pystr) :=
  match leafs with
  | [] => Ok ingredient_parts
  | leaf :: leafs' =>
      do meta_info <- get leaf (u"metaInfo") (JStr []);
      if eq_str meta_info (u"Contains") || eq_str meta_info [] then
        do lbl <- get leaf (u"label") JNull;
        if truthy lbl then
          do raw <- get leaf (u"label") (JStr []);
          do label <- str_strip raw;
          if negb (Nat.eqb (length label) 0)
             && negb (pystr_eqb label (u"INGREDIENTS") || pystr_eqb label (u"(")
                      || pystr_eqb label (u")"))
          then ingredient_loop leafs' (ingredient_parts ++ [label])
          else ingredient_loop leafs' ingredient_parts
        else ingredient_loop leafs' ingredient_parts
      else ingredient_loop leafs' ingredient_parts
  end.

Fixpoint scan_features (features : list json) : res (option pystr) :=
  match features with
  | [] => Ok None
  | feature :: features' =>
      do ft <- get feature (u"featureType") JNull;
      if eq_str ft (u"ingredientStatement") then
        do leafs <- get feature (u"leafs") (JList []);
        do l <- iter leafs;
        do parts <- ingredient_loop l [];
        match parts with
        | [] => scan_features features'
        | _ :: _ => Ok (Some (join (u" ") parts))
        end
      else scan_features features'
  end.

Definition extract_ingredients (features : json) : res (option pystr) :=
  do l <- iter features;
  scan_features l.

(** ** [extract_product_data] *)

(** The flat record of the destination schema.  [JNull] is Python's [None]
    in the fields that carry a payload value as it is. *)
Record product : Type := {
  code : json;
  product_name : json;
  quantity : option pystr;
  brand : json;
  categories : option pystr;
  ingredients : option pystr;
  image_url : json;
  nutriscore_grade : json;
  energy_100g : option float;
  fat_100g : option float;
  saturated_fat_100g : option float;
  proteins_100g : option float;
  carbohydrates_100g : option float;
  sugars_100g : option float;
  fiber_100g : option float;
  sodium_100g : option float
}.

(** The [nutrition_data] dictionary: empty, or holding the eight values. *)
Record nutrition : Type := {
  n_energy : option float;
  n_fat : option float;
  n_saturated_fat : option float;
  n_proteins : option float;
  n_carbohydrates : option float;
  n_sugars : option float;
  n_fiber : option float;
  n_sodium : option float
}.

Definition no_nutrition : nutrition :=
  {| n_energy := None; n_fat := None; n_saturated_fat := None;
     n_proteins := None; n_carbohydrates := None; n_sugars := None;
     n_fiber := None; n_sodium := None |}.

Definition kw_energy : list pystr := [u"енергийна стойност"].

(** [a or b] *)
Definition py_or (a b : json) : json := if truthy a then a else b.

(** The barcode: [None] ([JNull]) unless the list has a first entry. *)
Definition barcode (bundle : json) : res json :=
  do ean <- get bundle (u"eanNumber") (JList []);
  do ean_numbers <-
    (if truthy ean then Ok ean else get bundle (u"gtins") (JList []));
  if truthy ean_numbers then
    do n <- len ean_numbers;
    if (0 <? n)%nat then
      do first <- item0 ean_numbers;
      get first (u"number") JNull
    else Ok JNull
  else Ok JNull.

(** The names of the levels of one category entry. *)
Fixpoint level_names (levels : list json) : res (list json) :=
  match levels with
  | [] => Ok []
  | level :: levels' =>
      do d <- get level (u"displayName") JNull;
      if truthy d then
        do name <- get level (u"displayName") (JStr []);
        do rest <- level_names levels';
        Ok (name :: rest)
      else level_names levels'
  end.

Fixpoint category_loop (cats : list json) (category_parts : list pystr)
    : res (list pystr) :=
  match cats with
  | [] => Ok category_parts
  | cat :: cats' =>
      do levels <- get cat (u"levels") (JList []);
      if truthy levels then
        do l <- iter levels;
        do names <- level_names l;
        match names with
        | [] => category_loop cats' category_parts
        | _ :: _ =>
            do strs <- as_strs names;
            category_loop cats' (category_parts ++ [join (u" > ") strs])
        end
      else category_loop cats' category_parts
  end.

(** The energy fallback of lines 326-330, given the value found for kcal. *)
Definition energy_fallback (nutrition_table : json) (energy : option float)
    : res (option float) :=
  if negb (opt_truthy energy) then
    do energy_kj <- extract_nutritional_value nutrition_table kw_energy (Some (u"kJ"));
    match energy_kj with
    | Some kj => if float_truthy kj then Ok (Some (round1 (kj / kj_per_kcal)%float))
                 else Ok energy
    | None => Ok energy
    end
  else Ok energy.

Definition nutrition_values (nutrition_table : json) : res nutrition :=
  do energy <- extract_nutritional_value nutrition_table kw_energy (Some (u"kcal"));
  do fat <- extract_nutritional_value nutrition_table [u"мазнини"] (Some (u"g"));
  do saturated <- extract_nutritional_value nutrition_table [u"наситени"] (Some (u"g"));
  do proteins <- extract_nutritional_value nutrition_table [u"белтъци"] (Some (u"g"));
  do carbohydrates <-
    extract_nutritional_value nutrition_table [u"въглехидрати"] (Some (u"g"));
  do sugars <- extract_nutritional_value nutrition_table [u"захари"] (Some (u"g"));
  do fiber <-
    extract_nutritional_value nutrition_table [u"влакна"; u"fiber"] (Some (u"g"));
  do sodium <- extract_nutritional_value nutrition_table [u"sodium"] (Some (u"mg"));
  do energy' <- energy_fallback nutrition_table energy;
  Ok {| n_energy := energy'; n_fat := fat; n_saturated_fat := saturated;
        n_proteins := proteins; n_carbohydrates := carbohydrates;
        n_sugars := sugars; n_fiber := fiber; n_sodium := sodium |}.

Section ExtractProductData.

(** [str(v)], the text that an f-string puts for [v].  How Python prints
    floats and containers plays no role below, so it is left open. *)
Variable format_value : json -> pystr.

(** The statements of the [try] block; [Ok None] is [return None]. *)
Definition extract_product_data_body (article_data : json) : res (option product) :=
  do variants <- get article_data (u"variants") (JDict []);
  if negb (truthy variants) then Ok None
  else
    do vs <- values variants;
    do variant <- item0 (JList vs);
    do bundles <- get variant (u"bundles") (JDict []);
    if negb (truthy bundles) then Ok None
    else
      do bs <- values bundles;
      do bundle <- item0 (JList bs);
      do code <- barcode bundle;
      if negb (truthy code) then Ok None
      else
        do product_name <- get bundle (u"description") (JStr []);
        do brand <- get bundle (u"brandName") (JStr []);
        do content_data <- get bundle (u"contentData") (JDict []);
        do net_weight <- get content_data (u"netPieceWeight") (JDict []);
        do quantity <-
          (if truthy net_weight then
             do v <- get net_weight (u"value") JNull;
             if truthy v then
               do value <- get net_weight (u"value") (JStr []);
               do unit <- get net_weight (u"uom") (JStr []);
               Ok (Some (strip (format_value value ++ u" " ++ format_value unit)))
             else Ok None
           else Ok None);
        do cats <- get bundle (u"categories") (JList []);
        do cl <- iter cats;
        do category_parts <- category_loop cl [];
        let categories_str :=
          match category_parts with
          | [] => None
          | _ :: _ => Some (join (u" | ") category_parts)
          end in
        do img <- get bundle (u"imageUrl") JNull;
        do image_url <- (if truthy img then Ok img else get bundle (u"imageUrlL") JNull);
        do details <- get bundle (u"details") (JDict []);
        do extra <-
          (if truthy details then
             do features <- get details (u"features") (JList []);
             do ingredients <- extract_ingredients features;
             do nutrition_table <- get details (u"nutritionalTable") (JDict []);
             if truthy nutrition_table then
               do nutrition_data <- nutrition_values nutrition_table;
               Ok (ingredients, nutrition_data)
             else Ok (ingredients, no_nutrition)
           else Ok (None, no_nutrition));
        let '(ingredients, nutrition_data) := extra in
        Ok (Some
          {| code := code;
             product_name := py_or product_name JNull;
             quantity := quantity;
             brand := py_or brand JNull;
             categories := categories_str;
             ingredients := ingredients;
             image_url := image_url;
             nutriscore_grade := JNull;
             energy_100g := n_energy nutrition_data;
             fat_100g := n_fat nutrition_data;
             saturated_fat_100g := n_saturated_fat nutrition_data;
             proteins_100g := n_proteins nutrition_data;
             carbohydrates_100g := n_carbohydrates nutrition_data;
             sugars_100g := n_sugars nutrition_data;
             fiber_100g := n_fiber nutrition_data;
             sodium_100g := n_sodium nutrition_data |}).

(** [except Exception]: every exception is logged and turned into [None]. *)
Definition extract_product_data (article_data : json) : option product :=
  match extract_product_data_body article_data with
  | Ok r => r
  | Raise _ => None
  end.

End ExtractProductData.

(** ** [get_food_subcategories] *)

Definition root_category : pystr := u"хранителни-стоки".

Section Children.

Variable extract_categories : json -> list pystr -> res (list pystr).

(** The loop over the items of [tree_node['children']]; [categories] is the
    list that the nested function of the source appends to. *)
Fixpoint walk_children (l : list (pystr * json)) (categories : list pystr)
    : res (list pystr) :=
  match l with
  | [] => Ok categories
  | (category_id, category_data) :: l' =>
      do category_path <- get category_data (u"urlCategoryPath") (JStr []);
      if truthy category_path then
        do under_root <- str_startswith category_path root_category;
        if under_root then
          match category_path with
          | JStr p =>
              do categories' <- extract_categories category_data (categories ++ [p]);
              walk_children l' categories'
          | _ => Raise AttributeError
          end
        else walk_children l' categories
      else walk_children l' categories
  end.

End Children.

(** The recursion descends into the members of the node, so the look-up of
    the key [children] is written out; [extract_categories_eq] below gives
    the definition the shape of the source. *)
Fixpoint extract_categories (tree_node : json) (categories : list pystr)
    {struct tree_node} : res (list pystr) :=
  match tree_node with
  | JDict d =>
      (fix find (d : list (pystr * json)) : res (list pystr) :=
         match d with
         | [] => Ok categories
         | (k, v) :: d' =>
             if pystr_eqb (u"children") k then
               match v with
               | JDict cs => walk_children extract_categories cs categories
               | _ => Raise AttributeError
               end
             else find d'
         end) d
  | _ =>
      do has_children <- has tree_node (u"children");
      if has_children then Raise TypeError else Ok categories
  end.

(** [response] is what [_make_request] returned: [None] after a failed
    request, the decoded body otherwise. *)
Definition get_food_subcategories (response : option json) : res (list pystr) :=
  do categories <-
    match response with
    | None => Ok []
    | Some r =>
        if truthy r then
          do has_tree <- has r (u"categorytree");
          if has_tree then
            do tree <- item r (u"categorytree");
            do children <- item tree (u"children");
            do food_tree <- get children (u"Food_1622788118100") (JDict []);
            extract_categories food_tree []
          else Ok []
        else Ok []
    end;
  match categories with
  | [] => Ok [root_category]
  | _ :: _ => Ok categories
  end.

(** ** [get_product_variant_ids_from_category] *)

(** A member of a Python set of decoded JSON values.  Values that compare
    equal are one member: [True] is [1], and a float without fractional part
    is the integer of its value.  [KFloat] holds the other floats (the
    infinities, NaN, which the decoder makes one object, and the floats with
    a fractional part). *)
Inductive key : Type :=
| KNone
| KStr (s : pystr)
| KInt (n : Z)
| KFloat (x : spec_float).

#[global] Instance spec_float_eq_dec : EqDecision spec_float.
Proof. solve_decision. Defined.

#[global] Instance spec_float_countable : Countable spec_float.
Proof.
  refine (inj_countable'
            (fun x => match x with
                      | S754_zero s => inl (inl s)
                      | S754_infinity s => inl (inr s)
                      | S754_nan => inr (inl tt)
                      | S754_finite s m e => inr (inr (s, m, e))
                      end)
            (fun y => match y with
                      | inl (inl s) => S754_zero s
                      | inl (inr s) => S754_infinity s
                      | inr (inl _) => S754_nan
                      | inr (inr (s, m, e)) => S754_finite s m e
                      end) _).
  intros []; reflexivity.
Defined.

#[global] Instance key_eq_dec : EqDecision key.
Proof. solve_decision. Defined.

#[global] Instance key_countable : Countable key.
Proof.
  refine (inj_countable'
            (fun k => match k with
                      | KNone => inl (inl tt)
                      | KStr s => inl (inr s)
                      | KInt n => inr (inl n)
                      | KFloat x => inr (inr x)
                      end)
            (fun y => match y with
                      | inl (inl _) => KNone
                      | inl (inr s) => KStr s
                      | inr (inl n) => KInt n
                      | inr (inr x) => KFloat x
                      end) _).
  intros []; reflexivity.
Defined.

Definition float_key (x : float) : key :=
  match Prim2SF x with
  | S754_zero _ => KInt 0
  | S754_finite s m e =>
      let n := if s then Z.neg m else Z.pos m in
      if 0 <=? e then KInt (n * 2 ^ e)
      else if Z.pos m mod 2 ^ (- e) =? 0 then KInt (n / 2 ^ (- e))
      else KFloat (S754_finite s m e)
  | sf => KFloat sf
  end.

(** [hash(v)]: lists and objects cannot be members of a set. *)
Definition key_of (v : json) : res key :=
  match v with
  | JNull => Ok KNone
  | JBool b => Ok (KInt (if b then 1 else 0))
  | JInt n => Ok (KInt n)
  | JFloat x => Ok (float_key x)
  | JStr s => Ok (KStr s)
  | JList _ | JDict _ => Raise TypeError
  end.

Fixpoint keys_of (l : list json) : res (list key) :=
  match l with
  | [] => Ok []
  | v :: l' =>
      do k <- key_of v;
      do ks <- keys_of l';
      Ok (k :: ks)
  end.

(** [x <= n] for a float and an integer, compared by their exact values. *)
Definition float_le_int (x : float) (n : Z) : bool :=
  match Prim2SF x with
  | S754_zero _ => 0 <=? n
  | S754_infinity s => s
  | S754_nan => false
  | S754_finite s m e =>
      let m' := if s then Z.neg m else Z.pos m in
      if 0 <=? e then m' * 2 ^ e <=? n else m' <=? n * 2 ^ (- e)
  end.

(** [page >= total] for the page counter and a decoded value: an integer is
    ordered with numbers only. *)
Definition page_ge (page : Z) (total : json) : res bool :=
  match total with
  | JInt n => Ok (n <=? page)
  | JBool b => Ok ((if b then 1 else 0) <=? page)
  | JFloat x => Ok (float_le_int x page)
  | JNull | JStr _ | JList _ | JDict _ => Raise TypeError
  end.

(** How one turn of the [while True] loop ends. *)
Inductive turn : Type :=
| Break (all_variant_ids : gset key)
| Next (all_variant_ids : gset key).

(** The body of the loop for the answer to the request for [page]: [None]
    when the request failed. *)
Definition page_turn (response : option json) (page : Z)
    (all_variant_ids : gset key) : res turn :=
  match response with
  | None => Ok (Break all_variant_ids)
  | Some response =>
      if negb (truthy response) then Ok (Break all_variant_ids)
      else
        do has_ids <- has response (u"resultIds");
        if negb has_ids then Ok (Break all_variant_ids)
        else
          do result_ids <- item response (u"resultIds");
          if negb (truthy result_ids) then Ok (Break all_variant_ids)
          else
            do elements <- iter result_ids;
            do ks <- keys_of elements;
            let all_variant_ids := all_variant_ids ∪ list_to_set ks in
            do total <- get response (u"totalPages") (JInt 1);
            do last <- page_ge page total;
            if last || (100 <=? page) then Ok (Break all_variant_ids)
            else Ok (Next all_variant_ids)
  end.

Section Paginator.

(** [_make_request] for a category and a page number: the decoded answer,
    [None] when the request failed. *)
Variable request : pystr -> Z -> option json.

(** The [while True] loop.  Besides the set it keeps the list of the pages
    requested so far, which it gives back also when it raises.  [fuel]
    bounds the number of turns. *)
Fixpoint page_loop (fuel : nat) (category : pystr) (page : Z)
    (all_variant_ids : gset key) (requested : list Z)
    : option (res (gset key) * list Z) :=
  match fuel with
  | O => None
  | S fuel' =>
      let requested := requested ++ [page] in
      match page_turn (request category page) page all_variant_ids with
      | Raise e => Some (Raise e, requested)
      | Ok (Break all_variant_ids) => Some (Ok all_variant_ids, requested)
      | Ok (Next all_variant_ids) =>
          page_loop fuel' category (page + 1) all_variant_ids requested
      end
  end.

Definition get_product_variant_ids_from_category (category : pystr)
    : option (res (gset key) * list Z) :=
  page_loop 100 category 1 ∅ [].

End Paginator.

(** * The importer ([csv_import_script.py]) *)

Module Importer.

(** A value of a DataFrame or of a table column, as pandas read it from
    the file: [Null] is a missing value (NaN, [None], SQL NULL), [Whole] a
    value of an integer column, [Number] one of a float column, [Truth] one
    of a column of truth values. *)
Inductive cell : Type :=
| Null
| Text (s : pystr)
| Whole (n : Z)
| Number (x : float)
| Truth (b : bool).

(** [pd.notna] *)
Definition notna (c : cell) : bool :=
  match c with
  | Null => false
  | Text _ | Whole _ | Truth _ => true
  | Number x => negb (is_nan x)
  end.

(** One row of the frame read from the CSV file: the value of its [code]
    cell and the cells of the fifteen other columns, in the order of the
    list [columns] of the source. *)
Record csv_row : Type := {
  code : cell;
  fields : list cell
}.

(** One row of the cleaned frame: the column [code] holds texts. *)
Record clean_row : Type := {
  code_text : pystr;
  clean_fields : list cell
}.

(** [str(n)] for an integer. *)
Fixpoint digits (fuel : nat) (n : N) (acc : pystr) : pystr :=
  match fuel with
  | O => acc
  | S fuel' =>
      let acc := (48 + n mod 10)%N :: acc in
      if (n <? 10)%N then acc else digits fuel' (n / 10)%N acc
  end.

Definition str_of_int (n : Z) : pystr :=
  (if n <? 0 then [45%N] else [])
  ++ digits (S (N.to_nat (N.log2 (Z.abs_N n)))) (Z.abs_N n) [].

(** How a call of [import_csv_to_metro_source] ends: it returns a truth
    value, or it raises [UnboundLocalError]. *)
Inductive outcome : Type :=
| Returns (ok : bool)
| RaisesUnboundLocalError.

(** A row of [public.metro_source].  The column [created_at] is not among
    the inserted columns: a new row gets the default of the column, a row
    updated on conflict gets [now()], the time of the transaction. *)
Inductive stamp : Type :=
| ColumnDefault
| Now (transaction : nat).

Record source_row : Type := {
  values : list cell;
  created_at : stamp
}.

Abbreviation table := (gmap pystr source_row).

Section Loader.

(** [pd.to_numeric(_, errors='coerce')] on one cell. *)
Variable to_numeric : cell -> cell.

(** The text that [astype(str)] makes of a float. *)
Variable float_str : float -> pystr.

(** The eight numeric columns follow the seven text columns. *)
Definition coerce_numeric (fs : list cell) : list cell :=
  take 7 fs ++ map to_numeric (drop 7 fs).

(** [df['code'].notna() & (df['code'] != '')] on one row. *)
Definition has_code (r : csv_row) : bool :=
  match code r with
  | Text c => negb (Nat.eqb (length c) 0)
  | c => notna c
  end.

(** [astype(str)] on one value of the column [code]. *)
Definition code_str (c : cell) : pystr :=
  match c with
  | Text s => s
  | Whole n => str_of_int n
  | Number x => float_str x
  | Truth b => if b then u"True" else u"False"
  | Null => u"None"
  end.

(** [clean_csv_data]: rows without a code are dropped, the codes are made
    texts, numeric columns are coerced. *)
Definition clean_csv_data (df : list csv_row) : list clean_row :=
  map (fun r => {| code_text := code_str (code r);
                   clean_fields := coerce_numeric (fields r) |})
      (List.filter has_code df).

(** The tuple built for one row of the cleaned frame: its code and the
    other values, a missing value becoming [None]. *)
Definition row_data (r : clean_row) : pystr * list cell :=
  (code_text r,
   map (fun c => if notna c then c else Null) (clean_fields r)).

(** [range(0, n, step)] for [step > 0] and the slices [l[i:i + step]]. *)
Definition range_step (n step : nat) : list nat :=
  map (fun k => k * step)%nat (seq 0 ((n + step - 1) / step)).

Definition slices {A : Type} (step : nat) (l : list A) : list (list A) :=
  map (fun i => take step (drop i l)) (range_step (length l) step).

(** One [INSERT ... ON CONFLICT (code) DO UPDATE] row. *)
Definition upsert (transaction : nat) (t : table) (row : pystr * list cell) : table :=
  match t !! row.1 with
  | None => <[row.1 := {| values := row.2; created_at := ColumnDefault |}]> t
  | Some _ => <[row.1 := {| values := row.2; created_at := Now transaction |}]> t
  end.

(** One statement: PostgreSQL rejects a command that proposes the same key
    twice ("ON CONFLICT DO UPDATE command cannot affect row a second
    time"); [None] is that error. *)
Definition insert_statement (transaction : nat) (t : table)
    (rows : list (pystr * list cell)) : option table :=
  if bool_decide (NoDup (map fst rows))
  then Some (foldl (upsert transaction) t rows)
  else None.

(** [execute_values] sends the rows in statements of [page_size] rows (100
    when the caller does not say). *)
Definition page_size : nat := 100.

Definition execute_values (transaction : nat) (t : table)
    (batch_data : list (pystr * list cell)) : option table :=
  foldl (fun acc page =>
           match acc with
           | Some t' => insert_statement transaction t' page
           | None => None
           end)
        (Some t) (slices page_size batch_data).

(** The loop over the batches.  [work] is the table as the open transaction
    sees it, [committed] the table as it is stored.  A failing batch rolls
    the open transaction back. *)
Fixpoint batch_loop (transaction : nat) (batches : list (list clean_row))
    (work committed : table) : bool * table :=
  match batches with
  | [] => (true, committed)
  | batch_df :: batches' =>
      match execute_values transaction work (map row_data batch_df) with
      | None => (false, committed)
      | Some work' => batch_loop (S transaction) batches' work' work'
      end
  end.

(** [import_csv_to_metro_source].  [frame] is what [pd.read_csv] makes of
    the file: [None] when it raises, or when the frame has no column [code]
    and [clean_csv_data] raises.  The handler and the [finally] clause then
    read [conn], which has no value yet, and the call raises.  The [DELETE]
    opens the first transaction, each batch ends with a commit, and closing
    the connection drops what was not committed.  [range] raises for a step
    of 0, and is empty for a negative step. *)
Definition import_csv_to_metro_source (file_exists : bool)
    (frame : option (list csv_row)) (connects : bool) (batch_size : Z)
    (db : table) : outcome * table :=
  if negb file_exists then (Returns false, db)
  else
    match frame with
    | None => (RaisesUnboundLocalError, db)
    | Some df =>
        let df := clean_csv_data df in
        if negb connects then (Returns false, db)
        else if batch_size =? 0 then (Returns false, db)
        else if batch_size <? 0 then (Returns true, db)
        else
          let '(ok, db') := batch_loop 0 (slices (Z.to_nat batch_size) df) ∅ db in
          (Returns ok, db')
    end.

End Loader.

(** ** [update_food_item_sources] *)

(** A row of [public.food_item_sources]: a code and an array of tags.  The
    array and each of its elements can be NULL. *)
Record registry_row : Type := {
  r_code : pystr;
  sources : option (list (option pystr))
}.

Definition metro : pystr := u"metro".

(** ['metro' = ANY (sources)] in SQL's three-valued logic; [None] is NULL. *)
Definition metro_any (s : option (list (option pystr))) : option bool :=
  match s with
  | None => None
  | Some tags =>
      if bool_decide (Some metro ∈ tags) then Some true
      else if bool_decide (None ∈ tags) then None
      else Some false
  end.

(** The [WHERE] clause of the [UPDATE] selects a row when it is true. *)
Definition update_where (source : table) (r : registry_row) : bool :=
  bool_decide (is_Some (source !! r_code r))
  && match metro_any (sources r) with
     | Some false => true
     | _ => false
     end.

(** [array_append(sources, 'metro')] *)
Definition array_append (s : option (list (option pystr)))
    : option (list (option pystr)) :=
  Some (default [] s ++ [Some metro]).

(** The [UPDATE] statement and its row count. *)
Definition tag_existing (source : table) (registry : list registry_row)
    : list registry_row * nat :=
  (map (fun r => if update_where source r
                 then {| r_code := r_code r; sources := array_append (sources r) |}
                 else r) registry,
   length (List.filter (update_where source) registry)).

(** The [INSERT ... SELECT ... WHERE NOT EXISTS] statement and its row
    count. *)
Definition insert_new (source : table) (registry : list registry_row)
    : list registry_row * nat :=
  let new_codes :=
    filter (fun c => c ∉ map r_code registry) (map fst (map_to_list source)) in
  (registry ++ map (fun c => {| r_code := c; sources := Some [Some metro] |}) new_codes,
   length new_codes).

(** The outcome of a run: success, the registry as stored, and the two row
    counts that are logged. *)
Definition update_food_item_sources (connects : bool) (source : table)
    (registry : list registry_row) : bool * list registry_row * (nat * nat) :=
  if negb connects then (false, registry, (0, 0)%nat)
  else
    let '(registry1, updated_count) := tag_existing source registry in
    let '(registry2, inserted_count) := insert_new source registry1 in
    (true, registry2, (updated_count, inserted_count)).

End Importer.

(** * Properties *)

(** ** Strings *)

Lemma pystr_eqb_eq (a b : pystr) : pystr_eqb a b = true <-> a = b.
Proof. unfold pystr_eqb. apply bool_decide_eq_true. Qed.

Lemma pystr_eqb_refl (a : pystr) : pystr_eqb a a = true.
Proof. apply pystr_eqb_eq. reflexivity. Qed.

Lemma startswith_app (s p : pystr) :
  startswith s p = true <-> exists t, s = p ++ t.
Proof.
  revert s. induction p as [|c p IH]; intros s; simpl.
  - split; [intros _; exists s; reflexivity | reflexivity].
  - destruct s as [|d s].
    + split; [discriminate | intros [t Ht]; discriminate].
    + rewrite andb_true_iff, N.eqb_eq, IH. split.
      * intros [-> [t ->]]. exists t. reflexivity.
      * intros [t Ht]. injection Ht as -> ->. split; [reflexivity | exists t; reflexivity].
Qed.

(** [contains s k] holds exactly when [k] is a contiguous block of [s]. *)
Lemma contains_spec (s k : pystr) :
  contains s k = true <-> exists a b, s = a ++ k ++ b.
Proof.
  induction s as [|c s IH].
  - simpl. rewrite orb_false_r, startswith_app. split.
    + intros [t Ht]. exists [], t. exact Ht.
    + intros [a [b H]]. destruct a; [exists b; exact H | discriminate].
  - cbn [contains]. rewrite orb_true_iff, startswith_app, IH. split.
    + intros [[t Ht] | [a [b H]]].
      * exists [], t. exact Ht.
      * exists (c :: a), b. rewrite H. reflexivity.
    + intros [a [b H]]. destruct a as [|c' a].
      * left. exists b. exact H.
      * right. injection H as _ H. exists a, b. exact H.
Qed.

(** The builtins on a few inputs. *)
Example lower_examples :
  lower (u"Енергийна стойност (kJ)") = u"енергийна стойност (kj)"
  /\ lower (u"ÀÉ Straße") = u"àé straße"
  /\ strip (u"  мляко ") = u"мляко"
  /\ isdigit (u"0032") = true /\ isdigit (u"12a4") = false /\ isdigit [] = false.
Proof. repeat split; vm_compute; reflexivity. Qed.

Example parse_float_examples :
  parse_float (u"250") = Some 250%float
  /\ parse_float (u" 12.5 ") = Some 12.5%float
  /\ parse_float (u"-1_000e-3") = Some (-1)%float
  /\ parse_float (u"4.184") = Some kj_per_kcal
  /\ parse_float (u"1e400") = Some infinity
  /\ parse_float (u"NaN") = Some nan
  /\ parse_float [] = None
  /\ parse_float (u"1,5") = None
  /\ parse_float (u"< 0.5") = None.
Proof. repeat split; vm_compute; reflexivity. Qed.

Example round1_examples :
  round1 0.25%float = float_of_decimal false 2 (-1)
  /\ round1 0.75%float = float_of_decimal false 8 (-1)
  /\ round1 (float_of_decimal false 2675 (-3)) = float_of_decimal false 27 (-1)
  /\ round1 (1046 / kj_per_kcal)%float = 250%float
  /\ round1 infinity = infinity.
Proof. repeat split; vm_compute; reflexivity. Qed.

(** ** C2: variant identifiers *)

Lemma slices_of_app (p d : pystr) :
  length d = 4%nat ->
  slice_last 4 (p ++ d) = d /\ slice_but_last 4 (p ++ d) = p.
Proof.
  intros Hd. unfold slice_last, slice_but_last.
  rewrite length_app, Hd.
  replace (length p + 4 - 4)%nat with (length p) by lia.
  split; [apply drop_app_length | apply take_app_length].
Qed.

Lemma slices_split (s : pystr) :
  (4 < length s)%nat ->
  s = slice_but_last 4 s ++ slice_last 4 s
  /\ length (slice_last 4 s) = 4%nat
  /\ slice_but_last 4 s <> [].
Proof.
  intros Hs. unfold slice_last, slice_but_last. repeat split.
  - symmetry. apply take_drop.
  - rewrite length_drop. lia.
  - intros H. apply (f_equal (@length N)) in H.
    rewrite length_take in H. simpl in H. lia.
Qed.

Example convert_example_strip :
  convert_variant_to_article_id (u"BTY-X2945500032") = u"BTY-X294550".
Proof. vm_compute. reflexivity. Qed.

Example convert_example_short :
  convert_variant_to_article_id (u"AB12") = u"AB12".
Proof. vm_compute. reflexivity. Qed.

(** C2.  An identifier that is a non-empty prefix followed by four digits is
    mapped to that prefix; an identifier with no such reading is mapped to
    itself.  Digits are the characters that [str.isdigit] accepts.  The two
    examples of the specification are the last two parts. *)
Theorem convert_variant_to_article_id_spec :
  (forall p d : pystr,
      p <> [] -> length d = 4%nat -> forallb isdigit_cp d = true ->
      convert_variant_to_article_id (p ++ d) = p)
  /\ (forall s : pystr,
      (forall p d : pystr,
          s = p ++ d -> p <> [] -> length d = 4%nat -> forallb isdigit_cp d = false) ->
      convert_variant_to_article_id s = s)
  /\ convert_variant_to_article_id (u"BTY-X2945500032") = u"BTY-X294550"
  /\ convert_variant_to_article_id (u"AB12") = u"AB12".
Proof.
  split; [|split; [|split]].
  - intros p d Hp Hd Hdig. unfold convert_variant_to_article_id.
    destruct (slices_of_app p d Hd) as [-> ->].
    assert (4 < Z.of_nat (length (p ++ d))) as Hlen.
    { rewrite length_app, Hd. destruct p; [congruence | simpl; lia]. }
    apply Z.ltb_lt in Hlen. rewrite Hlen. unfold isdigit.
    rewrite Hd, Hdig. reflexivity.
  - intros s Hnone. unfold convert_variant_to_article_id.
    destruct (4 <? Z.of_nat (length s)) eqn:Hlen; [|reflexivity].
    apply Z.ltb_lt in Hlen.
    destruct (slices_split s) as (Hs & Hd & Hp); [lia|].
    specialize (Hnone _ _ Hs Hp Hd).
    unfold isdigit. rewrite Hnone, andb_false_r. reflexivity.
  - exact convert_example_strip.
  - exact convert_example_short.
Qed.

(** ** Nutrition rows: what the loop reads off a row *)

Definition label_of (row : json) (lbl : pystr) : Prop :=
  get row (u"rowLabel") (JStr []) = Ok (JStr lbl).

(** One of the keywords occurs in the lower-cased label. *)
Definition keyword_in (label_keywords : list pystr) (lbl : pystr) : Prop :=
  exists k a b, In k label_keywords /\ lower lbl = a ++ k ++ b.

Definition first_cell (row c : json) : Prop :=
  exists rest, get row (u"cells") (JList []) = Ok (JList (c :: rest)).

Definition no_cells (row : json) : Prop :=
  exists cells, get row (u"cells") (JList []) = Ok cells /\ len cells = Ok 0%nat.

(** Milligrams are requested and the cell is in grams. *)
Definition converts (unit : option pystr) (cell_unit : pystr) : bool :=
  match unit with
  | Some un => pystr_eqb (lower un) (u"mg") && pystr_eqb (lower cell_unit) (u"g")
  | None => false
  end.

(** The first cell [c] holds a non-empty value that reads as the number
    [x], in the unit [cell_unit]. *)
Definition cell_holds (c : json) (x : float) (cell_unit : pystr) : Prop :=
  exists raw,
    get c (u"value") JNull = Ok raw /\ truthy raw = true /\ py_float raw = Ok x
    /\ get c (u"unitOfMeasure") (JStr []) = Ok (JStr cell_unit).

(** The row is one at which the function returns [v]. *)
Definition yields (label_keywords : list pystr) (unit : option pystr)
    (row : json) (v : float) : Prop :=
  exists lbl c x cell_unit,
    label_of row lbl /\ keyword_in label_keywords lbl /\ first_cell row c
    /\ cell_holds c x cell_unit
    /\ v = if converts unit cell_unit then (x * 1000)%float else x.

(** The row is passed over: its label has no keyword, or it has no cell, or
    the value of its first cell is missing, empty or zero, or is no number. *)
Definition skips (label_keywords : list pystr) (row : json) : Prop :=
  exists lbl,
    label_of row lbl
    /\ (~ keyword_in label_keywords lbl
        \/ no_cells row
        \/ exists c raw,
             first_cell row c /\ get c (u"value") JNull = Ok raw
             /\ (truthy raw = false \/ py_float raw = Raise ValueError
                 \/ py_float raw = Raise TypeError)).

Lemma existsb_keyword (label_keywords : list pystr) (lbl : pystr) :
  existsb (fun keyword => contains (lower lbl) keyword) label_keywords = true
  <-> keyword_in label_keywords lbl.
Proof.
  rewrite existsb_exists. unfold keyword_in. split.
  - intros [k [Hk Hc]]. apply contains_spec in Hc as [a [b H]]. eauto 6.
  - intros (k & a & b & Hk & H). exists k. split; [exact Hk|].
    apply contains_spec. eauto.
Qed.

(** The two look-ups of a key with different defaults agree on a value
    that is not the default. *)
Lemma get_present (v : json) (k : pystr) (d1 d2 r : json) :
  get v k d1 = Ok r -> truthy r = true -> truthy d1 = false -> get v k d2 = Ok r.
Proof.
  destruct v; try discriminate. simpl.
  destruct (assoc k members); intros [= <-] Hr Hd; [reflexivity | congruence].
Qed.

Lemma get_dict (v : json) (k : pystr) (d r : json) :
  get v k d = Ok r -> exists m, v = JDict m.
Proof. destruct v; try discriminate. eauto. Qed.

Lemma get_total (m : list (pystr * json)) (k : pystr) (d : json) :
  exists r, get (JDict m) k d = Ok r.
Proof. simpl. eauto. Qed.

(** The unit test of the source collapses to [converts]. *)
Lemma unit_test (unit : option pystr) (cu : pystr) :
  match unit with
  | Some un =>
      truthy (JStr un) && negb (pystr_eqb (lower un) (lower cu))
      && (pystr_eqb (lower un) (u"mg") && pystr_eqb (lower cu) (u"g"))
  | None => false
  end = converts unit cu.
Proof.
  destruct unit as [un|]; [|reflexivity]. unfold converts.
  destruct (pystr_eqb (lower un) (u"mg")) eqn:Hmg;
    [|rewrite andb_false_r; reflexivity].
  destruct (pystr_eqb (lower cu) (u"g")) eqn:Hg;
    [|rewrite andb_false_r; reflexivity].
  apply pystr_eqb_eq in Hmg. apply pystr_eqb_eq in Hg.
  rewrite Hmg, Hg. destruct un; [discriminate Hmg | reflexivity].
Qed.

Lemma cell_number_holds (unit : option pystr) (c : json) (x : float) (cu : pystr) :
  cell_holds c x cu ->
  cell_number unit c = Ok (if converts unit cu then (x * 1000)%float else x).
Proof.
  intros (raw & Hraw & Ht & Hx & Hu). unfold cell_number.
  rewrite (get_present _ _ _ (JStr []) _ Hraw Ht eq_refl). cbn [bind].
  rewrite Hx. cbn [bind]. rewrite Hu. cbn [bind str_lower].
  rewrite <- unit_test. destruct unit as [un|]; [|reflexivity].
  destruct (truthy (JStr un) && negb (pystr_eqb (lower un) (lower cu)));
    cbn [andb]; [|reflexivity].
  destruct (pystr_eqb (lower un) _ && pystr_eqb (lower cu) _); reflexivity.
Qed.

(** A small tactic for the result monad: name the outcome of the first
    computation under a [bind] and drop the branch that raises. *)
Ltac bind_ok H :=
  match goal with
  | Hyp : context [bind ?c _] |- _ =>
      let E := fresh H in
      destruct c eqn:E; cbn [bind] in Hyp; [|discriminate Hyp]
  end.

Lemma scan_row_yields (label_keywords : list pystr) (unit : option pystr)
    (row : json) (v : float) :
  yields label_keywords unit row v ->
  scan_row label_keywords unit row = Ok (Some v).
Proof.
  intros (lbl & c & x & cu & Hl & Hk & [rest Hc] & Hh & ->).
  unfold scan_row. rewrite Hl. cbn [bind str_lower]. rewrite Hc. cbn [bind].
  apply existsb_keyword in Hk. rewrite Hk. cbn [len bind length Nat.leb item0].
  pose proof (cell_number_holds unit c x cu Hh) as Hn.
  destruct Hh as (raw & Hraw & Ht & _). rewrite Hraw. cbn [bind].
  rewrite Ht, Hn. reflexivity.
Qed.

Lemma scan_row_skips (label_keywords : list pystr) (unit : option pystr)
    (row : json) :
  skips label_keywords row -> scan_row label_keywords unit row = Ok None.
Proof.
  intros (lbl & Hl & H). unfold scan_row. rewrite Hl. cbn [bind str_lower].
  destruct (get_dict _ _ _ _ Hl) as [m ->].
  destruct (get_total m (u"cells") (JList [])) as [cells Hcells].
  rewrite Hcells. cbn [bind].
  destruct (existsb _ label_keywords) eqn:Hk; [|reflexivity].
  apply existsb_keyword in Hk.
  destruct H as [Hno | [(cells' & Hc & Hlen) | (c & raw & [rest Hc] & Hraw & Hbad)]].
  - contradiction.
  - rewrite Hc in Hcells. injection Hcells as ->. rewrite Hlen. reflexivity.
  - rewrite Hc in Hcells. injection Hcells as <-.
    cbn [len bind length Nat.leb item0]. rewrite Hraw. cbn [bind].
    destruct (truthy raw) eqn:Ht; [|reflexivity].
    destruct Hbad as [Hf | Hbad]; [discriminate Hf|].
    unfold cell_number.
    rewrite (get_present _ _ _ (JStr []) _ Hraw Ht eq_refl). cbn [bind].
    destruct Hbad as [-> | ->]; reflexivity.
Qed.

(** Conversely, a row at which the function returns is one that [yields]. *)
Lemma scan_row_some (label_keywords : list pystr) (unit : option pystr)
    (row : json) (v : float) :
  scan_row label_keywords unit row = Ok (Some v) ->
  yields label_keywords unit row v.
Proof.
  unfold scan_row. intros H.
  bind_ok Hl. bind_ok Hlow. bind_ok Hcells.
  destruct a as [| | | | lbl | |]; try discriminate Hlow. injection Hlow as <-.
  destruct (existsb _ label_keywords) eqn:Hk; [|discriminate H].
  apply existsb_keyword in Hk.
  bind_ok Hlen. destruct (1 <=? a)%nat eqn:Hn; [|discriminate H].
  bind_ok Hc0. bind_ok Hraw.
  destruct (truthy a2) eqn:Ht; [|discriminate H].
  assert (exists rest, a1 = JList (a0 :: rest)) as [rest ->].
  { destruct a1 as [| | | | s | l | d]; try discriminate Hc0.
    - destruct s as [|ch s]; [discriminate Hc0|]. injection Hc0 as <-.
      discriminate Hraw.
    - destruct l as [|y l]; [discriminate Hc0|]. injection Hc0 as <-. eauto. }
  unfold cell_number in H.
  rewrite (get_present _ _ _ (JStr []) _ Hraw Ht eq_refl) in H. cbn [bind] in H.
  destruct (py_float a2) as [x|e] eqn:Hx; cbn [bind] in H;
    [|destruct e; discriminate H].
  destruct (get a0 (u"unitOfMeasure") (JStr [])) as [cu|e] eqn:Hu; cbn [bind] in H;
    [|destruct e; discriminate H].
  destruct cu as [| | | | cu | |]; cbn [str_lower bind] in H;
    try discriminate H.
  assert (v = if converts unit cu then (x * 1000)%float else x) as Hv.
  { rewrite <- unit_test. destruct unit as [un|]; [|congruence].
    destruct (truthy (JStr un) && negb (pystr_eqb (lower un) (lower cu)));
      cbn [andb]; [|congruence].
    destruct (pystr_eqb (lower un) _ && pystr_eqb (lower cu) _); congruence. }
  exists lbl, a0, x, cu. split; [exact Hl|]. split; [exact Hk|].
  split; [exists rest; exact Hcells|]. split; [|exact Hv].
  exists a2. auto.
Qed.

(** And a row after which the loop goes on is one that it [skips]. *)
Lemma scan_row_none (label_keywords : list pystr) (unit : option pystr)
    (row : json) :
  scan_row label_keywords unit row = Ok None -> skips label_keywords row.
Proof.
  unfold scan_row. intros H.
  bind_ok Hl. bind_ok Hlow. bind_ok Hcells.
  destruct a as [| | | | lbl | |]; try discriminate Hlow. injection Hlow as <-.
  exists lbl. split; [exact Hl|].
  destruct (existsb _ label_keywords) eqn:Hk.
  2:{ left. intros Hin. apply existsb_keyword in Hin. congruence. }
  right. bind_ok Hlen. destruct (1 <=? a)%nat eqn:Hn.
  2:{ left. exists a1. split; [exact Hcells|].
      destruct a as [|n]; [exact Hlen | discriminate Hn]. }
  right. bind_ok Hc0. bind_ok Hraw.
  assert (exists rest, a1 = JList (a0 :: rest)) as [rest ->].
  { destruct a1 as [| | | | t | l | d]; try discriminate Hc0.
    - destruct t as [|ch t]; [discriminate Hc0|]. injection Hc0 as <-.
      discriminate Hraw.
    - destruct l as [|y l]; [discriminate Hc0|]. injection Hc0 as <-. eauto. }
  exists a0, a2. split; [exists rest; exact Hcells|]. split; [exact Hraw|].
  destruct (truthy a2) eqn:Ht; [right | left; reflexivity].
  unfold cell_number in H.
  rewrite (get_present _ _ _ (JStr []) _ Hraw Ht eq_refl) in H. cbn [bind] in H.
  destruct (py_float a2) as [x|e] eqn:Hx; cbn [bind] in H.
  - destruct (get a0 (u"unitOfMeasure") (JStr [])) as [cu|e] eqn:Hu;
      cbn [bind] in H.
    + destruct (str_lower cu) as [cell_unit|e] eqn:Hcu; cbn [bind] in H.
      * destruct unit as [un|]; [|discriminate H].
        destruct (truthy (JStr un) && negb (pystr_eqb (lower un) cell_unit));
          [|discriminate H].
        destruct (pystr_eqb (lower un) _ && pystr_eqb cell_unit _);
          discriminate H.
      * destruct cu; try discriminate Hcu; cbn [str_lower] in Hcu.
        all: injection Hcu as <-; discriminate H.
    + destruct a0; try discriminate Hraw; discriminate Hu.
  - destruct e; try discriminate H; auto.
Qed.

Lemma scan_rows_first (label_keywords : list pystr) (unit : option pystr)
    (pre post : list json) (row : json) (v : float) :
  Forall (skips label_keywords) pre ->
  yields label_keywords unit row v ->
  scan_rows label_keywords unit (pre ++ row :: post) = Ok (Some v).
Proof.
  intros Hpre Hrow. induction Hpre as [|r pre Hr _ IH]; cbn [app scan_rows].
  - rewrite (scan_row_yields _ _ _ _ Hrow). reflexivity.
  - rewrite (scan_row_skips _ unit _ Hr). exact IH.
Qed.

Lemma scan_rows_none (label_keywords : list pystr) (unit : option pystr)
    (rows : list json) :
  Forall (skips label_keywords) rows ->
  scan_rows label_keywords unit rows = Ok None.
Proof.
  induction 1 as [|r rows Hr _ IH]; cbn [scan_rows]; [reflexivity|].
  rewrite (scan_row_skips _ unit _ Hr). exact IH.
Qed.

(** A row that is passed over can be left out of the table. *)
Lemma scan_rows_without (label_keywords : list pystr) (unit : option pystr)
    (pre post : list json) (row : json) :
  scan_row label_keywords unit row = Ok None ->
  scan_rows label_keywords unit (pre ++ row :: post)
  = scan_rows label_keywords unit (pre ++ post).
Proof.
  intros Hrow. induction pre as [|r pre IH]; cbn [app scan_rows].
  - rewrite Hrow. reflexivity.
  - rewrite IH. reflexivity.
Qed.

(** The rows at which the function can return are rows of the table. *)
Lemma scan_rows_some (label_keywords : list pystr) (unit : option pystr)
    (rows : list json) (v : float) :
  scan_rows label_keywords unit rows = Ok (Some v) ->
  exists row, In row rows /\ yields label_keywords unit row v.
Proof.
  induction rows as [|r rows IH]; cbn [scan_rows]; [discriminate|].
  intros H. bind_ok Hr. destruct a as [x|].
  - injection H as ->. exists r. split; [left; reflexivity|].
    apply scan_row_some. exact Hr.
  - destruct (IH H) as (row & Hin & Hy). exists row. split; [right|]; assumption.
Qed.

(** On a non-empty table with a list of rows, the function is the scan. *)
Lemma extract_scan (nutrition_table : json) (rows : list json)
    (label_keywords : list pystr) (unit : option pystr) :
  truthy nutrition_table = true ->
  item nutrition_table (u"rows") = Ok (JList rows) ->
  extract_nutritional_value nutrition_table label_keywords unit
  = scan_rows label_keywords unit rows.
Proof.
  intros Ht Hi. unfold extract_nutritional_value. rewrite Ht. cbn [negb].
  destruct nutrition_table; try discriminate Hi.
  cbn [has item] in *. destruct (assoc _ members); [|discriminate Hi].
  injection Hi as ->. reflexivity.
Qed.

(** ** The unit argument *)

(** A requested unit other than milligrams plays no role. *)
Lemma cell_number_unit (un : pystr) (c : json) :
  pystr_eqb (lower un) (u"mg") = false ->
  cell_number (Some un) c = cell_number None c.
Proof.
  intros Hmg. unfold cell_number.
  destruct (get c (u"value") (JStr [])); cbn [bind]; [|reflexivity].
  destruct (py_float a); cbn [bind]; [|reflexivity].
  destruct (get c (u"unitOfMeasure") (JStr [])); cbn [bind]; [|reflexivity].
  destruct (str_lower a1); cbn [bind]; [|reflexivity].
  rewrite Hmg. cbn [andb]. destruct (_ && _); reflexivity.
Qed.

Lemma scan_row_unit (label_keywords : list pystr) (un : pystr) (row : json) :
  pystr_eqb (lower un) (u"mg") = false ->
  scan_row label_keywords (Some un) row = scan_row label_keywords None row.
Proof.
  intros Hmg. unfold scan_row.
  destruct (get row (u"rowLabel") (JStr [])); cbn [bind]; [|reflexivity].
  destruct (str_lower a); cbn [bind]; [|reflexivity].
  destruct (get row (u"cells") (JList [])); cbn [bind]; [|reflexivity].
  destruct (existsb _ label_keywords); [|reflexivity].
  destruct (len a1); cbn [bind]; [|reflexivity].
  destruct (1 <=? a2)%nat; [|reflexivity].
  destruct (item0 a1); cbn [bind]; [|reflexivity].
  destruct (get a3 (u"value") JNull); cbn [bind]; [|reflexivity].
  destruct (truthy a4); [|reflexivity].
  rewrite (cell_number_unit _ _ Hmg). reflexivity.
Qed.

Lemma scan_rows_unit (label_keywords : list pystr) (un : pystr) (rows : list json) :
  pystr_eqb (lower un) (u"mg") = false ->
  scan_rows label_keywords (Some un) rows = scan_rows label_keywords None rows.
Proof.
  intros Hmg. induction rows as [|r rows IH]; cbn [scan_rows]; [reflexivity|].
  rewrite (scan_row_unit _ _ _ Hmg), IH. reflexivity.
Qed.

Lemma extract_unit (nutrition_table : json) (label_keywords : list pystr)
    (un : pystr) :
  pystr_eqb (lower un) (u"mg") = false ->
  extract_nutritional_value nutrition_table label_keywords (Some un)
  = extract_nutritional_value nutrition_table label_keywords None.
Proof.
  intros Hmg. unfold extract_nutritional_value.
  destruct (negb (truthy nutrition_table)); [reflexivity|].
  destruct (has nutrition_table (u"rows")); cbn [bind]; [|reflexivity].
  destruct (negb a); [reflexivity|].
  destruct (item nutrition_table (u"rows")); cbn [bind]; [|reflexivity].
  destruct (iter a0); cbn [bind]; [|reflexivity].
  apply scan_rows_unit. exact Hmg.
Qed.

(** The look-up for kJ is the look-up for kcal: the requested unit selects
    no row. *)
Lemma extract_kj_is_kcal (nutrition_table : json) (label_keywords : list pystr) :
  extract_nutritional_value nutrition_table label_keywords (Some (u"kJ"))
  = extract_nutritional_value nutrition_table label_keywords (Some (u"kcal")).
Proof.
  rewrite !extract_unit by (vm_compute; reflexivity). reflexivity.
Qed.

(** Hence the fallback never changes the energy that was found for kcal. *)
Lemma energy_fallback_inert (nutrition_table : json) (energy : option float) :
  extract_nutritional_value nutrition_table kw_energy (Some (u"kcal")) = Ok energy ->
  energy_fallback nutrition_table energy = Ok energy.
Proof.
  intros H. unfold energy_fallback.
  destruct (opt_truthy energy) eqn:Ht; cbn [negb]; [reflexivity|].
  rewrite extract_kj_is_kcal, H. cbn [bind].
  destruct energy as [kj|]; [|reflexivity].
  cbn [opt_truthy] in Ht. rewrite Ht. reflexivity.
Qed.

(** ** Sample payloads *)

Definition cell_json (value unit : string) : json :=
  JDict [(u"value", JStr (utf8_decode value));
         (u"unitOfMeasure", JStr (utf8_decode unit))].

Definition row_json (label : string) (cells : list json) : json :=
  JDict [(u"rowLabel", JStr (utf8_decode label)); (u"cells", JList cells)].

Definition table_json (rows : list json) : json := JDict [(u"rows", JList rows)].

(** An article with one variant and one bundle. *)
Definition article_json (bundle : list (pystr * json)) : json :=
  JDict [(u"variants",
          JDict [(u"0032", JDict [(u"bundles", JDict [(u"0021", JDict bundle)])])])].

Definition ean_json (number : string) : pystr * json :=
  (u"eanNumber", JList [JDict [(u"number", JStr (utf8_decode number))]]).

Definition nutrition_json (rows : list json) : pystr * json :=
  (u"details", JDict [(u"nutritionalTable", table_json rows)]).

(** A formatter for the samples: strings print as themselves. *)
Definition format_text (v : json) : pystr :=
  match v with
  | JStr s => s
  | _ => []
  end.

(** ** C1: the energy value *)

Definition article_kcal : json :=
  article_json [ean_json "5901234123457";
                nutrition_json [row_json "Енергийна стойност" [cell_json "250" "kcal"]]].

Definition article_kj : json :=
  article_json [ean_json "5901234123457";
                nutrition_json [row_json "Енергийна стойност" [cell_json "1046" "kJ"]]].

(** The energy of a record is always what the look-up for kcal found. *)
Lemma nutrition_values_energy (nutrition_table : json) (nv : nutrition) :
  nutrition_values nutrition_table = Ok nv ->
  extract_nutritional_value nutrition_table kw_energy (Some (u"kcal"))
  = Ok (n_energy nv).
Proof.
  unfold nutrition_values. intros H.
  destruct (extract_nutritional_value nutrition_table kw_energy (Some (u"kcal")))
    as [energy|] eqn:He; cbn [bind] in H; [|discriminate H].
  do 7 bind_ok Hx.
  rewrite (energy_fallback_inert _ _ He) in H. cbn [bind] in H.
  injection H as <-. reflexivity.
Qed.

(** C1.  A kcal row with the value 250 gives the energy 250.0.  A table
    whose only energy row is in kJ with the value 1046 gives 1046.0: the
    look-up for kcal takes the row whatever its unit, so the fallback, which
    would give [round(1046 / 4.184, 1) = 250.0], does not run. *)
Theorem energy_kj_row_not_converted (format_value : json -> pystr) :
  option_map energy_100g (extract_product_data format_value article_kcal)
  = Some (Some 250%float)
  /\ option_map energy_100g (extract_product_data format_value article_kj)
     = Some (Some 1046%float)
  /\ round1 (1046 / kj_per_kcal)%float = 250%float.
Proof. repeat split; vm_compute; reflexivity. Qed.

(** ** C6: unit reconciliation *)

Lemma converts_iff (unit : option pystr) (cell_unit : pystr) :
  converts unit cell_unit = true
  <-> exists un, unit = Some un /\ lower un = u"mg" /\ lower cell_unit = u"g".
Proof.
  unfold converts. destruct unit as [un|].
  - rewrite andb_true_iff, !pystr_eqb_eq. split.
    + intros [H1 H2]. eauto.
    + intros (un' & [= <-] & H1 & H2). auto.
  - split; [discriminate | intros (un & H & _); discriminate].
Qed.

Lemma extract_some (nutrition_table : json) (label_keywords : list pystr)
    (unit : option pystr) (v : float) :
  extract_nutritional_value nutrition_table label_keywords unit = Ok (Some v) ->
  exists rs rows,
    item nutrition_table (u"rows") = Ok rs /\ iter rs = Ok rows
    /\ scan_rows label_keywords unit rows = Ok (Some v).
Proof.
  unfold extract_nutritional_value. intros H.
  destruct (negb (truthy nutrition_table)); [discriminate H|].
  bind_ok Hh. destruct (negb a); [discriminate H|].
  bind_ok Hi. bind_ok Hl. eauto.
Qed.

(** C6.  A value that the function returns is the number [x] held by the
    first cell of a row of the table, multiplied by 1000 when milligrams
    are requested and the cell is in grams, and [x] itself under every
    other pair of units.  Units are compared in lower case, as the source
    does. *)
Theorem unit_conversion_only_g_to_mg (nutrition_table : json)
    (label_keywords : list pystr) (unit : option pystr) (v : float) :
  extract_nutritional_value nutrition_table label_keywords unit = Ok (Some v) ->
  exists rs rows row c x cell_unit,
    item nutrition_table (u"rows") = Ok rs /\ iter rs = Ok rows /\ In row rows
    /\ first_cell row c /\ cell_holds c x cell_unit
    /\ v = (if converts unit cell_unit then (x * 1000)%float else x)
    /\ (converts unit cell_unit = true
        <-> exists un, unit = Some un /\ lower un = u"mg" /\ lower cell_unit = u"g").
Proof.
  intros H. destruct (extract_some _ _ _ _ H) as (rs & rows & Hi & Hl & Hs).
  destruct (scan_rows_some _ _ _ _ Hs) as (row & Hin & Hy).
  destruct Hy as (lbl & c & x & cu & _ & _ & Hc & Hh & Hv).
  exists rs, rows, row, c, x, cu. repeat split; try assumption;
    apply converts_iff.
Qed.

Definition table_sodium : json :=
  table_json [row_json "Sodium" [cell_json "0.5" "g"]].

Lemma unit_conversion_witness :
  exists rs rows row c x cell_unit,
    item table_sodium (u"rows") = Ok rs /\ iter rs = Ok rows /\ In row rows
    /\ first_cell row c /\ cell_holds c x cell_unit
    /\ 500%float = (if converts (Some (u"mg")) cell_unit then (x * 1000)%float else x)
    /\ (converts (Some (u"mg")) cell_unit = true
        <-> exists un, Some (u"mg") = Some un /\ lower un = u"mg"
                       /\ lower cell_unit = u"g").
Proof.
  apply (unit_conversion_only_g_to_mg table_sodium [u"sodium"] (Some (u"mg"))).
  vm_compute. reflexivity.
Defined.

(** A value in grams that is requested in grams, or an energy in kJ that is
    requested in kcal, is returned as it stands. *)
Example no_conversion_examples :
  extract_nutritional_value (table_json [row_json "Мазнини" [cell_json "12.5" "g"]])
    [u"мазнини"] (Some (u"g")) = Ok (Some 12.5%float)
  /\ extract_nutritional_value
       (table_json [row_json "Енергийна стойност" [cell_json "1046" "kJ"]])
       kw_energy (Some (u"kcal")) = Ok (Some 1046%float)
  /\ extract_nutritional_value (table_json [row_json "Sodium" [cell_json "40" "mg"]])
       [u"sodium"] (Some (u"g")) = Ok (Some 40%float).
Proof. repeat split; vm_compute; reflexivity. Qed.

(** ** C7: which row is taken *)

(** The sentence of the specification, word for word: the number in the first cell
    of the first row whose lower-cased label contains a keyword. *)
Definition label_matches (label_keywords : list pystr) (row : json) : bool :=
  match get row (u"rowLabel") (JStr []) with
  | Ok (JStr lbl) => existsb (fun keyword => contains (lower lbl) keyword) label_keywords
  | _ => false
  end.

Definition first_cell_number (row : json) : option float :=
  match get row (u"cells") (JList []) with
  | Ok (JList (c :: _)) =>
      match get c (u"value") (JStr []) with
      | Ok raw => match py_float raw with Ok x => Some x | Raise _ => None end
      | Raise _ => None
      end
  | _ => None
  end.

Definition first_matching_row_value (rows : list json) (label_keywords : list pystr)
    : option float :=
  match List.find (label_matches label_keywords) rows with
  | Some row => first_cell_number row
  | None => None
  end.

(** Two rows match "мазнини"; the first one has an empty value. *)
Definition rows_fat : list json :=
  [row_json "Мазнини" [cell_json "" "g"];
   row_json "от които наситени мазнини" [cell_json "5" "g"]].

(** The first matching row holds no number, and the function returns the
    number of the second one. *)
Lemma first_matching_row_counterexample :
  first_matching_row_value rows_fat [u"мазнини"] = None
  /\ extract_nutritional_value (table_json rows_fat) [u"мазнини"] (Some (u"g"))
     = Ok (Some 5%float)
  /\ extract_nutritional_value (table_json rows_fat) [u"мазнини"] (Some (u"g"))
     <> Ok (first_matching_row_value rows_fat [u"мазнини"]).
Proof.
  assert (first_matching_row_value rows_fat [u"мазнини"] = None) as H1
    by (vm_compute; reflexivity).
  assert (extract_nutritional_value (table_json rows_fat) [u"мазнини"] (Some (u"g"))
          = Ok (Some 5%float)) as H2 by (vm_compute; reflexivity).
  repeat split; try assumption. rewrite H1, H2. discriminate.
Qed.

(** A row whose label is no text, and a row with the text ["0"] for a
    value. *)
Definition row_unlabelled : json :=
  JDict [(u"rowLabel", JNull); (u"cells", JList [cell_json "5" "g"])].

Definition row_zero_text : json := row_json "Мазнини" [cell_json "0" "g"].

(** C7, amended.  On a table with a list of rows, every row is of one of
    three kinds: the loop [skips] it (it is an object with a text label,
    and the label has no keyword, or there is no cell, or the value of the
    first cell is missing, falsy or no number); or it [yields] a number (a
    text label with a keyword, and a first cell with a truthy value that
    reads as a number and a unit that is a text or missing); or the loop
    raises at it.  The function does what the first row that is not skipped
    makes it do: it returns the number of a row that yields one (times
    1000 from grams to milligrams), it raises at a row of the third kind,
    and it returns nothing when every row is skipped, in particular when no
    label matches.  A label that is no text raises even when no keyword
    could match; the text ["0"] is a truthy value and is taken as 0.0. *)
Theorem extract_first_usable_row (nutrition_table : json) (rows : list json)
    (label_keywords : list pystr) (unit : option pystr) :
  truthy nutrition_table = true ->
  item nutrition_table (u"rows") = Ok (JList rows) ->
  (forall pre row post v,
      rows = pre ++ row :: post ->
      Forall (skips label_keywords) pre ->
      yields label_keywords unit row v ->
      extract_nutritional_value nutrition_table label_keywords unit = Ok (Some v))
  /\ (Forall (skips label_keywords) rows ->
      extract_nutritional_value nutrition_table label_keywords unit = Ok None)
  /\ ((forall row lbl, In row rows -> label_of row lbl ->
                       ~ keyword_in label_keywords lbl) ->
      Forall (fun row => exists lbl, label_of row lbl) rows ->
      extract_nutritional_value nutrition_table label_keywords unit = Ok None)
  /\ (forall pre row post e,
      rows = pre ++ row :: post ->
      Forall (skips label_keywords) pre ->
      scan_row label_keywords unit row = Raise e ->
      extract_nutritional_value nutrition_table label_keywords unit = Raise e)
  /\ (forall row,
      (skips label_keywords row
       /\ scan_row label_keywords unit row = Ok None)
      \/ (exists v, yields label_keywords unit row v
                    /\ scan_row label_keywords unit row = Ok (Some v))
      \/ (exists e, scan_row label_keywords unit row = Raise e
                    /\ ~ skips label_keywords row
                    /\ forall v, ~ yields label_keywords unit row v))
  /\ extract_nutritional_value (table_json [row_unlabelled]) [] unit
     = Raise AttributeError
  /\ extract_nutritional_value (table_json [row_zero_text]) [u"мазнини"] unit
     = Ok (Some 0%float).
Proof.
  intros Ht Hi. rewrite (extract_scan _ _ _ _ Ht Hi).
  split; [|split; [|split; [|split; [|split]]]].
  - intros pre row post v -> Hpre Hrow. apply scan_rows_first; assumption.
  - apply scan_rows_none.
  - intros Hno Hlbl. apply scan_rows_none.
    rewrite Forall_forall in Hlbl |- *. intros row Hin.
    destruct (Hlbl row Hin) as [lbl Hl]. exists lbl. split; [exact Hl|].
    left. apply (Hno row lbl); [|exact Hl].
    apply list_elem_of_In. exact Hin.
  - intros pre row post e -> Hpre Hrow. clear Hi.
    induction Hpre as [|r pre Hr _ IH]; cbn [app scan_rows].
    + rewrite Hrow. reflexivity.
    + rewrite (scan_row_skips _ unit _ Hr). cbn [bind]. exact IH.
  - intros row. destruct (scan_row label_keywords unit row) as [[v|]|e] eqn:Hrow.
    + right. left. exists v. split; [|reflexivity]. apply scan_row_some. exact Hrow.
    + left. split; [|reflexivity]. apply (scan_row_none _ unit). exact Hrow.
    + right. right. exists e. split; [reflexivity|]. split.
      * intros Hs. rewrite (scan_row_skips _ unit _ Hs) in Hrow. discriminate Hrow.
      * intros v Hy. rewrite (scan_row_yields _ _ _ _ Hy) in Hrow. discriminate Hrow.
  - split; [reflexivity|].
    destruct unit as [un|]; [|vm_compute; reflexivity].
    apply scan_rows_first with (pre := []) (post := []); [constructor|].
    exists (u"Мазнини"), (cell_json "0" "g"), 0%float, (u"g").
    split; [reflexivity|]. split.
    { exists (u"мазнини"), [], []. split; [left; reflexivity | vm_compute; reflexivity]. }
    split; [exists []; reflexivity|]. split.
    { exists (JStr (u"0")). repeat split; vm_compute; reflexivity. }
    destruct (converts (Some un) (u"g")) eqn:Hc; [|reflexivity].
    vm_compute. reflexivity.
Qed.

Lemma rows_fat_first_skipped :
  Forall (skips [u"мазнини"]) [row_json "Мазнини" [cell_json "" "g"]].
Proof.
  constructor; [|constructor].
  exists (u"Мазнини"). split; [reflexivity|]. right. right.
  exists (cell_json "" "g"), (JStr []).
  split; [exists []; reflexivity|]. split; [reflexivity|]. left. reflexivity.
Qed.

Lemma rows_fat_second_yields :
  yields [u"мазнини"] (Some (u"g"))
    (row_json "от които наситени мазнини" [cell_json "5" "g"]) 5%float.
Proof.
  exists (u"от които наситени мазнини"), (cell_json "5" "g"), 5%float, (u"g").
  split; [reflexivity|]. split.
  { exists (u"мазнини"), (u"от които наситени "), [].
    split; [left; reflexivity | vm_compute; reflexivity]. }
  split; [exists []; reflexivity|]. split; [|vm_compute; reflexivity].
  exists (JStr (u"5")). repeat split; vm_compute; reflexivity.
Qed.

Lemma extract_first_usable_row_witness :
  extract_nutritional_value (table_json rows_fat) [u"мазнини"] (Some (u"g"))
  = Ok (Some 5%float).
Proof.
  exact (proj1 (extract_first_usable_row (table_json rows_fat) rows_fat
                  [u"мазнини"] (Some (u"g")) eq_refl eq_refl)
               [row_json "Мазнини" [cell_json "" "g"]]
               (row_json "от които наситени мазнини" [cell_json "5" "g"])
               [] 5%float eq_refl rows_fat_first_skipped rows_fat_second_yields).
Defined.

(** ** C10: empty and zero values *)

(** The first cell has no value to take: the key is missing, or what it
    holds is falsy (the empty string, a zero, null). *)
Definition value_absent (c : json) : Prop :=
  exists raw, get c (u"value") JNull = Ok raw /\ truthy raw = false.

Lemma value_absent_cases (m : list (pystr * json)) :
  (assoc (u"value") m = None -> value_absent (JDict m))
  /\ (assoc (u"value") m = Some (JStr []) -> value_absent (JDict m))
  /\ (assoc (u"value") m = Some (JInt 0) -> value_absent (JDict m))
  /\ (assoc (u"value") m = Some (JFloat 0) -> value_absent (JDict m))
  /\ (assoc (u"value") m = Some JNull -> value_absent (JDict m)).
Proof.
  unfold value_absent. cbn [get].
  repeat split; intros ->; eexists; (split; [reflexivity|]); reflexivity.
Qed.

(** A numeric zero in the first energy row: the row is passed over.  A zero
    that is a text is taken. *)
Example zero_value_skipped :
  extract_nutritional_value
    (table_json [row_json "Енергийна стойност" [JDict [(u"value", JInt 0)]];
                 row_json "Енергийна стойност" [cell_json "250" "kcal"]])
    kw_energy (Some (u"kcal")) = Ok (Some 250%float)
  /\ extract_nutritional_value
       (table_json [row_json "Енергийна стойност" [JDict []];
                    row_json "Енергийна стойност" [cell_json "0.0" "kcal"]])
       kw_energy (Some (u"kcal")) = Ok (Some 0%float).
Proof. split; vm_compute; reflexivity. Qed.

(** ** C4: rejected records *)

(** The bundle that the extractor works on: the first bundle of the first
    variant. *)
Definition first_variant (article_data variant : json) : Prop :=
  exists k rest,
    get article_data (u"variants") (JDict []) = Ok (JDict ((k, variant) :: rest)).

Definition first_bundle (article_data bundle : json) : Prop :=
  exists variant k rest,
    first_variant article_data variant
    /\ get variant (u"bundles") (JDict []) = Ok (JDict ((k, bundle) :: rest)).

(** The list that is searched for the barcode: [eanNumber] when it is not
    empty, [gtins] otherwise. *)
Definition ean_list (bundle l : json) : Prop :=
  exists ean,
    get bundle (u"eanNumber") (JList []) = Ok ean
    /\ (truthy ean = true /\ l = ean
        \/ truthy ean = false /\ get bundle (u"gtins") (JList []) = Ok l).

(** No barcode can be had: the list is missing or empty, or the [number] of
    its first entry is missing or empty. *)
Definition no_barcode (bundle : json) : Prop :=
  exists l,
    ean_list bundle l
    /\ (truthy l = false
        \/ exists first rest number,
             l = JList (first :: rest)
             /\ get first (u"number") JNull = Ok number /\ truthy number = false).

(** The bundle has no nutrition table. *)
Definition no_nutrition_table (bundle : json) : Prop :=
  exists details,
    get bundle (u"details") (JDict []) = Ok details
    /\ (truthy details = false
        \/ exists t, get details (u"nutritionalTable") (JDict []) = Ok t
                     /\ truthy t = false).

Definition nutrition_fields_absent (p : product) : Prop :=
  energy_100g p = None /\ fat_100g p = None /\ saturated_fat_100g p = None
  /\ proteins_100g p = None /\ carbohydrates_100g p = None
  /\ sugars_100g p = None /\ fiber_100g p = None /\ sodium_100g p = None.

Lemma no_barcode_falsy (bundle : json) :
  no_barcode bundle -> exists c, barcode bundle = Ok c /\ truthy c = false.
Proof.
  intros (l & (ean & He & Hl) & Hno). unfold barcode. rewrite He. cbn [bind].
  assert ((if truthy ean then Ok ean else get bundle (u"gtins") (JList [])) = Ok l)
    as ->.
  { destruct Hl as [[-> ->] | [-> Hg]]; [reflexivity | exact Hg]. }
  cbn [bind]. destruct Hno as [Hf | (first & rest & number & -> & Hn & Hf)].
  - rewrite Hf. exists JNull. split; reflexivity.
  - cbn [truthy length Nat.eqb negb len bind Nat.ltb Nat.leb item0].
    rewrite Hn. exists number. split; [reflexivity | exact Hf].
Qed.

Section Rejection.

Variable format_value : json -> pystr.

Lemma body_at_first_bundle (article_data bundle : json) :
  first_bundle article_data bundle ->
  exists k,
    extract_product_data_body format_value article_data
    = (do code <- barcode bundle;
       if negb (truthy code) then Ok None else k code)
    /\ forall c p, k c = Ok (Some p) ->
         code p = c /\ (no_nutrition_table bundle -> nutrition_fields_absent p).
Proof.
  intros (variant & bk & brest & (vk & vrest & Hv) & Hb).
  unfold extract_product_data_body. rewrite Hv.
  cbn [bind truthy length Nat.eqb negb values map snd item0]. rewrite Hb.
  cbn [bind truthy length Nat.eqb negb values map snd item0].
  eexists. split; [reflexivity|]. cbv beta.
  intros c p H.
  do 4 bind_ok Hx. bind_ok Hq. do 3 bind_ok Hc. do 2 bind_ok Hi.
  bind_ok Hd. bind_ok He. destruct a10 as [ingr nd].
  injection H as <-. cbn [code]. split; [reflexivity|].
  intros (details & Hd' & Hno). rewrite Hd' in Hd. injection Hd as <-.
  assert (nd = no_nutrition) as ->.
  { destruct Hno as [Hf | (t & Ht & Hf)].
    - rewrite Hf in He. injection He as _ <-. reflexivity.
    - destruct (truthy details); [|injection He as _ <-; reflexivity].
      do 2 bind_ok Hy. rewrite Ht in He. cbn [bind] in He. rewrite Hf in He.
      injection He as _ <-. reflexivity. }
  repeat split.
Qed.

End Rejection.

Definition article_plain : json := article_json [ean_json "5901234123457"].

(** A fuller bundle: the barcode comes from [gtins], the brand is empty, one
    category has no level, the image is the large one, and the ingredient
    statement has boilerplate leafs. *)
Definition text (s : string) : json := JStr (utf8_decode s).

Definition leaf_json (meta_info label : string) : json :=
  JDict [(u"metaInfo", text meta_info); (u"label", text label)].

Definition level_json (name : string) : json := JDict [(u"displayName", text name)].

Definition article_yoghurt : json :=
  article_json
    [(u"gtins", JList [JDict [(u"number", text "3800020400012")]]);
     (u"description", text "Кисело мляко 3.6%");
     (u"brandName", text "");
     (u"contentData",
      JDict [(u"netPieceWeight", JDict [(u"value", text "400"); (u"uom", text "g")])]);
     (u"categories",
      JList [JDict [(u"levels", JList [level_json "Храни"; JDict []; level_json "Млечни"])];
             JDict [(u"levels", JList [])];
             JDict [(u"levels", JList [level_json "Промо"])]]);
     (u"imageUrlL", text "https://cdn.example/l.jpg");
     (u"details",
      JDict [(u"features",
              JList [JDict [(u"featureType", text "other")];
                     JDict [(u"featureType", text "ingredientStatement");
                            (u"leafs",
                             JList [leaf_json "" "INGREDIENTS";
                                    leaf_json "Contains" " мляко ";
                                    leaf_json "MayContain" "ядки";
                                    leaf_json "" "(";
                                    leaf_json "" "закваска"])]]);
             (u"nutritionalTable",
              table_json [row_json "Мазнини" [cell_json "3.6" "g"];
                          row_json "от които наситени мазнини" [cell_json "2.3" "g"];
                          row_json "Sodium" [cell_json "0.05" "G"]])])].

Example extract_product_data_yoghurt :
  extract_product_data format_text article_yoghurt
  = Some {| code := text "3800020400012";
            product_name := text "Кисело мляко 3.6%";
            quantity := Some (u"400 g");
            brand := JNull;
            categories := Some (u"Храни > Млечни | Промо");
            ingredients := Some (u"мляко закваска");
            image_url := text "https://cdn.example/l.jpg";
            nutriscore_grade := JNull;
            energy_100g := None;
            fat_100g := Some (float_of_decimal false 36 (-1));
            saturated_fat_100g := Some (float_of_decimal false 23 (-1));
            proteins_100g := None;
            carbohydrates_100g := None;
            sugars_100g := None;
            fiber_100g := None;
            sodium_100g := Some 50%float |}.
Proof. vm_compute. reflexivity. Qed.

(** A payload whose [variants] member is a list: [.values()] raises. *)
Definition article_odd : json := JDict [(u"variants", JList [JInt 1])].

(** C4.  A record is rejected when [variants] is missing or empty, when the
    [bundles] of the first variant are, and when no barcode can be had from
    the EAN or GTIN list; whatever raises inside the extraction gives
    [None]; and an accepted record carries the barcode as its code, with the
    eight nutrition fields absent when the bundle has no nutrition table,
    as for the barcode 5901234123457. *)
Theorem extract_product_data_rejects (format_value : json -> pystr) :
  (forall article_data variants,
      get article_data (u"variants") (JDict []) = Ok variants ->
      truthy variants = false ->
      extract_product_data format_value article_data = None)
  /\ (forall article_data variant bundles,
      first_variant article_data variant ->
      get variant (u"bundles") (JDict []) = Ok bundles ->
      truthy bundles = false ->
      extract_product_data format_value article_data = None)
  /\ (forall article_data bundle,
      first_bundle article_data bundle -> no_barcode bundle ->
      extract_product_data format_value article_data = None)
  /\ (forall article_data e,
      extract_product_data_body format_value article_data = Raise e ->
      extract_product_data format_value article_data = None)
  /\ (extract_product_data_body format_value article_odd = Raise AttributeError
      /\ extract_product_data format_value article_odd = None)
  /\ (forall article_data bundle p,
      first_bundle article_data bundle ->
      extract_product_data format_value article_data = Some p ->
      barcode bundle = Ok (code p) /\ truthy (code p) = true
      /\ (no_nutrition_table bundle -> nutrition_fields_absent p))
  /\ (exists p,
      extract_product_data format_value article_plain = Some p
      /\ code p = JStr (u"5901234123457") /\ nutrition_fields_absent p).
Proof.
  split; [|split; [|split; [|split; [|split; [|split]]]]].
  - intros a variants Hv Hf. unfold extract_product_data, extract_product_data_body.
    rewrite Hv. cbn [bind]. rewrite Hf. reflexivity.
  - intros a variant bundles (k & rest & Hv) Hb Hf.
    unfold extract_product_data, extract_product_data_body. rewrite Hv.
    cbn [bind truthy length Nat.eqb negb values map snd item0].
    rewrite Hb. cbn [bind]. rewrite Hf. reflexivity.
  - intros a bundle Hfb Hno.
    destruct (body_at_first_bundle format_value a bundle Hfb) as (k & Hk & _).
    destruct (no_barcode_falsy bundle Hno) as (c & Hc & Hf).
    unfold extract_product_data. rewrite Hk, Hc. cbn [bind]. rewrite Hf.
    reflexivity.
  - intros a e H. unfold extract_product_data. rewrite H. reflexivity.
  - split; vm_compute; reflexivity.
  - intros a bundle p Hfb H.
    destruct (body_at_first_bundle format_value a bundle Hfb) as (k & Hk & Hp).
    unfold extract_product_data in H. rewrite Hk in H.
    destruct (barcode bundle) as [c|] eqn:Hc; cbn [bind] in H; [|discriminate H].
    destruct (truthy c) eqn:Ht; cbn [negb] in H; [|discriminate H].
    destruct (k c) as [r|] eqn:Hkc; [|discriminate H]. subst r.
    destruct (Hp c p Hkc) as [<- Hn]. auto.
  - eexists. split; [vm_compute; reflexivity|].
    split; [vm_compute; reflexivity|]. repeat split.
Qed.

(** ** C5: the category walker *)

(** Induction on a JSON value, with the hypothesis for every element of a
    list and every member of an object. *)
Definition json_induction (P : json -> Prop)
    (HNull : P JNull) (HBool : forall b, P (JBool b)) (HInt : forall n, P (JInt n))
    (HFloat : forall x, P (JFloat x)) (HStr : forall s, P (JStr s))
    (HList : forall l, Forall P l -> P (JList l))
    (HDict : forall d, Forall (fun kv => P kv.2) d -> P (JDict d))
    : forall v, P v :=
  fix go (v : json) : P v :=
    match v with
    | JNull => HNull
    | JBool b => HBool b
    | JInt n => HInt n
    | JFloat x => HFloat x
    | JStr s => HStr s
    | JList l =>
        HList l ((fix all (l : list json) : Forall P l :=
                    match l with
                    | [] => @List.Forall_nil _ P
                    | x :: l' => @List.Forall_cons _ P x l' (go x) (all l')
                    end) l)
    | JDict d =>
        HDict d ((fix all (d : list (pystr * json)) : Forall (fun kv => P kv.2) d :=
                    match d with
                    | [] => @List.Forall_nil _ _
                    | kv :: d' => @List.Forall_cons _ (fun kv => P kv.2) kv d' (go kv.2) (all d')
                    end) d)
    end.

(** The definition of [extract_categories] in the shape of the source. *)
Lemma extract_categories_eq (tree_node : json) (categories : list pystr) :
  extract_categories tree_node categories
  = (do has_children <- has tree_node (u"children");
     if has_children then
       do children <- item tree_node (u"children");
       do l <- items children;
       walk_children extract_categories l categories
     else Ok categories).
Proof.
  destruct tree_node as [| b | n | x | s | l | d]; try reflexivity.
  cbn [extract_categories has item bind].
  induction d as [|[k v] d IH]; [reflexivity|].
  cbn [assoc]. destruct (pystr_eqb _ k); [|exact IH].
  destruct v; reflexivity.
Qed.

Lemma assoc_Forall (P : json -> Prop) (d : list (pystr * json)) (k : pystr) (v : json) :
  Forall (fun kv => P kv.2) d -> assoc k d = Some v -> P v.
Proof.
  induction 1 as [|[k' v'] d Hv _ IH]; cbn [assoc]; [discriminate|].
  destruct (pystr_eqb k k'); [intros [= <-]; exact Hv | exact IH].
Qed.

Definition under_root (p : pystr) : Prop := startswith p root_category = true.

(** Every path that the walk appends starts with the root prefix: the
    statement for a node and for the loop over its members. *)
Definition walk_under_root (tree_node : json) : Prop :=
  (forall categories r,
      Forall under_root categories ->
      extract_categories tree_node categories = Ok r -> Forall under_root r)
  /\ (forall cs categories r,
      tree_node = JDict cs -> Forall under_root categories ->
      walk_children extract_categories cs categories = Ok r ->
      Forall under_root r).

Lemma extract_categories_under_root (tree_node : json) : walk_under_root tree_node.
Proof.
  induction tree_node as [| b | n | x | s | l _ | d IH] using json_induction;
    (split; [|try discriminate]).
  1-6: intros categories r Hc; rewrite extract_categories_eq;
       destruct (has _ _) as [[|]|]; cbn [bind item]; try discriminate;
       intros [= <-]; exact Hc.
  - intros categories r Hc. rewrite extract_categories_eq. cbn [has item bind].
    destruct (assoc (u"children") d) as [v|] eqn:Hv; [|intros [= <-]; exact Hc].
    cbn [bind]. intros H. bind_ok Hi.
    destruct v; try discriminate Hi. injection Hi as <-.
    destruct (assoc_Forall walk_under_root _ _ _ IH Hv) as [_ Hwalk].
    exact (Hwalk _ _ _ eq_refl Hc H).
  - intros cs categories r [= <-]. revert categories r.
    induction IH as [|[k v] d Hv _ IHd]; intros categories r Hc;
      cbn [walk_children]; [intros [= <-]; exact Hc|].
    intros H. bind_ok Hp. destruct (truthy a); [|exact (IHd _ _ Hc H)].
    bind_ok Hs. destruct a0; [|exact (IHd _ _ Hc H)].
    destruct a; try discriminate H. bind_ok Hr.
    refine (IHd _ _ (proj1 Hv _ _ _ Hr) H).
    apply Forall_app_2; [exact Hc|]. apply Forall_cons_2; [|apply Forall_nil_2].
    injection Hs as Hs. exact Hs.
Qed.

Lemma root_under_root : under_root root_category.
Proof. vm_compute. reflexivity. Qed.

(** What holds of every list that the function returns. *)
Lemma get_food_subcategories_returns (response : option json) (l : list pystr) :
  get_food_subcategories response = Ok l -> l <> [] /\ Forall under_root l.
Proof.
  unfold get_food_subcategories. intros H. bind_ok Hc.
  assert (Forall under_root a) as Ha.
  { destruct response as [r|]; [|injection Hc as <-; constructor].
    destruct (truthy r); [|injection Hc as <-; constructor].
    bind_ok Hh. destruct a0; [|injection Hc as <-; constructor].
    do 3 bind_ok Hx.
    exact (proj1 (extract_categories_under_root _) _ _ (Forall_nil_2 _) Hc). }
  destruct a as [|p a]; injection H as <-.
  - split; [discriminate|]. apply Forall_cons_2; [apply root_under_root | constructor].
  - split; [discriminate | exact Ha].
Qed.

(** The cases in which the function falls back to the root category. *)
Lemma get_food_subcategories_fallback :
  get_food_subcategories None = Ok [root_category]
  /\ (forall r, truthy r = false ->
        get_food_subcategories (Some r) = Ok [root_category])
  /\ (forall r, has r (u"categorytree") = Ok false ->
        get_food_subcategories (Some r) = Ok [root_category])
  /\ (forall r tree children food_tree,
        truthy r = true ->
        item r (u"categorytree") = Ok tree ->
        item tree (u"children") = Ok children ->
        get children (u"Food_1622788118100") (JDict []) = Ok food_tree ->
        extract_categories food_tree [] = Ok [] ->
        get_food_subcategories (Some r) = Ok [root_category]).
Proof.
  split; [reflexivity|]. split; [|split].
  - intros r Hf. unfold get_food_subcategories. rewrite Hf. reflexivity.
  - intros r Hh. unfold get_food_subcategories. rewrite Hh.
    destruct (truthy r); reflexivity.
  - intros r tree children food_tree Ht Hi Hc Hg He.
    unfold get_food_subcategories. rewrite Ht.
    assert (has r (u"categorytree") = Ok true) as ->.
    { destruct r; try discriminate Hi. cbn [item has] in *.
      destruct (assoc _ members); [reflexivity | discriminate Hi]. }
    cbn [bind]. rewrite Hi. cbn [bind]. rewrite Hc. cbn [bind]. rewrite Hg.
    cbn [bind]. rewrite He. reflexivity.
Qed.

Definition category_json (path : string) (children : list (pystr * json)) : json :=
  JDict [(u"urlCategoryPath", JStr (utf8_decode path));
         (u"children", JDict children)].

Definition tree_response (food : list (pystr * json)) : json :=
  JDict [(u"categorytree",
          JDict [(u"children",
                  JDict [(u"Food_1622788118100", JDict [(u"children", JDict food)])])])].

Example get_food_subcategories_tree :
  get_food_subcategories
    (Some (tree_response
       [(u"a", category_json "хранителни-стоки/месо"
                 [(u"a1", category_json "хранителни-стоки/месо/пилешко" [])]);
        (u"b", category_json "нехранителни-стоки/офис" []);
        (u"c", category_json "хранителни-стоки/риба" [])]))
  = Ok [u"хранителни-стоки/месо"; u"хранителни-стоки/месо/пилешко";
        u"хранителни-стоки/риба"].
Proof. vm_compute. reflexivity. Qed.

(** C5.  A response whose [categorytree] has no [children] member, or is
    null, makes the function raise: the look-up [response['categorytree']
    ['children']] is not guarded, so the fallback to the root category is
    not reached for these malformed responses. *)
Theorem get_food_subcategories_malformed_tree :
  get_food_subcategories (Some (JDict [(u"categorytree", JDict [])]))
  = Raise KeyError
  /\ get_food_subcategories (Some (JDict [(u"categorytree", JNull)]))
     = Raise TypeError
  /\ get_food_subcategories
       (Some (JDict [(u"categorytree", JDict [(u"children", JList [])])]))
     = Raise AttributeError.
Proof. repeat split; vm_compute; reflexivity. Qed.

(** ** C3: the paginator *)

(** A decoded value that is a number for Python: an integer, a float or a
    truth value. *)
Definition is_number (v : json) : bool :=
  match v with
  | JInt _ | JFloat _ | JBool _ => true
  | _ => false
  end.

(** What [set.update] accepts: a list without lists and objects in it, a
    text (its characters) or an object (its keys). *)
Definition hashable_members (ids : json) : bool :=
  match ids with
  | JList l => forallb (fun v => match v with
                                 | JList _ | JDict _ => false
                                 | _ => true
                                 end) l
  | JStr _ | JDict _ => true
  | _ => false
  end.

Section PaginatorSpec.

Variable request : pystr -> Z -> option json.
Variable category : pystr.

(** The member [totalPages] of the answer for page [p], 1 when the answer
    has none. *)
Definition declared_total (p : Z) : json :=
  match request category p with
  | Some (JDict d) => default (JInt 1) (assoc (u"totalPages") d)
  | _ => JInt 1
  end.

(** The identifiers that page [p] contributes. *)
Definition page_ids (p : Z) : gset key :=
  match request category p with
  | Some (JDict d) =>
      match assoc (u"resultIds") d with
      | Some ids =>
          match iter ids with
          | Ok l => match keys_of l with
                    | Ok ks => list_to_set ks
                    | Raise _ => ∅
                    end
          | Raise _ => ∅
          end
      | None => ∅
      end
  | _ => ∅
  end.

(** (a) the response is missing or empty, has no [resultIds], or has none
    in it. *)
Definition no_results (p : Z) : bool :=
  match request category p with
  | None => true
  | Some r =>
      negb (truthy r)
      || match r with
         | JDict d =>
             match assoc (u"resultIds") d with
             | Some ids => negb (truthy ids)
             | None => true
             end
         | JList l => negb (existsb (fun x => eq_str x (u"resultIds")) l)
         | JStr s => negb (contains s (u"resultIds"))
         | _ => false
         end
  end.

(** (b) the page counter has reached the declared number of pages. *)
Definition at_declared_total (p : Z) : bool :=
  match page_ge p (declared_total p) with
  | Ok b => b
  | Raise _ => false
  end.

(** (c) the safety bound. *)
Definition at_safety_bound (p : Z) : bool := 100 <=? p.

Definition stops (p : Z) : bool :=
  no_results p || at_declared_total p || at_safety_bound p.

(** The answers that no test of the loop guards against: a number or
    [true]; a list or a text that contains ["resultIds"]; an object whose
    [resultIds] is a number other than zero or [true], or a list that holds
    a list or an object; and an object with identifiers whose [totalPages]
    is no number. *)
Definition unguarded (p : Z) : bool :=
  match request category p with
  | None => false
  | Some r =>
      truthy r
      && match r with
         | JDict d =>
             match assoc (u"resultIds") d with
             | Some ids =>
                 truthy ids
                 && (negb (hashable_members ids)
                     || negb (is_number (declared_total p)))
             | None => false
             end
         | JList l => existsb (fun x => eq_str x (u"resultIds")) l
         | JStr s => contains s (u"resultIds")
         | _ => true
         end
  end.

Lemma keys_of_hashable (l : list json) :
  forallb (fun v => match v with
                    | JList _ | JDict _ => false
                    | _ => true
                    end) l = true ->
  exists ks, keys_of l = Ok ks.
Proof.
  induction l as [|v l IH]; cbn [forallb keys_of]; [eauto|].
  intros H. apply andb_true_iff in H as [Hv Hl]. destruct (IH Hl) as [ks ->].
  destruct v; try discriminate Hv; cbn [key_of bind]; eauto.
Qed.

Lemma keys_of_unhashable (l : list json) :
  forallb (fun v => match v with
                    | JList _ | JDict _ => false
                    | _ => true
                    end) l = false ->
  keys_of l = Raise TypeError.
Proof.
  induction l as [|v l IH]; cbn [forallb keys_of]; [discriminate|].
  intros H. apply andb_false_iff in H as [Hv | Hl].
  - destruct v; try discriminate Hv; reflexivity.
  - rewrite (IH Hl). destruct (key_of v) as [k|e] eqn:Hk; cbn [bind]; [reflexivity|].
    destruct v; try discriminate Hk; cbn [key_of] in Hk; congruence.
Qed.

Lemma keys_of_strs (l : list pystr) : keys_of (map JStr l) = Ok (map KStr l).
Proof.
  induction l as [|s l IH]; [reflexivity|]. cbn [map keys_of key_of bind].
  rewrite IH. reflexivity.
Qed.

(** One turn of the loop, by the conditions of the page. *)
Lemma page_turn_spec (p : Z) (acc : gset key) :
  page_turn (request category p) p acc
  = if unguarded p then Raise TypeError
    else if stops p then Ok (Break (if no_results p then acc else acc ∪ page_ids p))
    else Ok (Next (acc ∪ page_ids p)).
Proof.
  unfold page_turn, unguarded, stops, no_results, at_declared_total,
    at_safety_bound, page_ids, declared_total.
  destruct (request category p) as [r|]; [|reflexivity].
  destruct (truthy r) eqn:Ht; cbn [negb andb orb]; [|reflexivity].
  destruct r as [|b|n|x|s|l|d]; cbn [has bind item]; try reflexivity.
  - destruct (contains s (u"resultIds")); reflexivity.
  - destruct (existsb _ l); reflexivity.
  - destruct (assoc (u"resultIds") d) as [ids|]; cbn [negb bind]; [|reflexivity].
    destruct (truthy ids) eqn:Hi; cbn [negb andb orb]; [|reflexivity].
    cbn [get bind].
    destruct ids as [|b|n|x|s|l|d']; cbn [hashable_members iter bind negb orb];
      try reflexivity.
    + assert (exists ks, keys_of (map (fun c => JStr [c]) s) = Ok ks) as [ks ->].
      { apply keys_of_hashable. clear. induction s; [reflexivity | exact IHs]. }
      cbn [bind].
      destruct (assoc (u"totalPages") d) as [[|b|n|x|t|t|t]|]; reflexivity.
    + destruct (forallb _ l) eqn:Hl.
      * destruct (keys_of_hashable l Hl) as [ks ->]. cbn [bind negb orb].
        destruct (assoc (u"totalPages") d) as [[|b|n|x|t|t|t]|]; reflexivity.
      * rewrite (keys_of_unhashable l Hl). reflexivity.
    + assert (exists ks, keys_of (map (fun kv => JStr (fst kv)) d') = Ok ks)
        as [ks ->].
      { apply keys_of_hashable. clear. induction d'; [reflexivity | exact IHd']. }
      cbn [bind].
      destruct (assoc (u"totalPages") d) as [[|b|n|x|t|t|t]|]; reflexivity.
Qed.

(** A page that gives no result contributes no identifier. *)
Lemma no_results_no_ids (p : Z) : no_results p = true -> page_ids p = ∅.
Proof.
  unfold no_results, page_ids. destruct (request category p) as [r|]; [|reflexivity].
  destruct r as [|b|n|x|s|l|d]; try reflexivity.
  destruct d as [|kv d]; [reflexivity|].
  destruct (assoc (u"resultIds") (kv :: d)) as [ids|]; [|reflexivity].
  cbn [truthy length Nat.eqb negb orb]. intros Hi. apply negb_true_iff in Hi.
  destruct ids as [|b|n|x|s|l|d']; try reflexivity; cbn [truthy] in Hi.
  - destruct s; [reflexivity | discriminate Hi].
  - destruct l; [reflexivity | discriminate Hi].
  - destruct d'; [reflexivity | discriminate Hi].
Qed.

(** What the function returns after the pages 1 to [n]. *)
Definition outcome_at (n : Z) : res (gset key) :=
  if unguarded n then Raise TypeError else Ok (⋃ (page_ids <$> seqZ 1 n)).

Lemma page_loop_spec (fuel : nat) (page : Z) (acc : gset key) (req : list Z) :
  1 <= page <= 100 -> 101 - page <= Z.of_nat fuel ->
  exists c,
    1 <= c /\ page + c - 1 <= 100
    /\ page_loop request fuel category page acc req
       = Some (if unguarded (page + c - 1) then Raise TypeError
               else Ok (acc ∪ ⋃ (page_ids <$> seqZ page c)),
               req ++ seqZ page c)
    /\ (unguarded (page + c - 1) = true \/ stops (page + c - 1) = true)
    /\ forall p, page <= p < page + c - 1 ->
                 unguarded p = false /\ stops p = false.
Proof.
  revert page acc req. induction fuel as [|fuel IH]; intros page acc req Hp Hf;
    [lia|].
  cbn [page_loop]. rewrite page_turn_spec.
  destruct (unguarded page) eqn:Hu.
  { exists 1. replace (page + 1 - 1) with page by lia. rewrite Hu.
    split; [lia|]. split; [lia|]. split; [reflexivity|]. split; [auto | lia]. }
  destruct (stops page) eqn:Hs.
  { exists 1. replace (page + 1 - 1) with page by lia. rewrite Hu.
    split; [lia|]. split; [lia|]. split; [|split; [auto | lia]].
    change (seqZ page 1) with [page]. cbn [fmap list_fmap].
    rewrite union_list_singleton_L.
    destruct (no_results page) eqn:Hn; [|reflexivity].
    rewrite (no_results_no_ids _ Hn), (right_id_L ∅ (∪)). reflexivity. }
  assert (page < 100) as Hlt.
  { unfold stops, at_safety_bound in Hs. apply orb_false_iff in Hs as [_ Hb].
    apply Z.leb_gt in Hb. exact Hb. }
  destruct (IH (page + 1) (acc ∪ page_ids page) (req ++ [page]))
    as (c & Hc1 & Hc2 & Heq & Hstop & Hgo); [lia | lia |].
  exists (c + 1). split; [lia|]. split; [lia|].
  replace (page + (c + 1) - 1) with (page + 1 + c - 1) by lia.
  split; [|split; [exact Hstop|]].
  - rewrite Heq. rewrite (seqZ_cons page (c + 1)) by lia.
    replace (Z.succ page) with (page + 1) by lia.
    replace (Z.pred (c + 1)) with c by lia.
    cbn [fmap list_fmap]. rewrite <- app_assoc. cbn [app].
    rewrite union_list_cons, (assoc_L (∪)). reflexivity.
  - intros p Hp'. destruct (Z.eq_dec p page) as [->|Hne];
      [auto | apply Hgo; lia].
Qed.

(** The function returns or raises, whatever the responses are. *)
Lemma paginator_returns :
  exists n,
    1 <= n <= 100
    /\ get_product_variant_ids_from_category request category
       = Some (outcome_at n, seqZ 1 n)
    /\ (unguarded n = true \/ stops n = true)
    /\ forall p, 1 <= p < n -> unguarded p = false /\ stops p = false.
Proof.
  destruct (page_loop_spec 100 1 ∅ []) as (c & Hc1 & Hc2 & Heq & Hstop & Hgo);
    [lia | lia |].
  exists c. replace (1 + c - 1) with c in * by lia.
  split; [lia|]. split; [|split; assumption].
  unfold get_product_variant_ids_from_category, outcome_at. rewrite Heq.
  rewrite (left_id_L ∅ (∪)). reflexivity.
Qed.

(** An answer with the members at their declared types, a list of texts
    and an integer or none, is guarded, and its identifiers are the texts. *)
Lemma typed_page (p : Z) (d : list (pystr * json)) (ids : list pystr) :
  request category p = Some (JDict d) ->
  assoc (u"resultIds") d = Some (JList (map JStr ids)) ->
  (assoc (u"totalPages") d = None \/ exists n, assoc (u"totalPages") d = Some (JInt n)) ->
  unguarded p = false /\ page_ids p = list_to_set (map KStr ids).
Proof.
  intros Hr Hi Ht. unfold unguarded, page_ids, declared_total. rewrite Hr, Hi.
  cbn [iter]. rewrite keys_of_strs. split; [|reflexivity].
  assert (hashable_members (JList (map JStr ids)) = true) as ->.
  { cbn [hashable_members]. clear. induction ids; [reflexivity | exact IHids]. }
  assert (is_number (default (JInt 1) (assoc (u"totalPages") d)) = true) as ->.
  { destruct Ht as [-> | [n ->]]; reflexivity. }
  cbn [negb orb]. rewrite andb_false_r, andb_false_r. reflexivity.
Qed.

End PaginatorSpec.

(** A mocked endpoint for the category [c1]: two identifiers on each of
    the pages 1 to 3, three pages declared, and a page 4 that would answer
    if it were asked. *)
Definition page_of (ids : list string) : option json :=
  Some (JDict [(u"resultIds", JList (map (fun s => JStr (utf8_decode s)) ids));
               (u"totalPages", JInt 3)]).

Definition request_c1 (category : pystr) (page : Z) : option json :=
  if pystr_eqb category (u"c1") then
    match page with
    | 1 => page_of ["BTY-X10032"%string; "BTY-X20032"%string]
    | 2 => page_of ["BTY-X30032"%string; "BTY-X40032"%string]
    | 3 => page_of ["BTY-X50032"%string; "BTY-X60032"%string]
    | 4 => page_of ["BTY-X70032"%string; "BTY-X80032"%string]
    | _ => None
    end
  else None.

(** The same, with an identifier of page 1 repeated on page 2. *)
Definition request_repeat (category : pystr) (page : Z) : option json :=
  match page with
  | 2 => page_of ["BTY-X10032"%string; "BTY-X40032"%string]
  | _ => request_c1 category page
  end.

Definition ids_c1 : gset key :=
  list_to_set (map (fun s => KStr (utf8_decode s))
    ["BTY-X10032"%string; "BTY-X20032"%string; "BTY-X30032"%string;
     "BTY-X40032"%string; "BTY-X50032"%string; "BTY-X60032"%string]).

Definition ids_repeat : gset key :=
  list_to_set (map (fun s => KStr (utf8_decode s))
    ["BTY-X10032"%string; "BTY-X20032"%string; "BTY-X40032"%string;
     "BTY-X50032"%string; "BTY-X60032"%string]).

(** The same endpoint, with a page 2 that declares no number of pages:
    [totalPages] is [null]. *)
Definition request_null_total (category : pystr) (page : Z) : option json :=
  match page with
  | 2 => Some (JDict [(u"resultIds", JList [JStr (u"BTY-X30032")]);
                      (u"totalPages", JNull)])
  | _ => request_c1 category page
  end.

(** The second answer is malformed, and the paginator does not stop with
    the identifiers of page 1: it raises. *)
Lemma malformed_page_counterexample :
  get_product_variant_ids_from_category request_null_total (u"c1")
  = Some (Raise TypeError, [1; 2])
  /\ stops request_null_total (u"c1") 1 = false
  /\ page_ids request_null_total (u"c1") 1
     = list_to_set [KStr (u"BTY-X10032"); KStr (u"BTY-X20032")].
Proof. repeat split; vm_compute; reflexivity. Qed.

(** C3.  For every category and every family of responses, decoded values
    of any shape or failed requests, the paginator ends.  It asks for the
    pages 1 to [n], at most 100, where [n] is the first page at which a
    termination condition holds (no results: a missing or empty response,
    no [resultIds], none in it; the page counter at or past the declared
    total; the bound of 100 pages) or at which the answer is one that the
    loop does not guard against.  In the first case it returns the set of the
    identifiers of these pages; in the second it raises [TypeError] and
    returns nothing.  An answer whose [resultIds] is a list of texts and whose
    [totalPages] is an integer or missing is guarded.  On the mocked endpoint
    the function returns six identifiers after the requests for pages 1, 2
    and 3, and five when one of them is repeated. *)
Theorem paginator_stops_at_first_condition :
  (forall request category,
      exists n,
        1 <= n <= 100
        /\ get_product_variant_ids_from_category request category
           = Some (if unguarded request category n then Raise TypeError
                   else Ok (⋃ (page_ids request category <$> seqZ 1 n)),
                   seqZ 1 n)
        /\ (unguarded request category n = true \/ stops request category n = true)
        /\ forall p, 1 <= p < n ->
                     unguarded request category p = false
                     /\ stops request category p = false)
  /\ (forall request category p d ids,
        request category p = Some (JDict d) ->
        assoc (u"resultIds") d = Some (JList (map JStr ids)) ->
        (assoc (u"totalPages") d = None
         \/ exists n, assoc (u"totalPages") d = Some (JInt n)) ->
        unguarded request category p = false
        /\ page_ids request category p = list_to_set (map KStr ids))
  /\ (get_product_variant_ids_from_category request_c1 (u"c1")
      = Some (Ok ids_c1, [1; 2; 3])
      /\ size ids_c1 = 6%nat)
  /\ (get_product_variant_ids_from_category request_repeat (u"c1")
      = Some (Ok ids_repeat, [1; 2; 3])
      /\ size ids_repeat = 5%nat).
Proof.
  split; [exact paginator_returns|]. split; [exact typed_page|].
  repeat split; vm_compute; reflexivity.
Qed.

(** * Properties of the importer *)

Module ImporterFacts.

Import Importer.

(** ** C8: the registry reconciler *)

(** The registry that a run leaves. *)
Definition stored (outcome : bool * list registry_row * (nat * nat))
    : list registry_row :=
  outcome.1.2.

(** A row that the [WHERE] clause of the [UPDATE] does not select. *)
Definition settled (source : table) (r : registry_row) : Prop :=
  update_where source r = false.

Lemma metro_any_append (s : option (list (option pystr))) :
  metro_any (array_append s) = Some true.
Proof.
  unfold metro_any, array_append. rewrite bool_decide_eq_true_2; [reflexivity|].
  apply elem_of_app. right. apply list_elem_of_singleton. reflexivity.
Qed.

Lemma tagged_settled (source : table) (c : pystr)
    (s : option (list (option pystr))) :
  metro_any s = Some true -> settled source {| r_code := c; sources := s |}.
Proof.
  unfold settled, update_where. cbn [sources]. intros ->. apply andb_false_r.
Qed.

(** After the [UPDATE] every row is settled, and the codes are the same. *)
Lemma tag_existing_settles (source : table) (registry : list registry_row) :
  Forall (settled source) (tag_existing source registry).1
  /\ map r_code (tag_existing source registry).1 = map r_code registry.
Proof.
  cbn [tag_existing fst]. induction registry as [|r registry [IH1 IH2]];
    cbn [map]; [split; [constructor | reflexivity]|].
  split.
  - apply Forall_cons_2; [|exact IH1].
    destruct (update_where source r) eqn:Hr; [|exact Hr].
    apply tagged_settled, metro_any_append.
  - rewrite IH2. destruct (update_where source r); reflexivity.
Qed.

(** On a settled registry the [UPDATE] changes nothing. *)
Lemma tag_existing_idle (source : table) (registry : list registry_row) :
  Forall (settled source) registry ->
  tag_existing source registry = (registry, 0%nat).
Proof.
  unfold tag_existing. induction 1 as [|r registry Hr _ IH]; [reflexivity|].
  injection IH as IH1 IH2. cbn [map List.filter length].
  rewrite Hr, IH1, IH2. reflexivity.
Qed.

(** Every code of the source table has a row in the registry. *)
Definition covered (source : table) (registry : list registry_row) : Prop :=
  forall c, c ∈ map fst (map_to_list source) -> c ∈ map r_code registry.

Lemma insert_new_covers (source : table) (registry : list registry_row) :
  Forall (settled source) registry ->
  Forall (settled source) (insert_new source registry).1
  /\ covered source (insert_new source registry).1.
Proof.
  intros Hs. cbn [insert_new fst]. split.
  - apply Forall_app_2; [exact Hs|].
    induction (filter _ _) as [|c l IH]; cbn [map]; [constructor|].
    apply Forall_cons_2; [|exact IH]. apply tagged_settled.
    unfold metro_any. rewrite bool_decide_eq_true_2; [reflexivity|].
    apply list_elem_of_singleton. reflexivity.
  - intros c Hc. rewrite map_app. apply elem_of_app.
    destruct (decide (c ∈ map r_code registry)) as [Hin|Hout]; [left; exact Hin|].
    right. rewrite map_map. cbn [r_code]. rewrite map_id.
    apply list_elem_of_filter. split; assumption.
Qed.

(** On a registry that covers the source the [INSERT] adds nothing. *)
Lemma insert_new_idle (source : table) (registry : list registry_row) :
  covered source registry -> insert_new source registry = (registry, 0%nat).
Proof.
  intros Hc. unfold insert_new.
  assert (filter (fun c => c ∉ map r_code registry) (map fst (map_to_list source))
          = []) as ->.
  { specialize (Hc : forall c, _). revert Hc.
    induction (map fst (map_to_list source)) as [|c l IH]; intros Hc;
      [reflexivity|].
    rewrite filter_cons. destruct (decide (c ∉ map r_code registry)) as [Hn|_].
    - exfalso. apply Hn, Hc. left.
    - apply IH. intros c' Hc'. apply Hc. right. exact Hc'. }
  cbn [map length]. rewrite app_nil_r. reflexivity.
Qed.

(** C8.  A second run of the reconciler against the same source table
    changes no row of the registry that the first run left: the [UPDATE]
    touches zero rows, the [INSERT] adds zero rows, and the registry is the
    same.  The two guards are what makes it so: after the first run every
    code of the source has a row, and no row is selected by the [UPDATE]. *)
Theorem update_food_item_sources_idempotent (source : table)
    (registry : list registry_row) :
  update_food_item_sources true source
    (stored (update_food_item_sources true source registry))
  = (true, stored (update_food_item_sources true source registry), (0, 0)%nat)
  /\ covered source (stored (update_food_item_sources true source registry))
  /\ Forall (settled source)
       (stored (update_food_item_sources true source registry)).
Proof.
  unfold update_food_item_sources, stored. cbn [negb].
  destruct (tag_existing_settles source registry) as [Hs _].
  destruct (tag_existing source registry) as [registry1 n1]. cbn [fst] in Hs.
  destruct (insert_new_covers source registry1 Hs) as [Hs2 Hc2].
  destruct (insert_new source registry1) as [registry2 n2]. cbn [fst snd] in *.
  rewrite (tag_existing_idle _ _ Hs2), (insert_new_idle _ _ Hc2).
  repeat split; assumption.
Qed.

(** A row that lacks the tag gets it, a new code gets a row, and the second
    run leaves both alone. *)
Example reconcile_twice :
  let source : table :=
    {[ u"5901234123457" := {| values := []; created_at := ColumnDefault |};
       u"3800020400012" := {| values := []; created_at := ColumnDefault |} ]} in
  let registry :=
    [ {| r_code := u"5901234123457"; sources := Some [Some (u"off")] |};
      {| r_code := u"4000000000000"; sources := Some [Some (u"off")] |} ] in
  let once := update_food_item_sources true source registry in
  once.2 = (1, 1)%nat
  /\ update_food_item_sources true source (stored once) = (true, stored once, (0, 0)%nat).
Proof. split; vm_compute; reflexivity. Qed.

(** ** C9: the bulk loader *)

(** *** Slices *)

Lemma range_step_cons (n step : nat) :
  (0 < n)%nat -> (0 < step)%nat ->
  range_step n step
  = 0%nat :: map (fun i => step + i)%nat (range_step (n - step) step).
Proof.
  intros Hn Hs. unfold range_step.
  assert (((n + step - 1) / step = S ((n - step + step - 1) / step))%nat) as ->.
  { destruct (le_lt_dec step n) as [Hle|Hlt].
    - replace (n + step - 1)%nat with ((n - step + step - 1) + 1 * step)%nat by lia.
      rewrite Nat.div_add by lia. lia.
    - replace (n - step + step - 1)%nat with (step - 1)%nat by lia.
      replace (n + step - 1)%nat with ((n - 1) + 1 * step)%nat by lia.
      rewrite Nat.div_add by lia.
      rewrite !Nat.div_small by lia. reflexivity. }
  cbn [seq map]. f_equal. rewrite <- seq_shift, !map_map.
  apply map_ext. intros k. lia.
Qed.

(** The first slice and the slices of what follows it. *)
Lemma slices_cons {A : Type} (step : nat) (l : list A) :
  (0 < step)%nat -> l <> [] ->
  slices step l = take step l :: slices step (drop step l).
Proof.
  intros Hs Hl. unfold slices.
  rewrite range_step_cons; [|destruct l; [congruence | simpl; lia] | exact Hs].
  cbn [map]. rewrite drop_0, map_map, length_drop. f_equal.
  apply map_ext. intros i. rewrite drop_drop. reflexivity.
Qed.

Lemma slices_nil {A : Type} (step : nat) :
  (0 < step)%nat -> slices step (@nil A) = [].
Proof.
  intros Hs. unfold slices, range_step. cbn [length].
  rewrite Nat.div_small by lia. reflexivity.
Qed.

(** The slices, put end to end, are the list. *)
Lemma concat_slices {A : Type} (step : nat) (l : list A) :
  (0 < step)%nat -> concat (slices step l) = l.
Proof.
  intros Hs. remember (length l) as n eqn:Hn. revert l Hn.
  induction n as [n IH] using lt_wf_ind. intros l Hn.
  destruct l as [|x l]; [rewrite slices_nil by exact Hs; reflexivity|].
  rewrite slices_cons by (exact Hs || discriminate). cbn [concat].
  rewrite (IH (length (drop step (x :: l)))); [apply take_drop| |reflexivity].
  rewrite length_drop. subst n. simpl. lia.
Qed.

(** *** Statements *)

(** The non-key values of the rows of a table, by code. *)
Definition contents (t : table) : gmap pystr (list cell) := values <$> t.

(** The rows supplied in a run, the later of two rows with one code winning. *)
Definition supplied (rows : list (pystr * list cell)) (m : gmap pystr (list cell))
    : gmap pystr (list cell) :=
  foldl (fun m row => <[row.1 := row.2]> m) m rows.

Lemma contents_upsert (transaction : nat) (t : table) (row : pystr * list cell) :
  contents (upsert transaction t row) = <[row.1 := row.2]> (contents t).
Proof.
  unfold contents, upsert. destruct (t !! row.1); rewrite fmap_insert; reflexivity.
Qed.

Lemma contents_foldl (transaction : nat) (rows : list (pystr * list cell)) (t : table) :
  contents (foldl (upsert transaction) t rows) = supplied rows (contents t).
Proof.
  revert t. induction rows as [|row rows IH]; intros t; [reflexivity|].
  cbn [foldl]. unfold supplied in *. cbn [foldl].
  rewrite IH, contents_upsert. reflexivity.
Qed.

Lemma pages_none (transaction : nat) (pages : list (list (pystr * list cell))) :
  foldl (fun acc page =>
           match acc with
           | Some t' => insert_statement transaction t' page
           | None => None
           end) None pages = None.
Proof. induction pages as [|p pages IH]; [reflexivity | exact IH]. Qed.

Lemma pages_contents (transaction : nat) (pages : list (list (pystr * list cell)))
    (t t' : table) :
  foldl (fun acc page =>
           match acc with
           | Some t' => insert_statement transaction t' page
           | None => None
           end) (Some t) pages = Some t' ->
  contents t' = supplied (concat pages) (contents t).
Proof.
  revert t. induction pages as [|p pages IH]; intros t; cbn [foldl concat].
  - intros [= <-]. reflexivity.
  - unfold insert_statement at 2.
    destruct (bool_decide (NoDup (map fst p))); [|rewrite pages_none; discriminate].
    intros H. rewrite (IH _ H), contents_foldl.
    unfold supplied. rewrite foldl_app. reflexivity.
Qed.

Lemma execute_values_contents (transaction : nat) (t t' : table)
    (batch_data : list (pystr * list cell)) :
  execute_values transaction t batch_data = Some t' ->
  contents t' = supplied batch_data (contents t).
Proof.
  unfold execute_values. intros H. rewrite (pages_contents _ _ _ _ H).
  rewrite concat_slices by (unfold page_size; lia). reflexivity.
Qed.

(** A run of the batch loop that succeeds over at least one batch leaves,
    as stored, the rows of all batches on top of the working table. *)
Lemma batch_loop_contents (batches : list (list clean_row)) (transaction : nat)
    (work committed db' : table) :
  batch_loop transaction batches work committed = (true, db') ->
  batches <> [] ->
  contents db' = supplied (concat (map (map row_data) batches)) (contents work).
Proof.
  revert transaction work committed.
  induction batches as [|b batches IH]; intros transaction work committed H Hne;
    [congruence|].
  cbn [batch_loop] in H.
  destruct (execute_values transaction work (map row_data b)) as [work'|] eqn:He;
    [|discriminate H].
  cbn [map concat]. unfold supplied. rewrite foldl_app.
  fold (supplied (map row_data b) (contents work)).
  rewrite <- (execute_values_contents _ _ _ _ He).
  destruct batches as [|b' batches].
  - cbn [batch_loop] in H. injection H as <-. reflexivity.
  - apply (IH _ _ _ H). discriminate.
Qed.

(** A run with a readable frame, a connection and a positive batch size is a
    run of the batch loop. *)
Lemma import_batch_loop (to_numeric : cell -> cell) (float_str : float -> pystr)
    (df : list csv_row) (batch_size : Z) (db : table) :
  0 < batch_size ->
  import_csv_to_metro_source to_numeric float_str true (Some df) true batch_size db
  = (Returns
       (batch_loop 0
          (slices (Z.to_nat batch_size) (clean_csv_data to_numeric float_str df))
          ∅ db).1,
     (batch_loop 0
        (slices (Z.to_nat batch_size) (clean_csv_data to_numeric float_str df))
        ∅ db).2).
Proof.
  intros Hb. unfold import_csv_to_metro_source. cbn [negb].
  destruct (batch_size =? 0) eqn:H0; [apply Z.eqb_eq in H0; lia|].
  destruct (batch_size <? 0) eqn:Hn; [apply Z.ltb_lt in Hn; lia|].
  destruct (batch_loop _ _ _ _). reflexivity.
Qed.

(** Full replacement, for a run that supplies at least one row with a
    code: the stored table holds, for each code, the values of the last row
    supplied for it, and nothing else. *)
Lemma import_replaces (to_numeric : cell -> cell) (float_str : float -> pystr)
    (df : list csv_row) (batch_size : Z) (db db' : table) :
  0 < batch_size ->
  clean_csv_data to_numeric float_str df <> [] ->
  import_csv_to_metro_source to_numeric float_str true (Some df) true batch_size db
  = (Returns true, db') ->
  contents db'
  = supplied (map row_data (clean_csv_data to_numeric float_str df)) ∅.
Proof.
  intros Hb Hne H. rewrite (import_batch_loop _ _ _ _ _ Hb) in H.
  injection H as H1 H2.
  destruct (batch_loop 0 _ ∅ db) as [ok db1] eqn:Hl. cbn [fst snd] in H1, H2.
  subst ok db1.
  rewrite (batch_loop_contents _ _ _ _ _ Hl).
  - rewrite <- concat_map, concat_slices by lia.
    unfold contents. rewrite fmap_empty. reflexivity.
  - rewrite slices_cons by (lia || exact Hne). discriminate.
Qed.

(** A code that was stored before the run and is not supplied again is
    gone after such a run. *)
Lemma supplied_lookup_None (rows : list (pystr * list cell))
    (m : gmap pystr (list cell)) (c : pystr) :
  c ∉ map fst rows -> supplied rows m !! c = m !! c.
Proof.
  revert m. induction rows as [|row rows IH]; intros m Hc; [reflexivity|].
  unfold supplied. cbn [foldl]. fold (supplied rows (<[row.1:=row.2]> m)).
  rewrite IH.
  - apply lookup_insert_ne. intros <-. apply Hc. left.
  - intros Hin. apply Hc. right. exact Hin.
Qed.

Lemma import_drops_old_rows (to_numeric : cell -> cell) (float_str : float -> pystr)
    (df : list csv_row) (batch_size : Z) (db db' : table) (c : pystr) :
  0 < batch_size ->
  clean_csv_data to_numeric float_str df <> [] ->
  import_csv_to_metro_source to_numeric float_str true (Some df) true batch_size db
  = (Returns true, db') ->
  c ∉ map fst (map row_data (clean_csv_data to_numeric float_str df)) ->
  db' !! c = None.
Proof.
  intros Hb Hne H Hc. pose proof (import_replaces _ _ _ _ _ _ Hb Hne H) as Hd.
  apply (f_equal (fun m => m !! c)) in Hd.
  rewrite supplied_lookup_None, lookup_empty in Hd by exact Hc.
  unfold contents in Hd. rewrite lookup_fmap in Hd.
  destruct (db' !! c); [discriminate Hd | reflexivity].
Qed.

(** *** Sample runs *)

Definition old_row : source_row :=
  {| values := [Text (u"Кисело мляко")]; created_at := ColumnDefault |}.

Definition old_table : table := {[ u"3800020400012" := old_row ]}.

Definition no_coercion (c : cell) : cell := c.

(** A stand-in for the text of a float: the sample frames hold none. *)
Definition no_float (x : float) : pystr := u"nan".

Definition csv (code : string) (name : string) : csv_row :=
  {| code := Text (utf8_decode code); fields := [Text (utf8_decode name)] |}.

(** One row is supplied: the old row is gone. *)
Example import_one_row :
  import_csv_to_metro_source no_coercion no_float true
    (Some [csv "5901234123457" "Сирене"]) true 1000 old_table
  = (Returns true,
     {[ u"5901234123457" :=
          {| values := [Text (u"Сирене")]; created_at := ColumnDefault |} ]}).
Proof. vm_compute. reflexivity. Qed.

(** The same code in two batches: the later row overwrites the earlier one.
    In one statement the same code twice makes the run fail. *)
Example import_collision :
  import_csv_to_metro_source no_coercion no_float true
    (Some [csv "5901234123457" "Сирене"; csv "5901234123457" "Кашкавал"]) true 1
    old_table
  = (Returns true,
     {[ u"5901234123457" :=
          {| values := [Text (u"Кашкавал")]; created_at := Now 1 |} ]})
  /\ import_csv_to_metro_source no_coercion no_float true
       (Some [csv "5901234123457" "Сирене"; csv "5901234123457" "Кашкавал"])
       true 1000 old_table
     = (Returns false, old_table).
Proof. split; vm_compute; reflexivity. Qed.

(** C9.  A run over a frame with no row that has a code succeeds and leaves
    the stored table as it was: the [DELETE] is committed only together
    with the first batch, and there is no batch.  The rows of a prior run
    survive although none of them was supplied again.  The same happens,
    whatever the frame holds, when the batch size is negative. *)
Theorem import_of_no_rows_keeps_old_rows (to_numeric : cell -> cell)
    (float_str : float -> pystr) :
  (forall df batch_size db,
      clean_csv_data to_numeric float_str df = [] ->
      batch_size <> 0 ->
      import_csv_to_metro_source to_numeric float_str true (Some df) true
        batch_size db
      = (Returns true, db))
  /\ (forall df batch_size db,
      batch_size < 0 ->
      import_csv_to_metro_source to_numeric float_str true (Some df) true
        batch_size db
      = (Returns true, db))
  /\ import_csv_to_metro_source to_numeric float_str true (Some []) true 1000
       old_table
     = (Returns true, old_table)
  /\ import_csv_to_metro_source to_numeric float_str true
       (Some [{| code := Null; fields := [Text (u"Сирене")] |}]) true 1000
       old_table
     = (Returns true, old_table)
  /\ old_table !! u"3800020400012" = Some old_row.
Proof.
  assert (forall df batch_size db,
             clean_csv_data to_numeric float_str df = [] ->
             batch_size <> 0 ->
             import_csv_to_metro_source to_numeric float_str true (Some df) true
               batch_size db
             = (Returns true, db)) as Hempty.
  { intros df batch_size db Hdf Hb. unfold import_csv_to_metro_source. cbn [negb].
    destruct (batch_size =? 0) eqn:H0; [apply Z.eqb_eq in H0; lia|].
    destruct (batch_size <? 0) eqn:Hn; [reflexivity|].
    apply Z.ltb_ge in Hn. apply Z.eqb_neq in H0.
    rewrite Hdf, slices_nil by lia. reflexivity. }
  split; [exact Hempty|]. split.
  - intros df batch_size db Hb. unfold import_csv_to_metro_source. cbn [negb].
    destruct (batch_size =? 0) eqn:H0; [apply Z.eqb_eq in H0; lia|].
    apply Z.ltb_lt in Hb. rewrite Hb. reflexivity.
  - split; [apply Hempty; [reflexivity | lia]|].
    split; [apply Hempty; [reflexivity | lia] | vm_compute; reflexivity].
Qed.

End ImporterFacts.

(** * Further properties of the scraper *)

(** ** The article identifier is a prefix of the variant identifier *)

(** X1.  What [convert_variant_to_article_id] cuts off is nothing or four
    digits, and what it leaves is never empty for a non-empty identifier. *)
Theorem article_id_is_prefix (variant_id : pystr) :
  (exists d,
      variant_id = convert_variant_to_article_id variant_id ++ d
      /\ (d = [] \/ (length d = 4%nat /\ forallb isdigit_cp d = true)))
  /\ (variant_id <> [] -> convert_variant_to_article_id variant_id <> [])
  /\ (length (convert_variant_to_article_id variant_id) <= length variant_id)%nat.
Proof.
  unfold convert_variant_to_article_id.
  destruct (4 <? Z.of_nat (length variant_id)) eqn:Hlen; cbn [andb].
  - apply Z.ltb_lt in Hlen.
    destruct (slices_split variant_id) as (Hs & Hd & Hp); [lia|].
    destruct (isdigit (slice_last 4 variant_id)) eqn:Hdig.
    + split; [|split].
      * exists (slice_last 4 variant_id). split; [exact Hs|]. right.
        split; [exact Hd|]. unfold isdigit in Hdig.
        apply andb_true_iff in Hdig. apply Hdig.
      * intros _. exact Hp.
      * unfold slice_but_last. rewrite length_take. lia.
    + split; [|split; [auto | lia]]. exists []. rewrite app_nil_r. auto.
  - split; [|split; [auto | lia]]. exists []. rewrite app_nil_r. auto.
Qed.

(** ** The requested unit *)

(** X2.  Unless milligrams are requested, the unit argument has no effect on
    what [extract_nutritional_value] returns or raises. *)
Theorem requested_unit_ignored (nutrition_table : json)
    (label_keywords : list pystr) (un : pystr) :
  lower un <> u"mg" ->
  extract_nutritional_value nutrition_table label_keywords (Some un)
  = extract_nutritional_value nutrition_table label_keywords None.
Proof.
  intros Hmg. apply extract_unit.
  destruct (pystr_eqb (lower un) (u"mg")) eqn:H; [|reflexivity].
  apply pystr_eqb_eq in H. contradiction.
Qed.

Lemma requested_unit_ignored_witness :
  extract_nutritional_value table_sodium [u"sodium"] (Some (u"kJ"))
  = extract_nutritional_value table_sodium [u"sodium"] None.
Proof.
  apply (requested_unit_ignored table_sodium [u"sodium"] (u"kJ")).
  vm_compute. discriminate.
Defined.

(** ** What an accepted record is made of *)

(** The outcome of the [if details:] block: the ingredients and the
    nutrition values. *)
Definition details_outcome (details : json) : res (option pystr * nutrition) :=
  if truthy details then
    do features <- get details (u"features") (JList []);
    do ingredients <- extract_ingredients features;
    do nutrition_table <- get details (u"nutritionalTable") (JDict []);
    if truthy nutrition_table then
      do nutrition_data <- nutrition_values nutrition_table;
      Ok (ingredients, nutrition_data)
    else Ok (ingredients, no_nutrition)
  else Ok (None, no_nutrition).

Section Accepted.

Variable format_value : json -> pystr.

(** A record is accepted only for a payload with a first bundle. *)
Lemma accepted_has_bundle (article_data : json) (p : product) :
  extract_product_data_body format_value article_data = Ok (Some p) ->
  exists bundle, first_bundle article_data bundle.
Proof.
  unfold extract_product_data_body. intros H.
  bind_ok Hv. destruct (truthy a) eqn:Ht; cbn [negb] in H; [|discriminate H].
  bind_ok Hvs. destruct a as [| | | | | |vs]; try discriminate Hvs.
  destruct vs as [|[vk variant] vs]; [discriminate Ht|].
  injection Hvs as <-. cbn [map snd item0 bind] in H.
  bind_ok Hb. destruct (truthy a) eqn:Ht2; cbn [negb] in H; [|discriminate H].
  bind_ok Hbs. destruct a as [| | | | | |bs]; try discriminate Hbs.
  destruct bs as [|[bk bundle] bs]; [discriminate Ht2|].
  exists bundle, variant, bk, bs. split; [|exact Hb]. exists vk, vs. exact Hv.
Qed.

Lemma accepted_fields (article_data bundle : json) (p : product) :
  first_bundle article_data bundle ->
  extract_product_data_body format_value article_data = Ok (Some p) ->
  exists name b cats cl parts details ingr nd,
    barcode bundle = Ok (code p) /\ truthy (code p) = true
    /\ get bundle (u"description") (JStr []) = Ok name
    /\ product_name p = py_or name JNull
    /\ get bundle (u"brandName") (JStr []) = Ok b
    /\ brand p = py_or b JNull
    /\ nutriscore_grade p = JNull
    /\ get bundle (u"categories") (JList []) = Ok cats
    /\ iter cats = Ok cl /\ category_loop cl [] = Ok parts
    /\ categories p = match parts with
                      | [] => None
                      | _ :: _ => Some (join (u" | ") parts)
                      end
    /\ get bundle (u"details") (JDict []) = Ok details
    /\ details_outcome details = Ok (ingr, nd)
    /\ ingredients p = ingr
    /\ (energy_100g p, fat_100g p, saturated_fat_100g p, proteins_100g p)
       = (n_energy nd, n_fat nd, n_saturated_fat nd, n_proteins nd)
    /\ (carbohydrates_100g p, sugars_100g p, fiber_100g p, sodium_100g p)
       = (n_carbohydrates nd, n_sugars nd, n_fiber nd, n_sodium nd).
Proof.
  intros (variant & bk & brest & (vk & vrest & Hv) & Hb) H.
  unfold extract_product_data_body in H. rewrite Hv in H.
  cbn [bind truthy length Nat.eqb negb values map snd item0] in H. rewrite Hb in H.
  cbn [bind truthy length Nat.eqb negb values map snd item0] in H.
  bind_ok Hcode. destruct (truthy a) eqn:Hct; cbn [negb] in H; [|discriminate H].
  bind_ok Hname. bind_ok Hbrand. bind_ok Hcd. bind_ok Hnw. bind_ok Hq.
  bind_ok Hcats. bind_ok Hcl. bind_ok Hparts. bind_ok Himg. bind_ok Himage.
  bind_ok Hdetails. bind_ok Hextra. destruct a11 as [ingr nd].
  injection H as <-.
  exists a0, a1, a5, a6, a7, a10, ingr, nd.
  cbn [code product_name brand nutriscore_grade categories ingredients
       energy_100g fat_100g saturated_fat_100g proteins_100g
       carbohydrates_100g sugars_100g fiber_100g sodium_100g].
  repeat split; assumption.
Qed.

End Accepted.

(** ** C10: zero values in the record *)

(** The eight values of the record are the eight look-ups. *)
Lemma nutrition_values_fields (nutrition_table : json) (nv : nutrition) :
  nutrition_values nutrition_table = Ok nv ->
  extract_nutritional_value nutrition_table kw_energy (Some (u"kcal"))
  = Ok (n_energy nv)
  /\ extract_nutritional_value nutrition_table [u"мазнини"] (Some (u"g"))
     = Ok (n_fat nv)
  /\ extract_nutritional_value nutrition_table [u"наситени"] (Some (u"g"))
     = Ok (n_saturated_fat nv)
  /\ extract_nutritional_value nutrition_table [u"белтъци"] (Some (u"g"))
     = Ok (n_proteins nv)
  /\ extract_nutritional_value nutrition_table [u"въглехидрати"] (Some (u"g"))
     = Ok (n_carbohydrates nv)
  /\ extract_nutritional_value nutrition_table [u"захари"] (Some (u"g"))
     = Ok (n_sugars nv)
  /\ extract_nutritional_value nutrition_table [u"влакна"; u"fiber"] (Some (u"g"))
     = Ok (n_fiber nv)
  /\ extract_nutritional_value nutrition_table [u"sodium"] (Some (u"mg"))
     = Ok (n_sodium nv).
Proof.
  intros H. split; [exact (nutrition_values_energy _ _ H)|].
  unfold nutrition_values in H.
  bind_ok He. bind_ok H1. bind_ok H2. bind_ok H3. bind_ok H4. bind_ok H5.
  bind_ok H6. bind_ok H7. bind_ok Hf. injection H as <-. cbn.
  repeat split; reflexivity.
Qed.

(** The nutrition table of the record: that of the details of its
    bundle, when both are not empty. *)
Definition nutrition_table_of (article_data nutrition_table : json) : Prop :=
  exists bundle details,
    first_bundle article_data bundle
    /\ get bundle (u"details") (JDict []) = Ok details
    /\ truthy details = true
    /\ get details (u"nutritionalTable") (JDict []) = Ok nutrition_table
    /\ truthy nutrition_table = true.

Lemma accepted_nutrition (format_value : json -> pystr)
    (article_data nutrition_table : json) (p : product) :
  nutrition_table_of article_data nutrition_table ->
  extract_product_data format_value article_data = Some p ->
  exists nv,
    nutrition_values nutrition_table = Ok nv
    /\ (energy_100g p, fat_100g p, saturated_fat_100g p, proteins_100g p)
       = (n_energy nv, n_fat nv, n_saturated_fat nv, n_proteins nv)
    /\ (carbohydrates_100g p, sugars_100g p, fiber_100g p, sodium_100g p)
       = (n_carbohydrates nv, n_sugars nv, n_fiber nv, n_sodium nv).
Proof.
  intros (bundle & details & Hb & Hd & Htd & Ht & Htt) H.
  unfold extract_product_data in H.
  destruct (extract_product_data_body format_value article_data) as [r|] eqn:Hbody;
    [subst r | discriminate H].
  destruct (accepted_fields _ _ _ _ Hb Hbody)
    as (name & b & cats & cl & parts & d & ingr & nd & _ & _ & _ & _ & _ & _ & _
        & _ & _ & _ & _ & Hd' & Ho & _ & Hn1 & Hn2).
  rewrite Hd in Hd'. injection Hd' as <-.
  unfold details_outcome in Ho. rewrite Htd in Ho.
  bind_ok Hf. bind_ok Hi. rewrite Ht in Ho. cbn [bind] in Ho. rewrite Htt in Ho.
  bind_ok Hnv. injection Ho as _ <-. exists a1. auto.
Qed.

(** An article whose energy row and whose fat row hold a zero that is a
    text. *)
Definition article_zero_text : json :=
  article_json [ean_json "5901234123457";
                nutrition_json [row_json "Енергийна стойност" [cell_json "0" "kcal"];
                                row_json "Мазнини" [cell_json "0.0" "g"]]].

(** A zero that is a text is a value like any other: the look-up returns
    0.0, and the record holds 0.0 for the energy and for the fat. *)
Lemma zero_text_counterexample :
  extract_nutritional_value
    (table_json [row_json "Енергийна стойност" [cell_json "0" "kcal"]])
    kw_energy (Some (u"kcal")) = Ok (Some 0%float)
  /\ option_map energy_100g (extract_product_data format_text article_zero_text)
     = Some (Some 0%float)
  /\ option_map fat_100g (extract_product_data format_text article_zero_text)
     = Some (Some 0%float).
Proof. repeat split; vm_compute; reflexivity. Qed.

(** C10, amended.  A matching row whose first cell has no value, or a
    falsy one, is passed over: the function returns what it returns on the
    table without that row, so the scan goes on with the rows after it.  A
    zero that is a text is a value: the record holds 0.0 for it.  The energy
    of an accepted record is what the fallback makes of the value found for
    kcal, its seven other values are the look-ups in its nutrition table,
    and the fallback looks the energy up again for kJ exactly when the value
    found for kcal is falsy, be it [None] or a zero. *)
Theorem absent_values_and_zero_energy :
  (forall nutrition_table label_keywords unit pre row post lbl c,
      truthy nutrition_table = true ->
      item nutrition_table (u"rows") = Ok (JList (pre ++ row :: post)) ->
      label_of row lbl -> keyword_in label_keywords lbl ->
      first_cell row c -> value_absent c ->
      extract_nutritional_value nutrition_table label_keywords unit
      = scan_rows label_keywords unit (pre ++ post))
  /\ (forall format_value article_data nutrition_table p,
      nutrition_table_of article_data nutrition_table ->
      extract_product_data format_value article_data = Some p ->
      exists energy,
        extract_nutritional_value nutrition_table kw_energy (Some (u"kcal"))
        = Ok energy
        /\ energy_fallback nutrition_table energy = Ok (energy_100g p)
        /\ extract_nutritional_value nutrition_table [u"мазнини"] (Some (u"g"))
           = Ok (fat_100g p)
        /\ extract_nutritional_value nutrition_table [u"наситени"] (Some (u"g"))
           = Ok (saturated_fat_100g p)
        /\ extract_nutritional_value nutrition_table [u"белтъци"] (Some (u"g"))
           = Ok (proteins_100g p)
        /\ extract_nutritional_value nutrition_table [u"въглехидрати"]
             (Some (u"g"))
           = Ok (carbohydrates_100g p)
        /\ extract_nutritional_value nutrition_table [u"захари"] (Some (u"g"))
           = Ok (sugars_100g p)
        /\ extract_nutritional_value nutrition_table [u"влакна"; u"fiber"]
             (Some (u"g"))
           = Ok (fiber_100g p)
        /\ extract_nutritional_value nutrition_table [u"sodium"] (Some (u"mg"))
           = Ok (sodium_100g p))
  /\ (forall nutrition_table energy,
      energy_fallback nutrition_table energy
      = if opt_truthy energy then Ok energy
        else
          do energy_kj <-
            extract_nutritional_value nutrition_table kw_energy (Some (u"kJ"));
          Ok (match energy_kj with
              | Some kj => if float_truthy kj
                           then Some (round1 (kj / kj_per_kcal)%float)
                           else energy
              | None => energy
              end))
  /\ (forall energy,
      opt_truthy energy = false
      <-> energy = None \/ exists x, energy = Some x /\ PrimFloat.eqb x 0 = true)
  /\ option_map energy_100g (extract_product_data format_text article_zero_text)
     = Some (Some 0%float)
  /\ option_map fat_100g (extract_product_data format_text article_zero_text)
     = Some (Some 0%float).
Proof.
  split; [|split; [|split; [|split; [|split]]]].
  - intros nt kws unit pre row post lbl c Ht Hi Hl Hk Hc (raw & Hraw & Hf).
    rewrite (extract_scan _ _ _ _ Ht Hi). apply scan_rows_without.
    apply scan_row_skips.
    exists lbl. split; [exact Hl|]. right. right. exists c, raw. auto.
  - intros fmt article nt p Hnt Hp.
    destruct (accepted_nutrition _ _ _ _ Hnt Hp) as (nv & Hnv & [= -> -> -> ->]
                                                    & [= -> -> -> ->]).
    destruct (nutrition_values_fields _ _ Hnv)
      as (He & Hfat & Hsat & Hpro & Hcar & Hsug & Hfib & Hsod).
    exists (n_energy nv). split; [exact He|].
    split; [exact (energy_fallback_inert _ _ He)|].
    repeat split; assumption.
  - intros nt energy. unfold energy_fallback.
    destruct (opt_truthy energy); cbn [negb]; [reflexivity|].
    destruct (extract_nutritional_value nt kw_energy (Some (u"kJ"))) as [kj|];
      cbn [bind]; [|reflexivity].
    destruct kj as [kj|]; [|reflexivity].
    destruct (float_truthy kj); reflexivity.
  - intros [x|]; cbn [opt_truthy]; unfold float_truthy.
    + rewrite negb_false_iff. split.
      * intros H. right. exists x. auto.
      * intros [H | (y & [= <-] & H)]; [discriminate H | exact H].
    + split; auto.
  - vm_compute. reflexivity.
  - vm_compute. reflexivity.
Qed.

(** ** A malformed nutrition row drops the record *)

Lemma scan_row_unlabelled (label_keywords : list pystr) (unit : option pystr)
    (row : json) :
  (forall s, get row (u"rowLabel") (JStr []) <> Ok (JStr s)) ->
  exists e, scan_row label_keywords unit row = Raise e.
Proof.
  intros Hl. unfold scan_row.
  destruct (get row (u"rowLabel") (JStr [])) as [v|e] eqn:Hg; cbn [bind]; [|eauto].
  destruct v; cbn [str_lower bind]; eauto. exfalso. apply (Hl s). reflexivity.
Qed.

(** X4.  The row at the head of the nutrition table has no string label (the
    label is null or a number, or the row is no object): the look-up
    raises, and the whole record is rejected. *)
Theorem unlabelled_row_rejects_record (format_value : json -> pystr)
    (article_data bundle details nutrition_table row : json) (rest : list json) :
  first_bundle article_data bundle ->
  get bundle (u"details") (JDict []) = Ok details ->
  get details (u"nutritionalTable") (JDict []) = Ok nutrition_table ->
  item nutrition_table (u"rows") = Ok (JList (row :: rest)) ->
  (forall s, get row (u"rowLabel") (JStr []) <> Ok (JStr s)) ->
  (forall label_keywords unit,
      exists e, extract_nutritional_value nutrition_table label_keywords unit
                = Raise e)
  /\ extract_product_data format_value article_data = None.
Proof.
  intros Hfb Hd Hn Hi Hl.
  assert (truthy nutrition_table = true) as Htn.
  { destruct nutrition_table; try discriminate Hi. cbn [item] in Hi.
    destruct members; [discriminate Hi | reflexivity]. }
  assert (forall kws unit,
            exists e, extract_nutritional_value nutrition_table kws unit = Raise e)
    as Hraise.
  { intros kws unit. rewrite (extract_scan _ _ _ _ Htn Hi). cbn [scan_rows].
    destruct (scan_row_unlabelled kws unit row Hl) as [e ->]. eauto. }
  split; [exact Hraise|].
  unfold extract_product_data.
  destruct (extract_product_data_body format_value article_data) as [[p|]|] eqn:Hb;
    try reflexivity.
  exfalso.
  destruct (accepted_fields _ _ _ _ Hfb Hb)
    as (name & b & cats & cl & parts & details' & ingr & nd & H).
  destruct H as (_ & _ & _ & _ & _ & _ & _ & _ & _ & _ & _ & Hd' & Ho & _).
  rewrite Hd in Hd'. injection Hd' as <-. unfold details_outcome in Ho.
  assert (truthy details = true) as Htd.
  { destruct details; try discriminate Hn. cbn [get] in Hn.
    destruct members; [|reflexivity]. cbn [assoc] in Hn. injection Hn as <-.
    discriminate Htn. }
  rewrite Htd in Ho. do 2 bind_ok Hx. rewrite Hn in Ho. cbn [bind] in Ho.
  rewrite Htn in Ho. unfold nutrition_values in Ho.
  destruct (Hraise kw_energy (Some (u"kcal"))) as [e He]. rewrite He in Ho.
  discriminate Ho.
Qed.

Definition rows_null_label : list json :=
  [JDict [(u"rowLabel", JNull); (u"cells", JList [])];
   row_json "Мазнини" [cell_json "3.6" "g"]].

Definition bundle_null_label : list (pystr * json) :=
  [ean_json "5901234123457"; nutrition_json rows_null_label].

Lemma unlabelled_row_witness :
  (forall label_keywords unit,
      exists e,
        extract_nutritional_value (table_json rows_null_label) label_keywords unit
        = Raise e)
  /\ extract_product_data format_text (article_json bundle_null_label) = None.
Proof.
  refine (unlabelled_row_rejects_record format_text
            (article_json bundle_null_label) (JDict bundle_null_label)
            (JDict [(u"nutritionalTable", table_json rows_null_label)])
            (table_json rows_null_label)
            (JDict [(u"rowLabel", JNull); (u"cells", JList [])])
            [row_json "Мазнини" [cell_json "3.6" "g"]]
            _ eq_refl eq_refl eq_refl _).
  - eexists _, _, _. split; [eexists _, _; reflexivity | reflexivity].
  - intros s. vm_compute. discriminate.
Defined.

(** ** Only the first variant and its first bundle are read *)

(** X5.  Two payloads with the same first bundle give the same record, whatever
    their other variants and bundles hold. *)
Theorem only_first_bundle_is_read (format_value : json -> pystr)
    (article_data article_data' bundle : json) :
  first_bundle article_data bundle ->
  first_bundle article_data' bundle ->
  extract_product_data format_value article_data
  = extract_product_data format_value article_data'.
Proof.
  intros (variant & bk & brest & (vk & vrest & Hv) & Hb)
         (variant' & bk' & brest' & (vk' & vrest' & Hv') & Hb').
  unfold extract_product_data, extract_product_data_body. rewrite Hv, Hv'.
  cbn [bind truthy length Nat.eqb negb values map snd item0]. rewrite Hb, Hb'.
  reflexivity.
Qed.

Definition article_two_variants : json :=
  JDict [(u"variants",
          JDict [(u"0032",
                  JDict [(u"bundles",
                          JDict [(u"0021", JDict [ean_json "5901234123457"]);
                                 (u"0022", JDict [ean_json "4000000000000"])])]);
                 (u"0033",
                  JDict [(u"bundles",
                          JDict [(u"0021", JDict [ean_json "3800020400012"])])])])].

Lemma only_first_bundle_witness :
  extract_product_data format_text article_two_variants
  = extract_product_data format_text article_plain.
Proof.
  apply (only_first_bundle_is_read format_text article_two_variants article_plain
           (JDict [ean_json "5901234123457"])).
  - eexists _, _, _. split; [eexists _, _; reflexivity | reflexivity].
  - eexists _, _, _. split; [eexists _, _; reflexivity | reflexivity].
Defined.

(** ** Where the barcode comes from *)

Lemma get_single_other (k k' : string) (v d : json) :
  pystr_eqb (utf8_decode k') (utf8_decode k) = false ->
  get (JDict [(utf8_decode k, v)]) (utf8_decode k') d = Ok d.
Proof. intros H. cbn [get assoc]. rewrite H. reflexivity. Qed.

Lemma get_single_same (k : pystr) (v d : json) :
  get (JDict [(k, v)]) k d = Ok v.
Proof. cbn [get assoc]. rewrite pystr_eqb_refl. reflexivity. Qed.

(** X6.  [gtins] is read only when [eanNumber] is missing or empty: with a
    non-empty [eanNumber] the barcode is that of [eanNumber] alone, so a
    first entry without a number rejects the record whatever [gtins] holds;
    with an empty one the barcode is that of [gtins] alone. *)
Theorem gtins_only_when_ean_is_empty (format_value : json -> pystr) :
  (forall bundle ean,
      get bundle (u"eanNumber") (JList []) = Ok ean -> truthy ean = true ->
      barcode bundle = barcode (JDict [(u"eanNumber", ean)]))
  /\ (forall bundle ean gtins,
      get bundle (u"eanNumber") (JList []) = Ok ean -> truthy ean = false ->
      get bundle (u"gtins") (JList []) = Ok gtins ->
      barcode bundle = barcode (JDict [(u"gtins", gtins)]))
  /\ (forall article_data bundle first rest number,
      first_bundle article_data bundle ->
      get bundle (u"eanNumber") (JList []) = Ok (JList (first :: rest)) ->
      get first (u"number") JNull = Ok number -> truthy number = false ->
      extract_product_data format_value article_data = None).
Proof.
  split; [|split].
  - intros bundle ean He Ht. unfold barcode.
    rewrite He, get_single_same. cbn [bind]. rewrite Ht. reflexivity.
  - intros bundle ean gtins He Ht Hg. unfold barcode.
    rewrite He, (get_single_other "gtins" "eanNumber") by (vm_compute; reflexivity).
    cbn [bind truthy length Nat.eqb negb]. rewrite Ht, Hg, get_single_same.
    reflexivity.
  - intros a bundle first rest number Hfb He Hn Hf.
    destruct (body_at_first_bundle format_value a bundle Hfb) as (k & Hk & _).
    destruct (no_barcode_falsy bundle) as (c & Hc & Hcf).
    { exists (JList (first :: rest)). split.
      - exists (JList (first :: rest)). split; [exact He|]. left. auto.
      - right. exists first, rest, number. auto. }
    unfold extract_product_data. rewrite Hk, Hc. cbn [bind]. rewrite Hcf.
    reflexivity.
Qed.

Example ean_without_number_hides_gtins :
  extract_product_data format_text
    (article_json [(u"eanNumber", JList [JDict []]);
                   (u"gtins", JList [JDict [(u"number", text "3800020400012")]])])
  = None
  /\ option_map code
       (extract_product_data format_text
          (article_json [(u"eanNumber", JList []);
                         (u"gtins", JList [JDict [(u"number", text "3800020400012")]])]))
     = Some (text "3800020400012").
Proof. split; vm_compute; reflexivity. Qed.

(** ** Ingredients *)

(** A label that is kept: not empty and none of the boilerplate tokens. *)
Definition kept_label (p : pystr) : Prop :=
  p <> [] /\ p <> u"INGREDIENTS" /\ p <> u"(" /\ p <> u")".

Lemma join_nonempty (sep p : pystr) (ps : list pystr) :
  p <> [] -> join sep (p :: ps) <> [].
Proof.
  intros Hp. cbn [join]. destruct ps; [exact Hp|].
  destruct p; [congruence | discriminate].
Qed.

Lemma ingredient_loop_kept (leafs : list json) (acc parts : list pystr) :
  Forall kept_label acc ->
  ingredient_loop leafs acc = Ok parts ->
  Forall kept_label parts.
Proof.
  revert acc. induction leafs as [|leaf leafs IH]; intros acc Hacc;
    cbn [ingredient_loop]; [intros [= <-]; exact Hacc|].
  intros H. bind_ok Hm.
  destruct (eq_str a (u"Contains") || eq_str a []); [|exact (IH _ Hacc H)].
  bind_ok Hl. destruct (truthy a0); [|exact (IH _ Hacc H)].
  bind_ok Hraw. bind_ok Hs.
  destruct (negb (Nat.eqb (length a2) 0)) eqn:Hne; cbn [andb] in H;
    [|exact (IH _ Hacc H)].
  destruct (pystr_eqb a2 (u"INGREDIENTS")) eqn:H1; cbn [orb negb] in H;
    [exact (IH _ Hacc H)|].
  destruct (pystr_eqb a2 (u"(")) eqn:H2; cbn [orb negb] in H;
    [exact (IH _ Hacc H)|].
  destruct (pystr_eqb a2 (u")")) eqn:H3; cbn [orb negb] in H;
    [exact (IH _ Hacc H)|].
  apply (IH (acc ++ [a2])); [|exact H].
  apply Forall_app_2; [exact Hacc|]. apply Forall_cons_2; [|apply Forall_nil_2].
  repeat split.
  - intros ->. discriminate Hne.
  - intros Heq. apply pystr_eqb_eq in Heq. congruence.
  - intros Heq. apply pystr_eqb_eq in Heq. congruence.
  - intros Heq. apply pystr_eqb_eq in Heq. congruence.
Qed.

Lemma extract_ingredients_parts (features : json) (s : pystr) :
  extract_ingredients features = Ok (Some s) ->
  exists parts,
    parts <> [] /\ Forall kept_label parts /\ s = join (u" ") parts /\ s <> [].
Proof.
  unfold extract_ingredients. intros H. bind_ok Hi. clear Hi.
  induction a as [|feature features' IH]; cbn [scan_features] in H;
    [discriminate H|].
  bind_ok Hf. destruct (eq_str a (u"ingredientStatement")); [|exact (IH H)].
  bind_ok Hl. bind_ok Hit. bind_ok Hp.
  destruct a2 as [|p ps]; [exact (IH H)|].
  assert (join (u" ") (p :: ps) = s) as <- by congruence.
  clear H IH. exists (p :: ps).
  pose proof (ingredient_loop_kept _ _ _ (Forall_nil_2 _) Hp) as Hk.
  split; [discriminate|]. split; [exact Hk|]. split; [reflexivity|].
  apply join_nonempty. apply Forall_cons_1 in Hk as [[Hne _] _]. exact Hne.
Qed.

(** A list of features with two ingredient statements: the first keeps no
    label. *)
Definition features_sample : json :=
  JList [JDict [(u"featureType", text "ingredientStatement");
                (u"leafs", JList [leaf_json "" "INGREDIENTS"; leaf_json "" ")"])];
         JDict [(u"featureType", text "ingredientStatement");
                (u"leafs", JList [leaf_json "Contains" " мляко ";
                                  leaf_json "MayContain" "ядки";
                                  leaf_json "" "закваска"])]].

(** *** Which leafs are kept *)

(** The label that a leaf contributes, if any: its annotation is empty or
    [Contains], and its label, stripped, is not empty and no boilerplate. *)
Definition label_kept (meta_info label : pystr) : option pystr :=
  if pystr_eqb meta_info (u"Contains") || pystr_eqb meta_info [] then
    if negb (Nat.eqb (length (strip label)) 0)
       && negb (pystr_eqb (strip label) (u"INGREDIENTS")
                || pystr_eqb (strip label) (u"(") || pystr_eqb (strip label) (u")"))
    then Some (strip label)
    else None
  else None.

(** A leaf with a text annotation and a text label; a missing key reads as
    the empty text. *)
Definition leaf_reads (leaf : json) (ml : pystr * pystr) : Prop :=
  get leaf (u"metaInfo") (JStr []) = Ok (JStr ml.1)
  /\ get leaf (u"label") (JStr []) = Ok (JStr ml.2).

Definition labels_kept (pairs : list (pystr * pystr)) : list pystr :=
  omap (fun ml => label_kept ml.1 ml.2) pairs.

Lemma get_label_truthy (leaf : json) (label : pystr) :
  get leaf (u"label") (JStr []) = Ok (JStr label) ->
  exists lbl, get leaf (u"label") JNull = Ok lbl
              /\ truthy lbl = negb (Nat.eqb (length label) 0).
Proof.
  destruct leaf; try discriminate. cbn [get].
  destruct (assoc (u"label") members) as [v|].
  - intros [= ->]. eexists. split; reflexivity.
  - intros [= <-]. exists JNull. split; reflexivity.
Qed.

Lemma strip_nil : strip [] = [].
Proof. reflexivity. Qed.

Lemma ingredient_loop_reads (leafs : list json) (pairs : list (pystr * pystr))
    (acc : list pystr) :
  Forall2 leaf_reads leafs pairs ->
  ingredient_loop leafs acc = Ok (acc ++ labels_kept pairs).
Proof.
  intros H. revert acc.
  induction H as [|leaf [meta label] leafs pairs [Hm Hl] _ IH]; intros acc;
    cbn [ingredient_loop].
  - unfold labels_kept. cbn [omap list_omap]. rewrite app_nil_r. reflexivity.
  - cbn [fst snd] in Hm, Hl. rewrite Hm. cbn [bind eq_str].
    unfold labels_kept. cbn [omap list_omap fst snd].
    fold (labels_kept pairs). unfold label_kept.
    destruct (pystr_eqb meta (u"Contains") || pystr_eqb meta []); [|apply IH].
    destruct (get_label_truthy leaf label Hl) as (lbl & -> & Ht). cbn [bind].
    rewrite Ht.
    destruct (Nat.eqb (length label) 0) eqn:Hlen; cbn [negb].
    + destruct label; [|discriminate Hlen]. rewrite strip_nil. cbn [length Nat.eqb negb andb].
      apply IH.
    + rewrite Hl. cbn [bind str_strip].
      destruct (negb (Nat.eqb (length (strip label)) 0)
                && negb (pystr_eqb (strip label) (u"INGREDIENTS")
                         || pystr_eqb (strip label) (u"(")
                         || pystr_eqb (strip label) (u")"))).
      * rewrite IH, <- app_assoc. reflexivity.
      * apply IH.
Qed.

(** A feature that is an ingredient statement with readable leafs. *)
Definition statement_reads (feature : json) (pairs : list (pystr * pystr)) : Prop :=
  get feature (u"featureType") JNull = Ok (JStr (u"ingredientStatement"))
  /\ exists leafs,
       get feature (u"leafs") (JList []) = Ok (JList leafs)
       /\ Forall2 leaf_reads leafs pairs.

(** A feature that the scan passes: another kind of feature, or a statement
    that keeps no label. *)
Definition feature_passed (feature : json) : Prop :=
  (exists t, get feature (u"featureType") JNull = Ok t
             /\ eq_str t (u"ingredientStatement") = false)
  \/ exists pairs, statement_reads feature pairs /\ labels_kept pairs = [].

Lemma scan_features_passed (feature : json) (features : list json) :
  feature_passed feature ->
  scan_features (feature :: features) = scan_features features.
Proof.
  intros [(t & Ht & Hne) | (pairs & (Ht & leafs & Hl & Hr) & Hk)];
    cbn [scan_features]; rewrite Ht; cbn [bind].
  - rewrite Hne. reflexivity.
  - cbn [eq_str]. rewrite pystr_eqb_refl, Hl. cbn [bind iter].
    rewrite (ingredient_loop_reads _ _ [] Hr), Hk. reflexivity.
Qed.

(** X9.  The ingredients are those of the first ingredient statement that keeps a
    label: the kept labels of its leafs, in order, joined by blanks.  Leafs
    with another annotation (allergen notes such as [MayContain]) and
    boilerplate labels are left out, and there are no ingredients when every
    feature is passed. *)
Theorem ingredients_of_first_statement (features pre post : list json)
    (feature : json) (pairs : list (pystr * pystr)) :
  Forall feature_passed pre ->
  (features = pre ++ feature :: post ->
   statement_reads feature pairs -> labels_kept pairs <> [] ->
   extract_ingredients (JList features)
   = Ok (Some (join (u" ") (labels_kept pairs))))
  /\ (features = pre -> extract_ingredients (JList features) = Ok None).
Proof.
  intros Hpre. unfold extract_ingredients. cbn [iter bind]. split.
  - intros -> (Ht & leafs & Hl & Hr) Hk.
    induction Hpre as [|f pre Hf _ IH]; cbn [app].
    + cbn [scan_features]. rewrite Ht. cbn [bind eq_str].
      rewrite pystr_eqb_refl, Hl. cbn [bind iter].
      rewrite (ingredient_loop_reads _ _ [] Hr). cbn [app].
      destruct (labels_kept pairs); [congruence | reflexivity].
    + rewrite (scan_features_passed _ _ Hf). exact IH.
  - intros ->. induction Hpre as [|f pre Hf _ IH]; [reflexivity|].
    rewrite (scan_features_passed _ _ Hf). exact IH.
Qed.

Lemma features_sample_first_passed :
  Forall feature_passed
    [JDict [(u"featureType", text "ingredientStatement");
            (u"leafs", JList [leaf_json "" "INGREDIENTS"; leaf_json "" ")"])]].
Proof.
  constructor; [|constructor]. right.
  exists [([], u"INGREDIENTS"); ([], u")")]. split; [|vm_compute; reflexivity].
  split; [reflexivity|]. eexists. split; [reflexivity|].
  repeat constructor.
Qed.

Lemma features_sample_statement :
  statement_reads
    (JDict [(u"featureType", text "ingredientStatement");
            (u"leafs", JList [leaf_json "Contains" " мляко ";
                              leaf_json "MayContain" "ядки";
                              leaf_json "" "закваска"])])
    [(u"Contains", u" мляко "); (u"MayContain", u"ядки"); ([], u"закваска")].
Proof.
  split; [reflexivity|]. eexists. split; [reflexivity|]. repeat constructor.
Qed.

Lemma ingredients_of_first_statement_witness :
  extract_ingredients features_sample = Ok (Some (u"мляко закваска")).
Proof.
  refine (eq_trans
    (proj1 (ingredients_of_first_statement _ _ [] _ _ features_sample_first_passed)
       eq_refl features_sample_statement _) _).
  - vm_compute. discriminate.
  - vm_compute. reflexivity.
Defined.

(** ** The shape of an accepted record *)

Lemma level_names_truthy (levels names : list json) :
  level_names levels = Ok names -> Forall (fun v => truthy v = true) names.
Proof.
  revert names. induction levels as [|level levels IH]; intros names;
    cbn [level_names]; [intros [= <-]; constructor|].
  intros H. bind_ok Hd. destruct (truthy a) eqn:Ht; [|exact (IH _ H)].
  rewrite (get_present _ _ _ (JStr []) _ Hd Ht eq_refl) in H. cbn [bind] in H.
  bind_ok Hr. injection H as <-. apply Forall_cons_2; [exact Ht | exact (IH _ eq_refl)].
Qed.

Lemma as_strs_nonempty (names : list json) (strs : list pystr) :
  as_strs names = Ok strs ->
  Forall (fun v => truthy v = true) names ->
  Forall (fun s => s <> []) strs /\ length strs = length names.
Proof.
  revert strs. induction names as [|v names IH]; intros strs; cbn [as_strs];
    [intros [= <-] _; split; [constructor | reflexivity]|].
  destruct v; try discriminate. intros H Hall. bind_ok Hr.
  injection H as <-. apply Forall_cons_1 in Hall as [Hs Hall].
  destruct (IH _ eq_refl Hall) as [IH1 IH2]. split; [|cbn [length]; congruence].
  apply Forall_cons_2; [|exact IH1]. intros ->. discriminate Hs.
Qed.

Lemma category_loop_nonempty (cats : list json) (acc parts : list pystr) :
  Forall (fun s => s <> []) acc ->
  category_loop cats acc = Ok parts ->
  Forall (fun s => s <> []) parts.
Proof.
  revert acc. induction cats as [|cat cats IH]; intros acc Hacc;
    cbn [category_loop]; [intros [= <-]; exact Hacc|].
  intros H. bind_ok Hl. destruct (truthy a); [|exact (IH _ Hacc H)].
  bind_ok Hi. bind_ok Hn. destruct a1 as [|v names]; [exact (IH _ Hacc H)|].
  bind_ok Hs. refine (IH _ _ H).
  apply Forall_app_2; [exact Hacc|]. apply Forall_cons_2; [|apply Forall_nil_2].
  destruct (as_strs_nonempty _ _ Hs (level_names_truthy _ _ Hn)) as [Hne Hlen].
  destruct a1 as [|s strs]; [discriminate Hlen|].
  apply join_nonempty. apply Forall_cons_1 in Hne as [Hne _]. exact Hne.
Qed.

(** X7.  An accepted record has a non-empty code; its name and its brand are
    [None] or non-empty, never an empty text; its grade is [None]; and its
    categories and ingredients, when present, are not empty. *)
Theorem accepted_record_is_normalised (format_value : json -> pystr)
    (article_data : json) (p : product) :
  extract_product_data format_value article_data = Some p ->
  truthy (code p) = true
  /\ (product_name p = JNull \/ truthy (product_name p) = true)
  /\ (brand p = JNull \/ truthy (brand p) = true)
  /\ nutriscore_grade p = JNull
  /\ (forall c, categories p = Some c -> c <> [])
  /\ (forall s, ingredients p = Some s -> s <> []).
Proof.
  unfold extract_product_data. intros H.
  destruct (extract_product_data_body format_value article_data) as [r|] eqn:Hb;
    [subst r | discriminate H].
  destruct (accepted_has_bundle _ _ _ Hb) as [bundle Hfb].
  destruct (accepted_fields _ _ _ _ Hfb Hb)
    as (name & b & cats & cl & parts & details & ingr & nd & H).
  destruct H as (_ & Hc & _ & Hn & _ & Hbr & Hg & _ & _ & Hp & Hcs & _ & Ho & Hi & _).
  split; [exact Hc|]. split; [|split; [|split; [exact Hg|split]]].
  - rewrite Hn. unfold py_or. destruct (truthy name) eqn:Ht; auto.
  - rewrite Hbr. unfold py_or. destruct (truthy b) eqn:Ht; auto.
  - intros c Hcat. rewrite Hcs in Hcat.
    pose proof (category_loop_nonempty _ _ _ (Forall_nil_2 _) Hp) as Hne.
    destruct parts as [|s parts]; [discriminate Hcat|].
    assert (join (u" | ") (s :: parts) = c) as <- by congruence.
    apply join_nonempty. apply Forall_cons_1 in Hne as [Hne _]. exact Hne.
  - intros s Hs. rewrite Hi in Hs. rewrite Hs in Ho. unfold details_outcome in Ho.
    destruct (truthy details); [|discriminate Ho].
    bind_ok Hf. bind_ok He. bind_ok Ht.
    assert (a0 = Some s) as ->.
    { destruct (truthy a1); [bind_ok Hv|]; congruence. }
    destruct (extract_ingredients_parts _ _ He) as (_ & _ & _ & _ & Hne).
    exact Hne.
Qed.

Lemma accepted_record_is_normalised_witness :
  exists p,
    extract_product_data format_text article_yoghurt = Some p
    /\ truthy (code p) = true
    /\ (product_name p = JNull \/ truthy (product_name p) = true)
    /\ (brand p = JNull \/ truthy (brand p) = true)
    /\ nutriscore_grade p = JNull
    /\ (forall c, categories p = Some c -> c <> [])
    /\ (forall s, ingredients p = Some s -> s <> []).
Proof.
  eexists. split; [exact extract_product_data_yoghurt|].
  exact (accepted_record_is_normalised format_text article_yoghurt _
           extract_product_data_yoghurt).
Defined.

(** ** The category walker on a well-formed tree *)

(** A category with a text path and its children by identifier. *)
Inductive category : Type :=
| Category (path : pystr) (children : list (pystr * category)).

Fixpoint tree_json (c : category) : json :=
  match c with
  | Category path children =>
      JDict [(u"urlCategoryPath", JStr path);
             (u"children", JDict (map (fun kc => (kc.1, tree_json kc.2)) children))]
  end.

Definition forest_json (cs : list (pystr * category)) : list (pystr * json) :=
  map (fun kc => (kc.1, tree_json kc.2)) cs.

(** The paths to report: a category under the root prefix, then what its
    children report, in order; nothing at all below a category that is not
    under the root prefix. *)
Fixpoint tree_paths (c : category) : list pystr :=
  match c with
  | Category path children =>
      if negb (Nat.eqb (length path) 0) && startswith path root_category
      then path :: flat_map (fun kc => tree_paths kc.2) children
      else []
  end.

Definition forest_paths (cs : list (pystr * category)) : list pystr :=
  flat_map (fun kc => tree_paths kc.2) cs.

Definition category_induction (P : category -> Prop)
    (H : forall path children, Forall (fun kc => P kc.2) children ->
                               P (Category path children))
    : forall c, P c :=
  fix go (c : category) : P c :=
    match c with
    | Category path children =>
        H path children
          ((fix all (cs : list (pystr * category)) : Forall (fun kc => P kc.2) cs :=
              match cs with
              | [] => @List.Forall_nil _ _
              | kc :: cs' => @List.Forall_cons _ (fun kc => P kc.2) kc cs' (go kc.2) (all cs')
              end) children)
    end.

Lemma get_single_first (k : pystr) (v d : json) (rest : list (pystr * json)) :
  get (JDict ((k, v) :: rest)) k d = Ok v.
Proof. cbn [get assoc]. rewrite pystr_eqb_refl. reflexivity. Qed.

Lemma extract_categories_tree (c : category) (categories : list pystr) :
  extract_categories (tree_json c) categories
  = walk_children extract_categories
      (forest_json match c with Category _ children => children end) categories.
Proof.
  destruct c as [path children]. rewrite extract_categories_eq. reflexivity.
Qed.

Lemma walk_forest (cs : list (pystr * category)) :
  Forall (fun kc =>
            forall categories,
              walk_children extract_categories
                (forest_json match kc.2 with Category _ children => children end)
                categories
              = Ok (categories
                    ++ forest_paths match kc.2 with Category _ children => children end))
         cs ->
  forall categories,
    walk_children extract_categories (forest_json cs) categories
    = Ok (categories ++ forest_paths cs).
Proof.
  induction 1 as [|[k [path children]] cs Hc _ IH]; intros categories.
  - cbn. rewrite app_nil_r. reflexivity.
  - cbn [forest_json map fst snd walk_children tree_json].
    rewrite get_single_first. cbn [bind truthy str_startswith].
    unfold forest_paths. cbn [flat_map fst snd tree_paths].
    destruct (negb (Nat.eqb (length path) 0)); cbn [andb]; [|apply IH].
    destruct (startswith path root_category); [|apply IH].
    change (JDict [(u"urlCategoryPath", JStr path);
                   (u"children", JDict (map (fun kc => (kc.1, tree_json kc.2)) children))])
      with (tree_json (Category path children)).
    rewrite extract_categories_tree. cbn [snd] in Hc. rewrite Hc. cbn [bind].
    fold (forest_json cs). rewrite IH. unfold forest_paths.
    rewrite <- !app_assoc. reflexivity.
Qed.

Lemma walk_children_of (c : category) (categories : list pystr) :
  walk_children extract_categories
    (forest_json match c with Category _ children => children end) categories
  = Ok (categories ++ forest_paths match c with Category _ children => children end).
Proof.
  revert categories. induction c as [path children IH] using category_induction.
  apply walk_forest. exact IH.
Qed.

Lemma walk_forest_paths (cs : list (pystr * category)) (categories : list pystr) :
  walk_children extract_categories (forest_json cs) categories
  = Ok (categories ++ forest_paths cs).
Proof. exact (walk_children_of (Category [] cs) categories). Qed.

Lemma item_has (v : json) (k : pystr) (x : json) :
  item v k = Ok x -> has v k = Ok true.
Proof.
  destruct v; try discriminate. cbn [item has].
  destruct (assoc k members); [reflexivity | discriminate].
Qed.

Lemma forest_paths_under_root (cs : list (pystr * category)) :
  Forall under_root (forest_paths cs).
Proof.
  pose proof (proj1 (extract_categories_under_root
                       (JDict [(u"children", JDict (forest_json cs))]))
                [] (forest_paths cs) (Forall_nil_2 _)) as H.
  apply H. rewrite extract_categories_eq. cbn [has item bind assoc].
  rewrite pystr_eqb_refl. cbn [bind items]. apply walk_forest_paths.
Qed.

(** X10.  On a response whose food node holds a well-formed tree, the walker
    raises nothing and returns the paths of the tree in the order of a
    walk that visits a category before its children: the categories under
    the root prefix that are reached through categories under the root
    prefix.  Below a category outside the prefix nothing is reported, and
    the root category stands in when there is no path at all. *)
Theorem subcategories_of_tree (r tree children food_tree : json)
    (cs : list (pystr * category)) :
  truthy r = true ->
  item r (u"categorytree") = Ok tree ->
  item tree (u"children") = Ok children ->
  get children (u"Food_1622788118100") (JDict []) = Ok food_tree ->
  item food_tree (u"children") = Ok (JDict (forest_json cs)) ->
  get_food_subcategories (Some r)
  = Ok (match forest_paths cs with
        | [] => [root_category]
        | _ :: _ => forest_paths cs
        end).
Proof.
  intros Ht Hi Hc Hg Hf. unfold get_food_subcategories.
  rewrite Ht, (item_has _ _ _ Hi). cbn [bind]. rewrite Hi. cbn [bind].
  rewrite Hc. cbn [bind]. rewrite Hg. cbn [bind].
  rewrite extract_categories_eq, (item_has _ _ _ Hf). cbn [bind].
  rewrite Hf. cbn [bind items]. rewrite walk_forest_paths. cbn [bind app].
  destruct (forest_paths cs); reflexivity.
Qed.

Definition forest_sample : list (pystr * category) :=
  [(u"a", Category (u"хранителни-стоки/месо")
            [(u"a1", Category (u"хранителни-стоки/месо/пилешко") []);
             (u"a2", Category (u"промоции")
                       [(u"a21", Category (u"хранителни-стоки/месо/промо") [])])]);
   (u"b", Category (u"нехранителни-стоки/офис")
            [(u"b1", Category (u"хранителни-стоки/кафе") [])]);
   (u"c", Category (u"хранителни-стоки/риба") [])].

Lemma subcategories_of_tree_witness :
  get_food_subcategories (Some (tree_response (forest_json forest_sample)))
  = Ok [u"хранителни-стоки/месо"; u"хранителни-стоки/месо/пилешко";
        u"хранителни-стоки/риба"].
Proof.
  refine (eq_trans
    (subcategories_of_tree (tree_response (forest_json forest_sample))
       (JDict [(u"children",
                JDict [(u"Food_1622788118100",
                        JDict [(u"children", JDict (forest_json forest_sample))])])])
       (JDict [(u"Food_1622788118100",
                JDict [(u"children", JDict (forest_json forest_sample))])])
       (JDict [(u"children", JDict (forest_json forest_sample))])
       forest_sample _ _ _ _ _) _); vm_compute; reflexivity.
Defined.

(** X11.  Whatever the response, a list that the walker returns is not empty and
    all its paths start with the root prefix. *)
Theorem subcategories_nonempty_under_root (response : option json)
    (l : list pystr) :
  get_food_subcategories response = Ok l ->
  l <> [] /\ Forall (fun p => startswith p root_category = true) l.
Proof. exact (get_food_subcategories_returns response l). Qed.

Lemma subcategories_nonempty_under_root_witness :
  [root_category] <> []
  /\ Forall (fun p => startswith p root_category = true) [root_category].
Proof.
  exact (subcategories_nonempty_under_root (Some (JDict [])) [root_category] eq_refl).
Defined.

(** X12.  The walker falls back to the root category alone when the request
    failed, when the response is empty or has no [categorytree] member, and
    when the walk finds no path. *)
Theorem subcategories_fall_back_to_root :
  get_food_subcategories None = Ok [root_category]
  /\ (forall r, truthy r = false ->
        get_food_subcategories (Some r) = Ok [root_category])
  /\ (forall r, has r (u"categorytree") = Ok false ->
        get_food_subcategories (Some r) = Ok [root_category])
  /\ (forall r tree children food_tree,
        truthy r = true ->
        item r (u"categorytree") = Ok tree ->
        item tree (u"children") = Ok children ->
        get children (u"Food_1622788118100") (JDict []) = Ok food_tree ->
        extract_categories food_tree [] = Ok [] ->
        get_food_subcategories (Some r) = Ok [root_category]).
Proof. exact get_food_subcategories_fallback. Qed.

(** * The drivers of the scraper *)

(** ** [get_all_product_variant_ids] *)

Section AllVariantIds.

Variable request : pystr -> Z -> option json.

(** One turn of the loop over the categories: the set so far and the search
    requests made so far, each a category and a page number.  A category
    whose paginator raises is logged and passed over. *)
Definition scan_category (state : gset key * list (pystr * Z)) (category : pystr)
    : gset key * list (pystr * Z) :=
  match get_product_variant_ids_from_category request category with
  | Some (Ok category_ids, pages) =>
      (state.1 ∪ category_ids, state.2 ++ map (pair category) pages)
  | Some (Raise _, pages) => (state.1, state.2 ++ map (pair category) pages)
  | None => state
  end.

(** [tree_response] is the answer to the request for the category tree. *)
Definition get_all_product_variant_ids (tree_response : option json)
    : res (gset key * list (pystr * Z)) :=
  do categories <- get_food_subcategories tree_response;
  Ok (foldl scan_category (∅, []) categories).

(** The pages that the paginator asks for, and the identifiers that it
    returns, none when it raises. *)
Definition pages_requested (category : pystr) : list Z :=
  match get_product_variant_ids_from_category request category with
  | Some (_, pages) => pages
  | None => []
  end.

Definition category_ids (category : pystr) : gset key :=
  match get_product_variant_ids_from_category request category with
  | Some (Ok ids, _) => ids
  | _ => ∅
  end.

Lemma scan_category_spec (state : gset key * list (pystr * Z)) (category : pystr) :
  scan_category state category
  = (state.1 ∪ category_ids category,
     state.2 ++ map (pair category) (pages_requested category)).
Proof.
  unfold scan_category, category_ids, pages_requested.
  destruct (paginator_returns request category) as (n & _ & -> & _).
  unfold outcome_at. destruct (unguarded request category n); [|reflexivity].
  rewrite (right_id_L ∅ (∪)). reflexivity.
Qed.

Lemma scan_categories_spec (categories : list pystr)
    (state : gset key * list (pystr * Z)) :
  foldl scan_category state categories
  = (state.1 ∪ ⋃ (category_ids <$> categories),
     state.2
     ++ flat_map (fun c => map (pair c) (pages_requested c)) categories).
Proof.
  revert state. induction categories as [|c categories IH]; intros state;
    cbn [foldl fmap list_fmap flat_map].
  - rewrite union_list_nil, (right_id_L ∅ (∪)), app_nil_r.
    destruct state; reflexivity.
  - rewrite IH, scan_category_spec. cbn [fst snd].
    rewrite union_list_cons, (assoc_L (∪)), app_assoc. reflexivity.
Qed.

Lemma category_pages (category : pystr) :
  exists n,
    1 <= n <= 100
    /\ pages_requested category = seqZ 1 n
    /\ category_ids category
       = if unguarded request category n then ∅
         else ⋃ (page_ids request category <$> seqZ 1 n).
Proof.
  unfold pages_requested, category_ids.
  destruct (paginator_returns request category) as (n & Hn & -> & _).
  exists n. split; [exact Hn|]. split; [reflexivity|].
  unfold outcome_at. destruct (unguarded request category n); reflexivity.
Qed.

End AllVariantIds.

(** X13.  When the walker returns its categories, the driver returns the
    union of the identifiers that the paginator returns for them; a category
    for which the paginator raises is passed over and gives nothing.  The
    search requests are, category after category, those of the paginator:
    for each category, a path under the root prefix, the pages 1 to [n] with
    [n] at most 100. *)
Theorem all_variant_ids_are_the_category_ids
    (request : pystr -> Z -> option json) (tree_response : option json)
    (categories : list pystr) :
  get_food_subcategories tree_response = Ok categories ->
  get_all_product_variant_ids request tree_response
  = Ok (⋃ (category_ids request <$> categories),
        flat_map (fun c => map (pair c) (pages_requested request c)) categories)
  /\ Forall (fun c =>
               under_root c
               /\ exists n,
                    1 <= n <= 100
                    /\ pages_requested request c = seqZ 1 n
                    /\ category_ids request c
                       = if unguarded request c n then ∅
                         else ⋃ (page_ids request c <$> seqZ 1 n))
       categories.
Proof.
  intros Hc. unfold get_all_product_variant_ids. rewrite Hc. cbn [bind].
  rewrite scan_categories_spec. cbn [fst snd app].
  rewrite (left_id_L ∅ (∪)). split; [reflexivity|].
  destruct (get_food_subcategories_returns _ _ Hc) as [_ Hroot].
  rewrite Forall_forall in Hroot. apply Forall_forall. intros c Hin.
  split; [exact (Hroot c Hin) | apply category_pages].
Qed.

(** A tree with three food categories, and an endpoint that has two pages
    for the first, a malformed answer for the second and none for the
    third. *)
Definition request_three (category : pystr) (page : Z) : option json :=
  if pystr_eqb category (u"хранителни-стоки/месо") then
    match page with
    | 1 => Some (JDict [(u"resultIds", JList [JStr (u"BTY-X10032"); JStr (u"BTY-X10021")]);
                        (u"totalPages", JInt 2)])
    | 2 => Some (JDict [(u"resultIds", JList [JStr (u"BTY-X20032")]);
                        (u"totalPages", JInt 2)])
    | _ => None
    end
  else if pystr_eqb category (u"хранителни-стоки/месо/пилешко") then
    Some (JDict [(u"resultIds", JList [JStr (u"BTY-X30032")]);
                 (u"totalPages", JNull)])
  else None.

Definition categories_three : list pystr :=
  [u"хранителни-стоки/месо"; u"хранителни-стоки/месо/пилешко";
   u"хранителни-стоки/риба"].

Lemma all_variant_ids_witness :
  get_all_product_variant_ids request_three
    (Some (tree_response (forest_json forest_sample)))
  = Ok (⋃ (category_ids request_three <$> categories_three),
        flat_map (fun c => map (pair c) (pages_requested request_three c))
          categories_three)
  /\ Forall (fun c =>
               under_root c
               /\ exists n,
                    1 <= n <= 100
                    /\ pages_requested request_three c = seqZ 1 n
                    /\ category_ids request_three c
                       = if unguarded request_three c n then ∅
                         else ⋃ (page_ids request_three c <$> seqZ 1 n))
       categories_three.
Proof.
  refine (all_variant_ids_are_the_category_ids request_three
            (Some (tree_response (forest_json forest_sample))) categories_three _).
  vm_compute. reflexivity.
Defined.

(** On this endpoint the driver finds the three identifiers of the first
    category, after four requests. *)
Example all_variant_ids_three :
  match get_all_product_variant_ids request_three
          (Some (tree_response (forest_json forest_sample))) with
  | Ok (all_variant_ids, requests) =>
      (bool_decide (KStr (u"BTY-X10032") ∈ all_variant_ids),
       bool_decide (KStr (u"BTY-X30032") ∈ all_variant_ids),
       size all_variant_ids, requests)
  | Raise _ => (false, false, 0%nat, [])
  end
  = (true, false, 3%nat,
     [(u"хранителни-стоки/месо", 1); (u"хранителни-стоки/месо", 2);
      (u"хранителни-стоки/месо/пилешко", 1); (u"хранителни-стоки/риба", 1)]).
Proof. vm_compute. reflexivity. Qed.

(** ** [scrape_all_products] *)

(** [convert_variant_to_article_id(vid)] for a member of the set: [len]
    raises on what is no text. *)
Definition convert_member (vid : key) : res pystr :=
  match vid with
  | KStr s => Ok (convert_variant_to_article_id s)
  | KNone | KInt _ | KFloat _ => Raise TypeError
  end.

Fixpoint convert_members (variant_ids : list key) : res (list pystr) :=
  match variant_ids with
  | [] => Ok []
  | vid :: variant_ids' =>
      do a <- convert_member vid;
      do l <- convert_members variant_ids';
      Ok (a :: l)
  end.

Section Scrape.

Variable format_value : json -> pystr.
Variable request : pystr -> Z -> option json.

(** [get_product_details_batch] for a batch of article identifiers: [None]
    when the request failed. *)
Variable details : list pystr -> option json.

(** [list(s)] for a set: its elements in the order in which Python happens
    to iterate over them. *)
Variable listing : gset pystr -> list pystr.

(** The body of the loop over the batches, for the answer to one batch. *)
Definition collect_batch (batch_response : option json) (all_products : list product)
    : res (list product) :=
  match batch_response with
  | None => Ok all_products
  | Some r =>
      if truthy r then
        do has_result <- has r (u"result");
        if has_result then
          do result <- item r (u"result");
          do articles <- items result;
          Ok (all_products
              ++ omap (fun kv => extract_product_data format_value kv.2) articles)
        else Ok all_products
      else Ok all_products
  end.

Fixpoint detail_loop (batches : list (list pystr)) (all_products : list product)
    : res (list product) :=
  match batches with
  | [] => Ok all_products
  | batch_ids :: batches' =>
      do all_products' <- collect_batch (details batch_ids) all_products;
      detail_loop batches' all_products'
  end.

(** The members of the set are converted in the order in which Python
    iterates over it; the outcome is the same in every order, as the
    conversion raises nothing but [TypeError]. *)
Definition scrape_all_products (tree_response : option json) : res (list product) :=
  do found <- get_all_product_variant_ids request tree_response;
  let variant_ids := found.1 in
  if decide (variant_ids = ∅) then Ok []
  else
    do converted <- convert_members (elements variant_ids);
    let article_ids := listing (list_to_set converted) in
    detail_loop (Importer.slices 20 article_ids) [].

(** The records that the answer to one batch gives: those of the members of
    its [result] object, in order, when there is one. *)
Definition batch_products (batch_response : option json) : list product :=
  match batch_response with
  | Some (JDict m) =>
      match assoc (u"result") m with
      | Some (JDict articles) =>
          omap (fun kv => extract_product_data format_value kv.2) articles
      | _ => []
      end
  | _ => []
  end.

Lemma collect_batch_products (batch_response : option json)
    (all_products products : list product) :
  collect_batch batch_response all_products = Ok products ->
  products = all_products ++ batch_products batch_response.
Proof.
  unfold collect_batch, batch_products.
  destruct batch_response as [r|]; [|intros [= <-]; rewrite app_nil_r; reflexivity].
  destruct (truthy r) eqn:Ht.
  - intros H. bind_ok Hh. destruct a.
    + bind_ok Hi. bind_ok Hit. injection H as <-.
      destruct r; try discriminate Hi. cbn [item] in Hi.
      destruct (assoc (u"result") members); [|discriminate Hi].
      injection Hi as ->. destruct a; try discriminate Hit.
      cbn [items] in Hit. injection Hit as ->. reflexivity.
    + cbv beta iota in H. injection H as <-.
      destruct r; try (rewrite app_nil_r; reflexivity).
      cbn [has] in Hh. destruct (assoc (u"result") members); [discriminate Hh|].
      rewrite app_nil_r. reflexivity.
  - intros [= <-]. destruct r; try (rewrite app_nil_r; reflexivity).
    destruct members; [|discriminate Ht]. rewrite app_nil_r. reflexivity.
Qed.

Lemma detail_loop_products (batches : list (list pystr))
    (all_products products : list product) :
  detail_loop batches all_products = Ok products ->
  products = all_products ++ flat_map (fun b => batch_products (details b)) batches.
Proof.
  revert all_products. induction batches as [|b batches IH]; intros acc;
    cbn [detail_loop flat_map].
  - intros [= <-]. rewrite app_nil_r. reflexivity.
  - intros H. bind_ok Hc. rewrite (IH _ H), (collect_batch_products _ _ _ Hc).
    rewrite app_assoc. reflexivity.
Qed.

Lemma accepted_code_truthy (article_data : json) (p : product) :
  extract_product_data format_value article_data = Some p -> truthy (code p) = true.
Proof.
  unfold extract_product_data. intros H.
  destruct (extract_product_data_body format_value article_data) as [r|] eqn:Hb;
    [subst r | discriminate H].
  destruct (accepted_has_bundle _ _ _ Hb) as [bundle Hfb].
  destruct (accepted_fields _ _ _ _ Hfb Hb)
    as (name & b & cats & cl & parts & d & ingr & nd & _ & Hc & _).
  exact Hc.
Qed.

Lemma batch_products_coded (batch_response : option json) :
  Forall (fun p => truthy (code p) = true) (batch_products batch_response).
Proof.
  unfold batch_products. destruct batch_response as [[| | | | | |m]|];
    try constructor.
  destruct (assoc (u"result") m) as [[| | | | | |articles]|]; try constructor.
  induction articles as [|kv articles IH]; [constructor|].
  cbn [omap list_omap].
  destruct (extract_product_data format_value kv.2) as [p|] eqn:Hp; [|exact IH].
  apply Forall_cons_2; [|exact IH]. exact (accepted_code_truthy _ _ Hp).
Qed.

End Scrape.

Lemma slices_bounded {A : Type} (step : nat) (l : list A) :
  (0 < step)%nat ->
  Forall (fun b => b <> [] /\ (length b <= step)%nat) (Importer.slices step l).
Proof.
  intros Hs. remember (length l) as n eqn:Hn. revert l Hn.
  induction n as [n IH] using lt_wf_ind. intros l Hn.
  destruct l as [|x l].
  - rewrite ImporterFacts.slices_nil by exact Hs. constructor.
  - rewrite ImporterFacts.slices_cons by (exact Hs || discriminate).
    apply Forall_cons_2.
    + split.
      * destruct step; [lia | discriminate].
      * rewrite length_take. lia.
    + apply (IH (length (drop step (x :: l)))); [|reflexivity].
      rewrite length_drop. subst n. cbn [length]. lia.
Qed.

Lemma convert_members_strs (l : list key) (converted : list pystr) :
  convert_members l = Ok converted ->
  exists strs,
    l = map KStr strs /\ converted = map convert_variant_to_article_id strs.
Proof.
  revert converted. induction l as [|k l IH]; intros converted;
    cbn [convert_members].
  - intros [= <-]. exists []. split; reflexivity.
  - intros H. bind_ok Hk. bind_ok Hl. injection H as <-.
    destruct (IH _ eq_refl) as (strs & -> & ->).
    destruct k as [|s|n|x]; try discriminate Hk. injection Hk as <-.
    exists (s :: strs). split; reflexivity.
Qed.

Lemma list_to_set_map {A B : Type} `{Countable A} `{Countable B}
    (f : A -> B) (l : list A) :
  (list_to_set (map f l) : gset B) = set_map f (list_to_set l : gset A).
Proof.
  apply set_eq. intros y. rewrite elem_of_list_to_set, elem_of_map. split.
  - intros Hy. apply list_elem_of_fmap in Hy as (x & -> & Hx).
    exists x. split; [reflexivity|]. apply elem_of_list_to_set. exact Hx.
  - intros (x & -> & Hx). apply list_elem_of_fmap. exists x.
    split; [reflexivity|]. apply elem_of_list_to_set in Hx. exact Hx.
Qed.

(** X14.  When the scrape returns, every identifier found is a text, and
    the list returned is made of the accepted records of the answered
    batches, batch after batch and in the order of each answer: a batch
    whose request failed, or whose answer is empty or has no [result]
    object, contributes nothing and stops nothing.  Every record of the list
    has a non-empty code.  The batches hold between 1 and 20 identifiers
    each and, put end to end, every article identifier of the variants
    found exactly once. *)
Theorem scraped_products_come_from_batches (format_value : json -> pystr)
    (request : pystr -> Z -> option json)
    (details : list pystr -> option json) (listing : gset pystr -> list pystr)
    (tree_response : option json) (products : list product) :
  (forall s, listing s ≡ₚ elements s) ->
  scrape_all_products format_value request details listing tree_response
  = Ok products ->
  exists (variant_ids : gset pystr) requests batches,
    get_all_product_variant_ids request tree_response
    = Ok (set_map KStr variant_ids, requests)
    /\ concat batches
        ≡ₚ elements (set_map convert_variant_to_article_id variant_ids : gset pystr)
    /\ Forall (fun b => b <> [] /\ (length b <= 20)%nat) batches
    /\ products = flat_map (fun b => batch_products format_value (details b)) batches
    /\ Forall (fun p => truthy (code p) = true) products.
Proof.
  intros Hlisting. unfold scrape_all_products. intros H. bind_ok Hall.
  destruct a as [found requests]. cbn [fst] in H.
  assert (exists variant_ids : gset pystr,
             found = set_map KStr variant_ids
             /\ products
                = flat_map (fun b => batch_products format_value (details b))
                    (Importer.slices 20
                       (listing (set_map convert_variant_to_article_id
                                   variant_ids))))
    as (variant_ids & -> & Hp).
  { destruct (decide (found = ∅)) as [Hv|Hne].
    - injection H as <-. exists ∅. rewrite !set_map_empty. split; [exact Hv|].
      specialize (Hlisting ∅). rewrite elements_empty in Hlisting.
      apply Permutation_nil_r in Hlisting. rewrite Hlisting. reflexivity.
    - bind_ok Hconv. destruct (convert_members_strs _ _ Hconv) as (strs & He & ->).
      exists (list_to_set strs). split.
      + rewrite <- list_to_set_map, <- He. symmetry. apply list_to_set_elements_L.
      + rewrite <- list_to_set_map.
        rewrite (detail_loop_products _ _ _ _ _ H). reflexivity. }
  exists variant_ids, requests,
    (Importer.slices 20
       (listing (set_map convert_variant_to_article_id variant_ids))).
  split; [reflexivity|]. split.
  { rewrite ImporterFacts.concat_slices by lia. apply Hlisting. }
  split; [apply slices_bounded; lia|]. split; [exact Hp|].
  rewrite Hp. apply Forall_flat_map, Forall_forall. intros b _.
  apply batch_products_coded.
Qed.

(** A scrape of one category page with two variants of one article and one
    variant of another; the second article has no variants. *)
Definition request_one (category : pystr) (page : Z) : option json :=
  match page with
  | 1 => Some (JDict [(u"resultIds",
                       JList [JStr (u"BTY-X10032"); JStr (u"BTY-X10021");
                              JStr (u"BTY-X20032")]);
                      (u"totalPages", JInt 1)])
  | _ => None
  end.

Definition details_one (batch_ids : list pystr) : option json :=
  Some (JDict [(u"result",
                JDict (map (fun a => (a, if pystr_eqb a (u"BTY-X1")
                                         then article_plain else JDict []))
                         batch_ids))]).

Definition product_plain : product :=
  {| code := text "5901234123457"; product_name := JNull;
     quantity := None; brand := JNull; categories := None;
     ingredients := None; image_url := JNull; nutriscore_grade := JNull;
     energy_100g := None; fat_100g := None; saturated_fat_100g := None;
     proteins_100g := None; carbohydrates_100g := None; sugars_100g := None;
     fiber_100g := None; sodium_100g := None |}.

Lemma scraped_products_witness :
  exists (variant_ids : gset pystr) requests batches,
    get_all_product_variant_ids request_one None
    = Ok (set_map KStr variant_ids, requests)
    /\ concat batches
       ≡ₚ elements (set_map convert_variant_to_article_id variant_ids : gset pystr)
    /\ Forall (fun b => b <> [] /\ (length b <= 20)%nat) batches
    /\ [product_plain]
       = flat_map (fun b => batch_products format_text (details_one b)) batches
    /\ Forall (fun p => truthy (code p) = true) [product_plain].
Proof.
  refine (scraped_products_come_from_batches format_text request_one details_one
            elements None [product_plain] (fun s => Permutation_refl _) _).
  vm_compute. reflexivity.
Defined.

(** ** The keywords of a look-up *)

Lemma keywords_match (row_label : pystr) (keywords keywords' : list pystr) :
  (forall k, k ∈ keywords <-> k ∈ keywords') ->
  existsb (fun keyword => contains row_label keyword) keywords
  = existsb (fun keyword => contains row_label keyword) keywords'.
Proof.
  intros H. apply eq_true_iff_eq. rewrite !existsb_exists.
  split; intros (k & Hk & Hc); exists k; (split; [|exact Hc]);
    apply list_elem_of_In; apply H; apply list_elem_of_In; exact Hk.
Qed.

(** X3.  The keywords of a look-up are a set: their order and their repetitions
    do not matter.  Which row gives the value is decided by the order of the
    rows of the table alone, never by the order of the keywords. *)
Theorem keyword_order_is_irrelevant (nutrition_table : json)
    (keywords keywords' : list pystr) (unit : option pystr) :
  (forall k, k ∈ keywords <-> k ∈ keywords') ->
  extract_nutritional_value nutrition_table keywords unit
  = extract_nutritional_value nutrition_table keywords' unit.
Proof.
  intros H. unfold extract_nutritional_value.
  destruct (negb (truthy nutrition_table)); [reflexivity|].
  destruct (has nutrition_table (u"rows")) as [[|]|]; cbn [bind negb];
    try reflexivity.
  destruct (item nutrition_table (u"rows")) as [rows|]; cbn [bind];
    [|reflexivity].
  destruct (iter rows) as [l|]; cbn [bind]; [|reflexivity].
  induction l as [|row l IH]; [reflexivity|]. cbn [scan_rows].
  rewrite IH. unfold scan_row.
  destruct (get row (u"rowLabel") (JStr [])) as [lbl|]; cbn [bind]; [|reflexivity].
  destruct (str_lower lbl) as [row_label|]; cbn [bind]; [|reflexivity].
  rewrite (keywords_match row_label keywords keywords' H). reflexivity.
Qed.

Lemma keyword_order_witness :
  extract_nutritional_value (JDict [(u"rows", JList rows_fat)])
    [u"наситени"; u"мазнини"] None
  = extract_nutritional_value (JDict [(u"rows", JList rows_fat)])
      [u"мазнини"; u"наситени"; u"мазнини"] None.
Proof.
  refine (keyword_order_is_irrelevant (JDict [(u"rows", JList rows_fat)])
            [u"наситени"; u"мазнини"] [u"мазнини"; u"наситени"; u"мазнини"]
            None _).
  intros k. rewrite !elem_of_cons. tauto.
Defined.

(** * Further properties of the importer *)

Module ImporterRuns.

Import Importer ImporterFacts.

(** ** What a successful import stores *)

Lemma supplied_snoc (rows : list (pystr * list cell)) (row : pystr * list cell)
    (m : gmap pystr (list cell)) :
  supplied (rows ++ [row]) m = <[row.1 := row.2]> (supplied rows m).
Proof. unfold supplied. rewrite foldl_app. reflexivity. Qed.

(** The rows supplied for the code [c], in the order of the file. *)
Definition rows_of (c : pystr) (rows : list (pystr * list cell))
    : list (pystr * list cell) :=
  List.filter (fun row => pystr_eqb row.1 c) rows.

Lemma rows_of_app (c : pystr) (a b : list (pystr * list cell)) :
  rows_of c (a ++ b) = rows_of c a ++ rows_of c b.
Proof. apply List.filter_app. Qed.

Lemma supplied_lookup (rows : list (pystr * list cell))
    (m : gmap pystr (list cell)) (c : pystr) :
  supplied rows m !! c
  = match last (rows_of c rows) with
    | Some row => Some row.2
    | None => m !! c
    end.
Proof.
  induction rows as [|row rows IH] using rev_ind; [reflexivity|].
  rewrite supplied_snoc, rows_of_app. cbn [rows_of List.filter].
  destruct (pystr_eqb row.1 c) eqn:Hc.
  - apply pystr_eqb_eq in Hc. rewrite last_snoc, <- Hc. apply lookup_insert_eq.
  - rewrite app_nil_r, lookup_insert_ne; [exact IH|].
    intros He. rewrite He, pystr_eqb_refl in Hc. discriminate Hc.
Qed.

Lemma rows_of_nil (c : pystr) (rows : list (pystr * list cell)) :
  rows_of c rows = [] <-> c ∉ map fst rows.
Proof.
  induction rows as [|row rows IH]; cbn [rows_of List.filter map].
  - split; [intros _ H; inversion H | reflexivity].
  - destruct (pystr_eqb row.1 c) eqn:Hc.
    + apply pystr_eqb_eq in Hc. split; [discriminate|].
      intros H. exfalso. apply H. rewrite Hc. left.
    + fold (rows_of c rows). rewrite IH. split.
      * intros H Hin. apply elem_of_cons in Hin as [->|Hin]; [|exact (H Hin)].
        rewrite pystr_eqb_refl in Hc. discriminate Hc.
      * intros H Hin. apply H. right. exact Hin.
Qed.

(** The codes of the cleaned rows are the texts that [astype(str)] makes of
    the code values of the rows that have one. *)
Lemma cleaned_codes (to_numeric : cell -> cell) (float_str : float -> pystr)
    (df : list csv_row) (c : pystr) :
  c ∈ map fst (map row_data (clean_csv_data to_numeric float_str df))
  <-> exists r, r ∈ df /\ has_code r = true /\ code_str float_str (code r) = c.
Proof.
  unfold clean_csv_data. rewrite !map_map. cbn [row_data fst code_text].
  split.
  - intros H. apply list_elem_of_In, in_map_iff in H as (r & <- & Hin).
    apply filter_In in Hin as [Hin Hr].
    exists r. split; [apply list_elem_of_In; exact Hin|]. auto.
  - intros (r & Hin & Hr & <-). apply list_elem_of_In, in_map_iff.
    exists r. split; [reflexivity|].
    apply filter_In. split; [apply list_elem_of_In; exact Hin | exact Hr].
Qed.

(** X15.  After a successful import with a positive batch size and at
    least one row with a code, the codes of the stored table are exactly
    the texts that [astype(str)] makes of the code values of the frame: no
    row of an earlier run is left.  The text is that of the value as pandas
    read it, not that of the file: a code that was read as an integer is
    stored without its leading zeros. *)
Theorem import_stores_the_codes_of_the_frame (to_numeric : cell -> cell)
    (float_str : float -> pystr) (df : list csv_row) (batch_size : Z)
    (db db' : table) (c : pystr) :
  0 < batch_size ->
  clean_csv_data to_numeric float_str df <> [] ->
  import_csv_to_metro_source to_numeric float_str true (Some df) true batch_size db
  = (Returns true, db') ->
  is_Some (db' !! c)
  <-> exists r, r ∈ df /\ has_code r = true /\ code_str float_str (code r) = c.
Proof.
  intros Hb Hne H. rewrite <- (cleaned_codes to_numeric).
  pose proof (import_replaces _ _ _ _ _ _ Hb Hne H) as Hd.
  apply (f_equal (fun m => m !! c)) in Hd.
  unfold contents in Hd. rewrite lookup_fmap, supplied_lookup, lookup_empty in Hd.
  destruct (last (rows_of c _)) as [row|] eqn:Hl.
  - split.
    + intros _.
      destruct (decide (c ∈ map fst (map row_data
                                    (clean_csv_data to_numeric float_str df))))
        as [Hin|Hout]; [exact Hin|].
      apply rows_of_nil in Hout. rewrite Hout in Hl. discriminate Hl.
    + intros _. destruct (db' !! c); [eauto | discriminate Hd].
  - split.
    + intros [x Hx]. rewrite Hx in Hd. discriminate Hd.
    + intros Hin. exfalso. apply last_None in Hl. apply rows_of_nil in Hl.
      exact (Hl Hin).
Qed.

(** A frame whose column [code] holds integers, as pandas reads a column
    of digits: the leading zeros of [0012345678905] are not in the value. *)
Definition csv_whole : list csv_row :=
  [{| code := Whole 12345678905; fields := [Text (u"Сирене")] |}].

Definition table_whole : table :=
  {[ u"12345678905" :=
       {| values := [Text (u"Сирене")]; created_at := ColumnDefault |} ]}.

Example import_whole_code :
  import_csv_to_metro_source no_coercion no_float true (Some csv_whole) true 1000
    old_table
  = (Returns true, table_whole).
Proof. vm_compute. reflexivity. Qed.

Lemma import_stores_the_codes_witness :
  is_Some (table_whole !! u"0012345678905")
  <-> exists r, r ∈ csv_whole /\ has_code r = true
                /\ code_str no_float (code r) = u"0012345678905".
Proof.
  refine (import_stores_the_codes_of_the_frame no_coercion no_float csv_whole
            1000 old_table table_whole (u"0012345678905") _ _ _).
  - lia.
  - vm_compute. discriminate.
  - vm_compute. reflexivity.
Defined.

(** X16.  After a successful import with a positive batch size and at
    least one row with a code, a stored row has the values of the last row of
    the cleaned frame with its code: within a run the later of two rows
    with one code wins. *)
Theorem import_keeps_the_last_row_of_a_code (to_numeric : cell -> cell)
    (float_str : float -> pystr) (df : list csv_row) (batch_size : Z)
    (db db' : table) (c : pystr) :
  0 < batch_size ->
  clean_csv_data to_numeric float_str df <> [] ->
  import_csv_to_metro_source to_numeric float_str true (Some df) true batch_size db
  = (Returns true, db') ->
  values <$> db' !! c
  = snd <$> last (rows_of c (map row_data
                               (clean_csv_data to_numeric float_str df))).
Proof.
  intros Hb Hne H. pose proof (import_replaces _ _ _ _ _ _ Hb Hne H) as Hd.
  apply (f_equal (fun m => m !! c)) in Hd.
  unfold contents in Hd. rewrite lookup_fmap, supplied_lookup, lookup_empty in Hd.
  rewrite Hd. destruct (last _); reflexivity.
Qed.

Lemma import_keeps_the_last_row_witness :
  values <$> ({[ u"5901234123457" :=
                   {| values := [Text (u"Кашкавал")]; created_at := Now 1 |} ]}
              : table) !! u"5901234123457"
  = snd <$> last (rows_of (u"5901234123457")
                    (map row_data
                       (clean_csv_data no_coercion no_float
                          [csv "5901234123457" "Сирене";
                           csv "5901234123457" "Кашкавал"]))).
Proof.
  refine (import_keeps_the_last_row_of_a_code no_coercion no_float
            [csv "5901234123457" "Сирене"; csv "5901234123457" "Кашкавал"]
            1 old_table _ (u"5901234123457") _ _ _).
  - lia.
  - vm_compute. discriminate.
  - vm_compute. reflexivity.
Defined.

(** ** Statements that repeat a code, and failed runs *)

(** No statement of the batch proposes a code twice. *)
Definition statements_distinct (batch_data : list (pystr * list cell)) : Prop :=
  Forall (fun page => NoDup (map fst page)) (slices page_size batch_data).

Lemma pages_distinct (transaction : nat) (pages : list (list (pystr * list cell)))
    (t t' : table) :
  foldl (fun acc page =>
           match acc with
           | Some t' => insert_statement transaction t' page
           | None => None
           end) (Some t) pages = Some t' ->
  Forall (fun page => NoDup (map fst page)) pages.
Proof.
  revert t. induction pages as [|p pages IH]; intros t; cbn [foldl];
    [constructor|].
  unfold insert_statement at 2.
  destruct (bool_decide (NoDup (map fst p))) eqn:Hp;
    [|rewrite pages_none; discriminate].
  intros H. apply Forall_cons_2; [|exact (IH _ H)].
  apply bool_decide_eq_true in Hp. exact Hp.
Qed.

Lemma batch_loop_distinct (batches : list (list clean_row)) (transaction : nat)
    (work committed db' : table) :
  batch_loop transaction batches work committed = (true, db') ->
  Forall (fun batch_df => statements_distinct (map row_data batch_df)) batches.
Proof.
  revert transaction work committed.
  induction batches as [|b batches IH]; intros transaction work committed H;
    [constructor|].
  cbn [batch_loop] in H.
  destruct (execute_values transaction work (map row_data b)) as [work'|] eqn:He;
    [|discriminate H].
  apply Forall_cons_2; [|exact (IH _ _ _ H)].
  exact (pages_distinct _ _ _ _ He).
Qed.

(** X17.  An import returns [True] only if the file exists, the frame was
    read and the connection made; and then either the batch size is
    negative and the table is as it was before the run, or the batch size is
    positive and no statement (100 rows of a batch) proposes a code twice: a
    file with the same code twice among the rows of one statement cannot be
    imported. *)
Theorem import_succeeds_only_without_repeated_codes (to_numeric : cell -> cell)
    (float_str : float -> pystr) (file_exists : bool)
    (frame : option (list csv_row)) (connects : bool) (batch_size : Z)
    (db db' : table) :
  import_csv_to_metro_source to_numeric float_str file_exists frame connects
    batch_size db
  = (Returns true, db') ->
  file_exists = true /\ connects = true
  /\ exists df,
       frame = Some df
       /\ (batch_size < 0 /\ db' = db
           \/ 0 < batch_size
              /\ Forall (fun batch_df => statements_distinct (map row_data batch_df))
                   (slices (Z.to_nat batch_size)
                      (clean_csv_data to_numeric float_str df))).
Proof.
  unfold import_csv_to_metro_source. intros H.
  destruct file_exists; [|discriminate H]. cbn [negb] in H.
  destruct frame as [df|]; [|discriminate H].
  destruct connects; [|discriminate H]. cbn [negb] in H.
  split; [reflexivity|]. split; [reflexivity|]. exists df. split; [reflexivity|].
  destruct (batch_size =? 0) eqn:H0; [discriminate H|]. apply Z.eqb_neq in H0.
  destruct (batch_size <? 0) eqn:Hn.
  - apply Z.ltb_lt in Hn. injection H as <-. left. auto.
  - apply Z.ltb_ge in Hn. right. split; [lia|].
    destruct (batch_loop 0 _ ∅ db) as [ok db1] eqn:Hl. injection H as -> ->.
    exact (batch_loop_distinct _ _ _ _ _ Hl).
Qed.

Lemma import_succeeds_only_witness :
  true = true /\ true = true
  /\ exists df,
       Some [csv "5901234123457" "Сирене"; csv "5901234123457" "Кашкавал"]
       = Some df
       /\ (1 < 0
              /\ ({[ u"5901234123457" :=
                       {| values := [Text (u"Кашкавал")]; created_at := Now 1 |} ]}
                  : table) = old_table
           \/ 0 < 1
              /\ Forall (fun batch_df => statements_distinct (map row_data batch_df))
                   (slices (Z.to_nat 1) (clean_csv_data no_coercion no_float df))).
Proof.
  refine (import_succeeds_only_without_repeated_codes no_coercion no_float true
            (Some [csv "5901234123457" "Сирене"; csv "5901234123457" "Кашкавал"])
            true 1 old_table
            {[ u"5901234123457" :=
                 {| values := [Text (u"Кашкавал")]; created_at := Now 1 |} ]} _).
  vm_compute. reflexivity.
Defined.

(** A run of the batch loop that fails has committed the batches before the
    failing one. *)
Lemma batch_loop_fails (batches : list (list clean_row)) (transaction : nat)
    (work committed db' : table) :
  batch_loop transaction batches work committed = (false, db') ->
  exists done batch_df rest,
    batches = done ++ batch_df :: rest
    /\ (done = [] -> db' = committed)
    /\ (done <> [] ->
        contents db' = supplied (concat (map (map row_data) done)) (contents work)).
Proof.
  revert transaction work committed.
  induction batches as [|b batches IH]; intros transaction work committed H;
    [discriminate H|].
  cbn [batch_loop] in H.
  destruct (execute_values transaction work (map row_data b)) as [work'|] eqn:He.
  - destruct (IH _ _ _ H) as (done & batch_df & rest & -> & Hnil & Hcons).
    exists (b :: done), batch_df, rest. split; [reflexivity|].
    split; [discriminate|]. intros _. cbn [map concat].
    unfold supplied. rewrite foldl_app.
    fold (supplied (map row_data b) (contents work)).
    rewrite <- (execute_values_contents _ _ _ _ He).
    destruct done as [|d done].
    + rewrite (Hnil eq_refl). reflexivity.
    + apply Hcons. discriminate.
  - injection H as <-. exists [], b, batches. split; [reflexivity|].
    split; [reflexivity | congruence].
Qed.

(** X18.  A failed import is not undone as a whole.  Either no batch was
    committed and the table is as it was before the run; or the table
    holds the rows of the batches before the failing one and nothing else:
    the rows of the earlier run are gone and the file is stored in part. *)
Theorem failed_import_keeps_the_committed_batches (to_numeric : cell -> cell)
    (float_str : float -> pystr) (df : list csv_row) (batch_size : Z)
    (db db' : table) :
  0 < batch_size ->
  import_csv_to_metro_source to_numeric float_str true (Some df) true batch_size db
  = (Returns false, db') ->
  exists done batch_df rest,
    slices (Z.to_nat batch_size) (clean_csv_data to_numeric float_str df)
    = done ++ batch_df :: rest
    /\ (done = [] -> db' = db)
    /\ (done <> [] -> contents db' = supplied (map row_data (concat done)) ∅).
Proof.
  intros Hb H. rewrite (import_batch_loop _ _ _ _ _ Hb) in H.
  destruct (batch_loop 0 _ ∅ db) as [ok db1] eqn:Hl. cbn [fst snd] in H.
  injection H as -> ->.
  destruct (batch_loop_fails _ _ _ _ _ Hl) as (done & batch_df & rest & He & Hnil & Hcons).
  exists done, batch_df, rest. split; [exact He|]. split; [exact Hnil|].
  intros Hd. rewrite (Hcons Hd), <- concat_map.
  unfold contents. rewrite fmap_empty. reflexivity.
Qed.

Definition partial_table : table :=
  {[ u"5901234123457" :=
       {| values := [Text (u"Сирене")]; created_at := ColumnDefault |};
     u"4000000000000" :=
       {| values := [Text (u"Масло")]; created_at := ColumnDefault |} ]}.

Definition csv_repeat : list csv_row :=
  [csv "5901234123457" "Сирене"; csv "4000000000000" "Масло";
   csv "7000000000000" "Хляб"; csv "7000000000000" "Питка"].

Lemma failed_import_witness :
  exists done batch_df rest,
    slices (Z.to_nat 2) (clean_csv_data no_coercion no_float csv_repeat)
    = done ++ batch_df :: rest
    /\ (done = [] -> partial_table = old_table)
    /\ (done <> [] -> contents partial_table = supplied (map row_data (concat done)) ∅).
Proof.
  refine (failed_import_keeps_the_committed_batches no_coercion no_float csv_repeat
            2 old_table partial_table _ _).
  - lia.
  - vm_compute. reflexivity.
Defined.

(** ** The registry after a run of the reconciler *)

(** What the [UPDATE] makes of one row. *)
Definition tag (source : table) (r : registry_row) : registry_row :=
  if update_where source r
  then {| r_code := r_code r; sources := array_append (sources r) |}
  else r.

(** The codes that the [INSERT] adds. *)
Definition new_codes (source : table) (registry : list registry_row) : list pystr :=
  filter (fun c => c ∉ map r_code registry) (map fst (map_to_list source)).

Definition metro_only (c : pystr) : registry_row :=
  {| r_code := c; sources := Some [Some metro] |}.

Lemma stored_run (source : table) (registry : list registry_row) :
  update_food_item_sources true source registry
  = (true, map (tag source) registry ++ map metro_only (new_codes source registry),
     (length (List.filter (update_where source) registry),
      length (new_codes source registry))).
Proof.
  unfold update_food_item_sources, insert_new, tag_existing, new_codes. cbn [negb].
  pose proof (tag_existing_settles source registry) as [_ Hc].
  cbn [tag_existing fst] in Hc. rewrite Hc. reflexivity.
Qed.

Lemma tag_code (source : table) (r : registry_row) : r_code (tag source r) = r_code r.
Proof. unfold tag. destruct (update_where source r); reflexivity. Qed.

Lemma new_codes_spec (source : table) (registry : list registry_row) (c : pystr) :
  c ∈ new_codes source registry
  <-> is_Some (source !! c) /\ c ∉ map r_code registry.
Proof.
  unfold new_codes. rewrite list_elem_of_filter. split.
  - intros [Hn Hin]. apply list_elem_of_fmap in Hin as ([k v] & -> & Hin).
    split; [|exact Hn]. apply elem_of_map_to_list in Hin. cbn [fst]. eauto.
  - intros [[v Hv] Hn]. split; [exact Hn|]. apply list_elem_of_fmap.
    exists (c, v). split; [reflexivity|]. apply elem_of_map_to_list. exact Hv.
Qed.

Lemma new_codes_NoDup (source : table) (registry : list registry_row) :
  NoDup (new_codes source registry).
Proof. apply NoDup_filter, NoDup_fst_map_to_list. Qed.

(** X19.  The reconciler removes nothing.  The rows of the registry are still
    there after a run, in their order and with their codes; the tags of a
    row are still there in their order, with at most one tag [metro] put
    after them; and a row whose code is not in the source table, or that has
    the tag already, is as it was: a tag [metro] is never taken away from a
    code that has left the source table. *)
Theorem reconciler_removes_nothing (source : table) (registry : list registry_row) :
  exists kept added,
    stored (update_food_item_sources true source registry) = kept ++ added
    /\ Forall2 (fun r r' =>
                  r_code r' = r_code r
                  /\ (r' = r
                      \/ sources r' = Some (default [] (sources r) ++ [Some metro]))
                  /\ (source !! r_code r = None -> r' = r)
                  /\ (metro_any (sources r) = Some true -> r' = r))
         registry kept
    /\ Forall (fun r' => sources r' = Some [Some metro]
                         /\ is_Some (source !! r_code r')
                         /\ r_code r' ∉ map r_code registry) added
    /\ NoDup (map r_code added).
Proof.
  rewrite stored_run. unfold stored. cbn [fst snd].
  exists (map (tag source) registry), (map metro_only (new_codes source registry)).
  split; [reflexivity|]. split; [|split].
  - induction registry as [|r registry IH]; cbn [map]; constructor; [|exact IH].
    unfold tag, update_where.
    destruct (bool_decide (is_Some (source !! r_code r))) eqn:Hs; cbn [andb].
    + apply bool_decide_eq_true in Hs.
      destruct (metro_any (sources r)) as [[|]|] eqn:Hm; cbn [r_code sources];
        (split; [reflexivity|]);
        (split; [first [left; reflexivity | right; reflexivity]|]);
        split; intros H; try reflexivity; try discriminate H.
      rewrite H in Hs. destruct Hs as [x Hx]. discriminate Hx.
    + repeat split; auto.
  - apply Forall_forall. intros r' Hin. apply list_elem_of_fmap in Hin as (c & -> & Hc).
    apply new_codes_spec in Hc as [Hs Hn]. cbn [metro_only sources r_code]. auto.
  - rewrite map_map. cbn [metro_only r_code]. rewrite map_id.
    apply new_codes_NoDup.
Qed.

Lemma filter_none {A : Type} (f : A -> bool) (l : list A) :
  (forall x, x ∈ l -> f x = false) -> List.filter f l = [].
Proof.
  induction l as [|x l IH]; intros H; [reflexivity|]. cbn [List.filter].
  rewrite (H x) by left. apply IH. intros y Hy. apply H. right. exact Hy.
Qed.

(** X20.  SQL's NULL: a row whose array of tags is NULL, or holds a NULL and no
    [metro], is not selected by the [UPDATE] although its code is in the
    source table.  It is left as it was, without the tag, and no other row
    is added for its code. *)
Theorem null_tags_are_never_completed (source : table)
    (registry : list registry_row) (r : registry_row) :
  r ∈ registry ->
  metro_any (sources r) = None ->
  r ∈ stored (update_food_item_sources true source registry)
  /\ length (List.filter (fun r' => pystr_eqb (r_code r') (r_code r))
               (stored (update_food_item_sources true source registry)))
     = length (List.filter (fun r' => pystr_eqb (r_code r') (r_code r)) registry).
Proof.
  intros Hin Hm. rewrite stored_run. unfold stored. cbn [fst snd]. split.
  - apply elem_of_app. left. apply list_elem_of_fmap. exists r.
    split; [|exact Hin]. unfold tag, update_where. rewrite Hm, andb_false_r.
    reflexivity.
  - rewrite List.filter_app, length_app.
    assert (List.filter (fun r' => pystr_eqb (r_code r') (r_code r))
              (map metro_only (new_codes source registry)) = []) as ->.
    { apply filter_none. intros r' Hr'.
      apply list_elem_of_fmap in Hr' as (c & -> & Hc). cbn [metro_only r_code].
      destruct (pystr_eqb c (r_code r)) eqn:He; [|reflexivity].
      apply pystr_eqb_eq in He. subst c.
      apply new_codes_spec in Hc as [_ Hn]. exfalso. apply Hn.
      apply list_elem_of_fmap. exists r. split; [reflexivity | exact Hin]. }
    cbn [length]. rewrite Nat.add_0_r. clear Hin Hm.
    induction registry as [|x registry IH]; [reflexivity|].
    cbn [map List.filter]. rewrite tag_code.
    destruct (pystr_eqb (r_code x) (r_code r)); cbn [length]; rewrite IH; reflexivity.
Qed.

Definition source_sample : table :=
  {[ u"5901234123457" := {| values := []; created_at := ColumnDefault |};
     u"3800020400012" := {| values := []; created_at := ColumnDefault |} ]}.

Definition row_null : registry_row :=
  {| r_code := u"5901234123457"; sources := None |}.

Definition row_off : registry_row :=
  {| r_code := u"4000000000000"; sources := Some [Some (u"off")] |}.

Lemma null_tags_witness :
  row_null ∈ stored (update_food_item_sources true source_sample [row_null; row_off])
  /\ length (List.filter (fun r' => pystr_eqb (r_code r') (r_code row_null))
               (stored (update_food_item_sources true source_sample
                          [row_null; row_off])))
     = length (List.filter (fun r' => pystr_eqb (r_code r') (r_code row_null))
                 [row_null; row_off]).
Proof.
  refine (null_tags_are_never_completed source_sample [row_null; row_off]
            row_null _ _).
  - left.
  - reflexivity.
Defined.


(** The rows that hold the tag: ['metro' = ANY (sources)] is true. *)
Definition tagged (r : registry_row) : bool :=
  match metro_any (sources r) with
  | Some true => true
  | _ => false
  end.

(** No array of the registry is NULL or holds a NULL without [metro]. *)
Definition null_free (registry : list registry_row) : Prop :=
  Forall (fun r => metro_any (sources r) <> None) registry.

Lemma tag_tagged (source : table) (r : registry_row) :
  tagged (tag source r) = tagged r || update_where source r.
Proof.
  unfold tag, tagged, update_where.
  destruct (bool_decide (is_Some (source !! r_code r))); cbn [andb];
    [|rewrite orb_false_r; reflexivity].
  destruct (metro_any (sources r)) as [[|]|] eqn:Hm; cbn [sources];
    rewrite ?metro_any_append, ?Hm; reflexivity.
Qed.

(** X21.  In a registry without NULL tags, every row whose code is in the source
    table holds the tag [metro] after a run. *)
Theorem reconciler_tags_every_source_code (source : table)
    (registry : list registry_row) (r' : registry_row) :
  null_free registry ->
  r' ∈ stored (update_food_item_sources true source registry) ->
  is_Some (source !! r_code r') ->
  metro_any (sources r') = Some true.
Proof.
  intros Hnf Hin Hs. rewrite stored_run in Hin. unfold stored in Hin.
  cbn [fst snd] in Hin. apply elem_of_app in Hin as [Hin|Hin].
  - apply list_elem_of_fmap in Hin as (r & -> & Hr).
    unfold null_free in Hnf. rewrite Forall_forall in Hnf. specialize (Hnf r Hr).
    rewrite tag_code in Hs. pose proof (tag_tagged source r) as Ht.
    unfold tagged at 1 2, update_where in Ht.
    rewrite (bool_decide_eq_true_2 _ Hs) in Ht. cbn [andb] in Ht.
    destruct (metro_any (sources (tag source r))) as [[|]|];
      destruct (metro_any (sources r)) as [[|]|];
      try discriminate Ht; try reflexivity; congruence.
  - apply list_elem_of_fmap in Hin as (c & -> & _). cbn [metro_only sources].
    unfold metro_any. rewrite bool_decide_eq_true_2; [reflexivity|].
    apply list_elem_of_singleton. reflexivity.
Qed.

Definition row_open : registry_row :=
  {| r_code := u"5901234123457"; sources := Some [Some (u"off")] |}.

Definition row_tagged : registry_row :=
  {| r_code := u"5901234123457"; sources := Some [Some (u"off"); Some metro] |}.

Lemma reconciler_tags_witness : metro_any (sources row_tagged) = Some true.
Proof.
  refine (reconciler_tags_every_source_code source_sample [row_open; row_off]
            row_tagged _ _ _).
  - repeat constructor; vm_compute; discriminate.
  - vm_compute. left.
  - vm_compute. eauto.
Defined.

(** X22.  The [INSERT] adds no second row for a code: a registry whose codes are
    distinct has distinct codes after a run. *)
Theorem reconciler_keeps_codes_distinct (source : table)
    (registry : list registry_row) :
  NoDup (map r_code registry) ->
  NoDup (map r_code (stored (update_food_item_sources true source registry))).
Proof.
  intros Hnd. rewrite stored_run. unfold stored. cbn [fst snd].
  rewrite map_app, !map_map.
  rewrite (map_ext (fun r => r_code (tag source r)) r_code) by apply tag_code.
  cbn [metro_only r_code]. rewrite map_id. apply NoDup_app. split; [exact Hnd|].
  split; [|apply new_codes_NoDup].
  intros c Hc Hn. apply new_codes_spec in Hn as [_ Hn]. exact (Hn Hc).
Qed.

Lemma reconciler_keeps_codes_distinct_witness :
  NoDup (map r_code (stored (update_food_item_sources true source_sample
                               [row_open; row_off]))).
Proof.
  refine (reconciler_keeps_codes_distinct source_sample [row_open; row_off] _).
  vm_compute. repeat constructor; rewrite ?elem_of_cons; intros H;
    repeat (destruct H as [H|H]; [discriminate H|]); inversion H.
Defined.

Lemma count_tag (source : table) (registry : list registry_row) :
  length (List.filter tagged (map (tag source) registry))
  = (length (List.filter tagged registry)
     + length (List.filter (update_where source) registry))%nat.
Proof.
  induction registry as [|r registry IH]; [reflexivity|].
  cbn [map List.filter]. rewrite tag_tagged.
  assert (tagged r && update_where source r = false) as Hx.
  { unfold tagged, update_where.
    destruct (metro_any (sources r)) as [[|]|]; rewrite ?andb_false_r; reflexivity. }
  destruct (tagged r), (update_where source r); try discriminate Hx;
    cbn [orb length]; rewrite IH; lia.
Qed.

(** X23.  The two row counts that a run logs account for the change of the
    registry: the rows that hold the tag [metro] grow by the number of rows
    updated plus the number of rows inserted, and the rows of the registry
    by the number of rows inserted. *)
Theorem reconciler_counts_add_up (source : table) (registry registry' : list registry_row)
    (updated_count inserted_count : nat) :
  update_food_item_sources true source registry
  = (true, registry', (updated_count, inserted_count)) ->
  length (List.filter tagged registry')
  = (length (List.filter tagged registry) + updated_count + inserted_count)%nat
  /\ length registry' = (length registry + inserted_count)%nat
  /\ (updated_count <= length registry - length (List.filter tagged registry))%nat
  /\ (inserted_count <= size source)%nat.
Proof.
  rewrite stored_run. intros [= <- <- <-].
  rewrite List.filter_app, !length_app, !length_map, count_tag.
  assert (List.filter tagged (map metro_only (new_codes source registry))
          = map metro_only (new_codes source registry)) as ->.
  { induction (new_codes source registry) as [|c l IH]; [reflexivity|].
    cbn [map List.filter]. rewrite IH. reflexivity. }
  rewrite length_map. split; [lia|]. split; [reflexivity|]. split.
  - clear. induction registry as [|r registry IH]; [reflexivity|].
    cbn [List.filter length].
    assert (tagged r && update_where source r = false) as Hx.
    { unfold tagged, update_where.
      destruct (metro_any (sources r)) as [[|]|]; rewrite ?andb_false_r; reflexivity. }
    pose proof (List.filter_length_le tagged registry).
    destruct (tagged r), (update_where source r); try discriminate Hx;
      cbn [length]; lia.
  - unfold new_codes. etransitivity; [apply length_filter|].
    rewrite length_map, length_map_to_list. reflexivity.
Qed.


Lemma reconciler_counts_witness :
  length (List.filter tagged [row_tagged; row_off; metro_only (u"3800020400012")])
  = (length (List.filter tagged [row_open; row_off]) + 1 + 1)%nat
  /\ length [row_tagged; row_off; metro_only (u"3800020400012")]
     = (length [row_open; row_off] + 1)%nat
  /\ (1 <= length [row_open; row_off]
           - length (List.filter tagged [row_open; row_off]))%nat
  /\ (1 <= size source_sample)%nat.
Proof.
  refine (reconciler_counts_add_up source_sample [row_open; row_off]
            [row_tagged; row_off; metro_only (u"3800020400012")] 1 1 _).
  vm_compute. reflexivity.
Defined.

(** ** [run_import] *)

(** The two steps of a run.  Each step opens a connection of its own; the
    import runs with the batch size of its signature, 1000.  What the import
    raises, the run raises. *)
Definition run_import (to_numeric : cell -> cell) (float_str : float -> pystr)
    (file_exists : bool) (frame : option (list csv_row))
    (connects_import connects_update : bool)
    (db : table) (registry : list registry_row)
    : outcome * table * list registry_row :=
  let '(imported, db') :=
    import_csv_to_metro_source to_numeric float_str file_exists frame
      connects_import 1000 db in
  match imported with
  | RaisesUnboundLocalError => (RaisesUnboundLocalError, db', registry)
  | Returns false => (Returns false, db', registry)
  | Returns true =>
      let '(updated, registry', _) :=
        update_food_item_sources connects_update db' registry in
      if negb updated then (Returns false, db', registry')
      else (Returns true, db', registry')
  end.

(** X24.  After a successful run, the text that [astype(str)] makes of the
    code value of every row of the frame that has one is a code of the
    source table and has a row in the registry. *)
Theorem run_import_registers_the_frame (to_numeric : cell -> cell)
    (float_str : float -> pystr) (file_exists : bool)
    (frame : option (list csv_row))
    (connects_import connects_update : bool) (db db' : table)
    (registry registry' : list registry_row) (df : list csv_row) (r : csv_row) :
  run_import to_numeric float_str file_exists frame connects_import
    connects_update db registry
  = (Returns true, db', registry') ->
  frame = Some df -> r ∈ df -> has_code r = true ->
  is_Some (db' !! code_str float_str (code r))
  /\ code_str float_str (code r) ∈ map r_code registry'.
Proof.
  unfold run_import. intros H -> Hr Hc.
  destruct (import_csv_to_metro_source to_numeric float_str file_exists (Some df)
              connects_import 1000 db) as [imported db1] eqn:Hi.
  destruct imported as [[|]|]; try discriminate H.
  destruct connects_update; [|discriminate H].
  rewrite stored_run in H. cbn [negb] in H. injection H as <- <-.
  assert (file_exists = true /\ connects_import = true) as [-> ->].
  { unfold import_csv_to_metro_source in Hi.
    destruct file_exists; [|discriminate Hi].
    destruct connects_import; [|discriminate Hi]. auto. }
  set (c := code_str float_str (code r)).
  assert (c ∈ map fst (map row_data (clean_csv_data to_numeric float_str df)))
    as Hin by (apply cleaned_codes; exists r; auto).
  assert (clean_csv_data to_numeric float_str df <> []) as Hdf.
  { intros He. rewrite He in Hin. inversion Hin. }
  assert (is_Some (db1 !! c)) as Hs.
  { assert (0 < 1000) as Hb by lia.
    pose proof (import_replaces _ _ _ _ _ _ Hb Hdf Hi) as Hd.
    apply (f_equal (fun m => m !! c)) in Hd.
    unfold contents in Hd. rewrite lookup_fmap, supplied_lookup, lookup_empty in Hd.
    destruct (last (rows_of c _)) as [row|] eqn:Hl.
    - destruct (db1 !! c); [eauto | discriminate Hd].
    - exfalso. apply last_None in Hl. apply rows_of_nil in Hl. exact (Hl Hin). }
  split; [exact Hs|].
  rewrite map_app, !map_map.
  rewrite (map_ext (fun r => r_code (tag db1 r)) r_code) by apply tag_code.
  cbn [metro_only r_code]. rewrite map_id. apply elem_of_app.
  destruct (decide (c ∈ map r_code registry)) as [Hreg|Hout]; [left; exact Hreg|].
  right. apply new_codes_spec. split; assumption.
Qed.

Lemma run_import_registers_witness :
  is_Some (table_whole !! code_str no_float (Whole 12345678905))
  /\ code_str no_float (Whole 12345678905)
     ∈ map r_code [row_open; row_off; metro_only (u"12345678905")].
Proof.
  refine (run_import_registers_the_frame no_coercion no_float true (Some csv_whole)
            true true old_table table_whole
            [row_open; row_off] [row_open; row_off; metro_only (u"12345678905")]
            csv_whole {| code := Whole 12345678905; fields := [Text (u"Сирене")] |}
            _ _ _ _).
  - vm_compute. reflexivity.
  - reflexivity.
  - left.
  - reflexivity.
Defined.

End ImporterRuns.
